(** * Tenant-scoped discount master data, category-discount detail and
      item-book editing: a shallow embedding and its properties

    The development follows the layering of the services: document
    models, the generic document repository, the two tenant-scoped
    discount repositories, the services on top of them, the detail
    endpoint of the API layer, the cart-side web repository with its
    list cache, and the nested item-book editor. *)

From Stdlib Require Import ZArith.
From Stdlib Require Import Floats.PrimFloat Floats.SpecFloat Floats.FloatOps Floats.FloatAxioms.
From stdpp Require Import gmap strings list fin_maps sorting.

Local Open Scope Z_scope.

(** * Python values, exceptions and the effect monad *)

(** Values that travel in query filters, update dictionaries and JSON
    payloads: [None], a [str] or a [float]. *)
Inductive pyval : Type :=
  | VNone
  | VStr (s : string)
  | VFloat (f : float).

Definition of_str (o : option string) : pyval :=
  match o with Some s => VStr s | None => VNone end.

Definition of_float (o : option float) : pyval :=
  match o with Some f => VFloat f | None => VNone end.

(** Equality as the document store decides it in an equality filter:
    strings by content, numbers by numeric comparison, null with null. *)
Definition pyval_eqb (a b : pyval) : bool :=
  match a, b with
  | VNone, VNone => true
  | VStr s, VStr t => bool_decide (s = t)
  | VFloat f, VFloat g => PrimFloat.eqb f g
  | _, _ => false
  end.

(** [str(x)] inside an f-string for an [Optional[str]]. *)
Definition fmt (o : option string) : string :=
  match o with Some s => s | None => "None" end.

(** Levels of the item-book tree. *)
Inductive level : Type := BookLevel | CategoryLevel | TabLevel | ButtonLevel.

(** The exception classes the code raises. *)
Inductive exn : Type :=
  | DocumentNotFoundException (message : string)
  | DocumentAlreadyExistsException (message : string)
  | NotFoundException (message : string)
  | RepositoryException (message : string)
  | ValidationError (message : string)
  | TypeError (message : string)
  | Exception (message : string)
  (* the item-book editor reports the level of the nested tree at which
     an element is missing or already present *)
  | NotFound (missing : level)
  | AlreadyExists (existing : level).

Inductive result (A : Type) : Type :=
  | Ok (a : A)
  | Raise (e : exn).
Arguments Ok {A} a.
Arguments Raise {A} e.

(** A computation over a mutable store [S] that returns or raises.  The
    store is threaded through a raise as well: what was written before an
    exception stays written. *)
Definition M (S A : Type) : Type := S → result A * S.

Definition raise {S A} (e : exn) : M S A := λ s, (Raise e, s).

#[export] Instance M_ret {S} : MRet (M S) := λ A a s, (Ok a, s).
#[export] Instance M_bind {S} : MBind (M S) := λ A B k c s,
  match c s with
  | (Ok a, s') => k a s'
  | (Raise e, s') => (Raise e, s')
  end.

#[export] Instance result_ret : MRet result := λ A a, Ok a.
#[export] Instance result_bind : MBind result := λ A B k r,
  match r with Ok a => k a | Raise e => Raise e end.

(** Read the store without changing it. *)
Definition query {S A} (f : S → A) : M S A := λ s, (Ok (f s), s).

(** A pure step that returns or raises. *)
Definition lift {S A} (r : result A) : M S A := λ s, (r, s).

(** Run a computation on a part of the store. *)
Definition zoom {S T A} (get : S → T) (set : T → S → S) (c : M T A) : M S A :=
  λ s, let '(r, t) := c (get s) in (r, set t s).

(** * Document models *)

(** What the generic repository needs of a document class: reading a
    field by name for filters and sorting (null when the field is unset
    or unknown), and writing one as an update does. *)
Class Document (D : Type) := {
  doc_get : string → D → pyval;
  doc_set : string → pyval → D → D;
}.

Definition set_str (v : pyval) (old : option string) : option string :=
  match v with VStr s => Some s | VNone => None | VFloat _ => old end.

Definition set_float (v : pyval) (old : option float) : option float :=
  match v with VFloat f => Some f | VNone => None | VStr _ => old end.

Module CategoryDiscountMasterDocument.
Record t : Type := mk {
  shard_key : option string;
  tenant_id : option string;
  category_code : option string;
  store_code : option string;
  discount_code : option string;
  description : option string;
  description_short : option string;
}.

(** [CategoryDiscountMasterDocument()] *)
Definition new : t := mk None None None None None None None.

Definition get (k : string) (d : t) : pyval :=
  if bool_decide (k = "shard_key") then of_str (shard_key d)
  else if bool_decide (k = "tenant_id") then of_str (tenant_id d)
  else if bool_decide (k = "category_code") then of_str (category_code d)
  else if bool_decide (k = "store_code") then of_str (store_code d)
  else if bool_decide (k = "discount_code") then of_str (discount_code d)
  else if bool_decide (k = "description") then of_str (description d)
  else if bool_decide (k = "description_short") then of_str (description_short d)
  else VNone.

Definition set (k : string) (v : pyval) (d : t) : t :=
  let '(mk sk te cc sc dc de ds) := d in
  if bool_decide (k = "shard_key") then mk (set_str v sk) te cc sc dc de ds
  else if bool_decide (k = "tenant_id") then mk sk (set_str v te) cc sc dc de ds
  else if bool_decide (k = "category_code") then mk sk te (set_str v cc) sc dc de ds
  else if bool_decide (k = "store_code") then mk sk te cc (set_str v sc) dc de ds
  else if bool_decide (k = "discount_code") then mk sk te cc sc (set_str v dc) de ds
  else if bool_decide (k = "description") then mk sk te cc sc dc (set_str v de) ds
  else if bool_decide (k = "description_short") then mk sk te cc sc dc de (set_str v ds)
  else d.
End CategoryDiscountMasterDocument.

#[export] Instance CategoryDiscountMasterDocument_Document :
  Document CategoryDiscountMasterDocument.t :=
  {| doc_get := CategoryDiscountMasterDocument.get;
     doc_set := CategoryDiscountMasterDocument.set |}.

Module DiscountStoreMasterDocument.
(** The class declares its fields and nothing else: no validator. *)
Record t : Type := mk {
  shard_key : option string;
  tenant_id : option string;
  store_code : option string;
  discount_code : option string;
  discount_value : option float;
  description : option string;
}.

(** [DiscountStoreMasterDocument()] *)
Definition new : t := mk None None None None None None.

Definition get (k : string) (d : t) : pyval :=
  if bool_decide (k = "shard_key") then of_str (shard_key d)
  else if bool_decide (k = "tenant_id") then of_str (tenant_id d)
  else if bool_decide (k = "store_code") then of_str (store_code d)
  else if bool_decide (k = "discount_code") then of_str (discount_code d)
  else if bool_decide (k = "discount_value") then of_float (discount_value d)
  else if bool_decide (k = "description") then of_str (description d)
  else VNone.

Definition set (k : string) (v : pyval) (d : t) : t :=
  let '(mk sk te sc dc dv de) := d in
  if bool_decide (k = "shard_key") then mk (set_str v sk) te sc dc dv de
  else if bool_decide (k = "tenant_id") then mk sk (set_str v te) sc dc dv de
  else if bool_decide (k = "store_code") then mk sk te (set_str v sc) dc dv de
  else if bool_decide (k = "discount_code") then mk sk te sc (set_str v dc) dv de
  else if bool_decide (k = "discount_value") then mk sk te sc dc (set_float v dv) de
  else if bool_decide (k = "description") then mk sk te sc dc dv (set_str v de)
  else d.
End DiscountStoreMasterDocument.

#[export] Instance DiscountStoreMasterDocument_Document :
  Document DiscountStoreMasterDocument.t :=
  {| doc_get := DiscountStoreMasterDocument.get;
     doc_set := DiscountStoreMasterDocument.set |}.

Module CategoryDiscountDetailDocument.
(** Extends the category discount master document with the discount
    value of the referenced store discount. *)
Record t : Type := mk {
  shard_key : option string;
  tenant_id : option string;
  category_code : option string;
  store_code : option string;
  discount_code : option string;
  description : option string;
  description_short : option string;
  discount_value : option float;
}.

(** [CategoryDiscountDetailDocument()]: every field takes its default;
    a field validator does not run on a default. *)
Definition new : t := mk None None None None None None None None.

(** The field validator of [discount_value]. *)
Definition validate_discount_value (v : option float) : result (option float) :=
  match v with
  | Some x =>
      if PrimFloat.ltb x 0%float || PrimFloat.ltb 100%float x
      then Raise (ValidationError "discount_value must be between 0.00 and 100.00")
      else Ok v
  | None => Ok v
  end.

(** [CategoryDiscountDetailDocument(tenant_id=..., ..., discount_value=v)]:
    construction from given field values runs the validator on the
    discount value. *)
Definition init (tenant_id category_code store_code discount_code description
    description_short : option string) (discount_value : option float) : result t :=
  match validate_discount_value discount_value with
  | Ok v =>
      Ok (mk None tenant_id category_code store_code discount_code description
            description_short v)
  | Raise e => Raise e
  end.

(** Attribute assignment; it does not run the validator (validation on
    assignment is off unless the model configuration turns it on, and
    the classes here carry no such configuration). *)
Definition set_tenant_id (x : option string) (d : t) : t :=
  let '(mk sk _ cc sc dc de ds dv) := d in mk sk x cc sc dc de ds dv.
Definition set_category_code (x : option string) (d : t) : t :=
  let '(mk sk te _ sc dc de ds dv) := d in mk sk te x sc dc de ds dv.
Definition set_store_code (x : option string) (d : t) : t :=
  let '(mk sk te cc _ dc de ds dv) := d in mk sk te cc x dc de ds dv.
Definition set_discount_code (x : option string) (d : t) : t :=
  let '(mk sk te cc sc _ de ds dv) := d in mk sk te cc sc x de ds dv.
Definition set_description (x : option string) (d : t) : t :=
  let '(mk sk te cc sc dc _ ds dv) := d in mk sk te cc sc dc x ds dv.
Definition set_discount_value (x : option float) (d : t) : t :=
  let '(mk sk te cc sc dc de ds _) := d in mk sk te cc sc dc de ds x.
End CategoryDiscountDetailDocument.

(** * The generic document repository *)

Module AbstractRepository.
Record Metadata : Type := mkMetadata {
  total : Z;
  page : Z;
  limit : Z;
}.

Record PaginatedResult (D : Type) : Type := mkPaginatedResult {
  data : list D;
  metadata : Metadata;
}.
Arguments mkPaginatedResult {D} data metadata.
Arguments data {D} p.
Arguments metadata {D} p.

Section Operations.
Context {D : Type} `{!Document D}.

(** Modelled from the spec: the query primitives of the generic
    repository base class, which the tenant repositories inherit and
    whose source is not part of the sources at hand.  A filter is a
    dictionary of required field values; a document matches when
    each named field holds the required value. *)
Definition matches (query_filter : gmap string pyval) (d : D) : bool :=
  bool_decide (map_Forall (λ k v, pyval_eqb (doc_get k d) v = true) query_filter).

(** Modelled from the spec: fetch the document matching the filter,
    or the not-found sentinel [None]; absence never raises. *)
Definition get_one_async (query_filter : gmap string pyval) (coll : list D) : option D :=
  List.find (matches query_filter) coll.

(** Modelled from the spec: insert the document; reports success. *)
Definition create_async (document : D) : M (list D) bool :=
  λ coll, (Ok true, coll ++ [document]).

Fixpoint change_first (p : D → bool) (f : D → option D) (coll : list D)
  : option (list D) :=
  match coll with
  | [] => None
  | d :: rest =>
      if p d then Some (from_option (λ d', d' :: rest) rest (f d))
      else (d ::.) <$> change_first p f rest
  end.

(** One field after the other, as the update dictionary lists them. *)
Definition apply_update (update_data : gmap string pyval) (d : D) : D :=
  foldr (λ kv acc, doc_set kv.1 kv.2 acc) d (map_to_list update_data).

(** Modelled from the spec: merge the given fields into the document
    matching the filter; fails (reports [False]) if none matched. *)
Definition update_one_async (query_filter update_data : gmap string pyval)
  : M (list D) bool :=
  λ coll,
    match change_first (matches query_filter)
            (λ d, Some (apply_update update_data d)) coll with
    | Some coll' => (Ok true, coll')
    | None => (Ok false, coll)
    end.

(** Modelled from the spec: overwrite the matching document whole. *)
Definition replace_one_async (query_filter : gmap string pyval) (new_document : D)
  : M (list D) bool :=
  λ coll,
    match change_first (matches query_filter) (λ _, Some new_document) coll with
    | Some coll' => (Ok true, coll')
    | None => (Ok false, coll)
    end.

(** Modelled from the spec: remove the matching document; reports
    whether there was one. *)
Definition delete_async (query_filter : gmap string pyval) : M (list D) bool :=
  λ coll,
    match change_first (matches query_filter) (λ _, None) coll with
    | Some coll' => (Ok true, coll')
    | None => (Ok false, coll)
    end.

(** Ordering of field values under a sort specification: null first,
    then numbers, then strings. *)
Definition pyval_compare (a b : pyval) : comparison :=
  match a, b with
  | VNone, VNone => Eq
  | VNone, _ => Lt
  | _, VNone => Gt
  | VFloat f, VFloat g =>
      if PrimFloat.ltb f g then Lt else if PrimFloat.ltb g f then Gt else Eq
  | VFloat _, VStr _ => Lt
  | VStr _, VFloat _ => Gt
  | VStr s, VStr t => String.compare s t
  end.

(** [sort] is a list of (field, direction) pairs, direction 1 for
    ascending and -1 for descending; earlier pairs take precedence. *)
Fixpoint sort_compare (sort : list (string * Z)) (a b : D) : comparison :=
  match sort with
  | [] => Eq
  | (field, direction) :: rest =>
      match pyval_compare (doc_get field a) (doc_get field b) with
      | Eq => sort_compare rest a b
      | c => if bool_decide (0 ≤ direction) then c else CompOpp c
      end
  end.

Definition sort_le (sort : list (string * Z)) (a b : D) : Prop :=
  sort_compare sort a b ≠ Gt.

#[export] Instance sort_le_dec sort a b : Decision (sort_le sort a b) :=
  decide (sort_compare sort a b ≠ Gt).

Definition sorted (sort : list (string * Z)) (docs : list D) : list D :=
  merge_sort (sort_le sort) docs.

(** Modelled from the spec: sort the matching documents, skip
    [(page - 1) * limit] of them and return at most [limit]. *)
Definition get_list_async_with_sort_and_paging
    (query_filter : gmap string pyval) (limit page : Z) (sort : list (string * Z))
    (coll : list D) : list D :=
  let skip := (page - 1) * limit in
  take (Z.to_nat limit)
    (drop (Z.to_nat skip) (sorted sort (filter (λ d, matches query_filter d = true) coll))).

(** Modelled from the spec: the page of documents together with the
    metadata; the total counts every document matching the filter,
    before skip and limit apply. *)
Definition get_paginated_list_async
    (query_filter : gmap string pyval) (limit page : Z) (sort : list (string * Z))
    (coll : list D) : PaginatedResult D :=
  let total_count := Z.of_nat (length (filter (λ d, matches query_filter d = true) coll)) in
  mkPaginatedResult
    (get_list_async_with_sort_and_paging query_filter limit page sort coll)
    (mkMetadata total_count page limit).
End Operations.
End AbstractRepository.

(** * The database: one collection per document class, shared by all
    tenants *)

Record DB : Type := mkDB {
  category_discount_master : list CategoryDiscountMasterDocument.t;
  discount_master : list DiscountStoreMasterDocument.t;
}.

(** * Tenant-scoped repositories *)

Module CategoryDiscountMasterRepository.
Import AbstractRepository.

Record t : Type := mk { tenant_id : string }.

(** The collection this repository is bound to. *)
Definition collection {A} : M (list CategoryDiscountMasterDocument.t) A → M DB A :=
  zoom category_discount_master (λ c db, mkDB c (discount_master db)).

Definition __make_query_filter (self : t) (category_code : string) : gmap string pyval :=
  {[ "tenant_id" := VStr (tenant_id self); "category_code" := VStr category_code ]}.

(** ["-".join(keys)] with the tenant id as the only key. *)
Definition __get_shard_key (document : CategoryDiscountMasterDocument.t) : result string :=
  match CategoryDiscountMasterDocument.tenant_id document with
  | Some tenant => Ok (String.concat "-" [tenant])
  | None => Raise (TypeError "sequence item 0: expected str instance, NoneType found")
  end.

Definition create_category_discount_async (self : t)
    (document : CategoryDiscountMasterDocument.t) : M DB CategoryDiscountMasterDocument.t :=
  let document :=
    CategoryDiscountMasterDocument.set "tenant_id" (VStr (tenant_id self)) document in
  shard_key ← lift (__get_shard_key document);
  let document := CategoryDiscountMasterDocument.set "shard_key" (VStr shard_key) document in
  success ← collection (create_async document);
  if success : bool then mret document
  else raise (Exception "Failed to create category discount").

Definition get_category_discount_by_code_async (self : t) (category_code : string)
  : M DB (option CategoryDiscountMasterDocument.t) :=
  collection (query (get_one_async (__make_query_filter self category_code))).

Definition get_category_discount_by_filter_async (self : t)
    (query_filter : gmap string pyval) (limit page : Z) (sort : list (string * Z))
  : M DB (list CategoryDiscountMasterDocument.t) :=
  let query_filter := <["tenant_id" := VStr (tenant_id self)]> query_filter in
  collection (query (get_list_async_with_sort_and_paging query_filter limit page sort)).

Definition get_category_discount_by_filter_paginated_async (self : t)
    (query_filter : gmap string pyval) (limit page : Z) (sort : list (string * Z))
  : M DB (PaginatedResult CategoryDiscountMasterDocument.t) :=
  let query_filter := <["tenant_id" := VStr (tenant_id self)]> query_filter in
  collection (query (get_paginated_list_async query_filter limit page sort)).

Definition update_category_discount_async (self : t) (category_code : string)
    (update_data : gmap string pyval) : M DB (option CategoryDiscountMasterDocument.t) :=
  success ← collection
    (update_one_async (__make_query_filter self category_code) update_data);
  if success : bool then get_category_discount_by_code_async self category_code
  else raise (Exception ("Failed to update category discount with code " +:+ category_code)).

Definition replace_category_discount_async (self : t) (category_code : string)
    (new_document : CategoryDiscountMasterDocument.t)
  : M DB CategoryDiscountMasterDocument.t :=
  success ← collection
    (replace_one_async (__make_query_filter self category_code) new_document);
  if success : bool then mret new_document
  else raise (Exception ("Failed to replace category with code " +:+ category_code)).

Definition delete_category_discount_async (self : t) (category_code : string) : M DB bool :=
  collection (delete_async (__make_query_filter self category_code)).
End CategoryDiscountMasterRepository.

Module DiscountStoreMasterRepository.
Import AbstractRepository.

Record t : Type := mk { tenant_id : string }.

(** The collection this repository is bound to. *)
Definition collection {A} : M (list DiscountStoreMasterDocument.t) A → M DB A :=
  zoom discount_master (λ c db, mkDB (category_discount_master db) c).

(** The code is annotated [str]; the detail composition passes the
    [Optional[str]] discount code of a category discount, so the
    functions below take what they are given. *)
Definition __make_query_filter (self : t) (discount_code : option string)
  : gmap string pyval :=
  {[ "tenant_id" := VStr (tenant_id self); "discount_code" := of_str discount_code ]}.

(** ["-".join(keys)] with the tenant id as the only key. *)
Definition __get_shard_key (document : DiscountStoreMasterDocument.t) : result string :=
  match DiscountStoreMasterDocument.tenant_id document with
  | Some tenant => Ok (String.concat "-" [tenant])
  | None => Raise (TypeError "sequence item 0: expected str instance, NoneType found")
  end.

Definition create_discount_store_async (self : t)
    (document : DiscountStoreMasterDocument.t) : M DB DiscountStoreMasterDocument.t :=
  let document :=
    DiscountStoreMasterDocument.set "tenant_id" (VStr (tenant_id self)) document in
  shard_key ← lift (__get_shard_key document);
  let document := DiscountStoreMasterDocument.set "shard_key" (VStr shard_key) document in
  success ← collection (create_async document);
  if success : bool then mret document
  else raise (Exception "Failed to create discount store").

Definition get_discount_store_by_code_async (self : t) (discount_code : option string)
  : M DB (option DiscountStoreMasterDocument.t) :=
  collection (query (get_one_async (__make_query_filter self discount_code))).

Definition get_discount_store_by_filter_async (self : t)
    (query_filter : gmap string pyval) (limit page : Z) (sort : list (string * Z))
  : M DB (list DiscountStoreMasterDocument.t) :=
  let query_filter := <["tenant_id" := VStr (tenant_id self)]> query_filter in
  collection (query (get_list_async_with_sort_and_paging query_filter limit page sort)).

Definition get_discount_store_by_filter_paginated_async (self : t)
    (query_filter : gmap string pyval) (limit page : Z) (sort : list (string * Z))
  : M DB (PaginatedResult DiscountStoreMasterDocument.t) :=
  let query_filter := <["tenant_id" := VStr (tenant_id self)]> query_filter in
  collection (query (get_paginated_list_async query_filter limit page sort)).

Definition update_discount_store_async (self : t) (discount_code : option string)
    (update_data : gmap string pyval) : M DB (option DiscountStoreMasterDocument.t) :=
  success ← collection
    (update_one_async (__make_query_filter self discount_code) update_data);
  if success : bool then get_discount_store_by_code_async self discount_code
  else raise (Exception ("Failed to update discount with code " +:+ fmt discount_code)).

Definition replace_discount_store_async (self : t) (discount_code : option string)
    (new_document : DiscountStoreMasterDocument.t)
  : M DB DiscountStoreMasterDocument.t :=
  success ← collection
    (replace_one_async (__make_query_filter self discount_code) new_document);
  if success : bool then mret new_document
  else raise (Exception ("Failed to replace discount with code " +:+ fmt discount_code)).

Definition delete_discount_store_async (self : t) (discount_code : option string) : M DB bool :=
  collection (delete_async (__make_query_filter self discount_code)).
End DiscountStoreMasterRepository.

(** * Services *)

Module DiscountStoreMasterService.
Record t : Type := mk {
  discount_store_master_repo : DiscountStoreMasterRepository.t;
}.

Definition create_discount_store_async (self : t)
    (discount_code store_code : string) (discount_value : float) (description : string)
  : M DB DiscountStoreMasterDocument.t :=
  (* check if discount_code master exists *)
  discount ← DiscountStoreMasterRepository.get_discount_store_by_code_async
    (discount_store_master_repo self) (Some discount_code);
  match discount with
  | Some discount =>
      raise (DocumentAlreadyExistsException
        ("discount with code " +:+ discount_code +:+ " already exists. tenant_id: "
           +:+ fmt (DiscountStoreMasterDocument.tenant_id discount)))
  | None =>
      let discount_store_doc := DiscountStoreMasterDocument.new in
      let discount_store_doc :=
        DiscountStoreMasterDocument.set "discount_code" (VStr discount_code) discount_store_doc in
      let discount_store_doc :=
        DiscountStoreMasterDocument.set "store_code" (VStr store_code) discount_store_doc in
      let discount_store_doc :=
        DiscountStoreMasterDocument.set "discount_value" (VFloat discount_value) discount_store_doc in
      let discount_store_doc :=
        DiscountStoreMasterDocument.set "description" (VStr description) discount_store_doc in
      DiscountStoreMasterRepository.create_discount_store_async
        (discount_store_master_repo self) discount_store_doc
  end.

Definition get_discount_store_by_code_async (self : t) (discount_code : string)
  : M DB DiscountStoreMasterDocument.t :=
  discount ← DiscountStoreMasterRepository.get_discount_store_by_code_async
    (discount_store_master_repo self) (Some discount_code);
  match discount with
  | None =>
      raise (DocumentNotFoundException ("discount with code " +:+ discount_code +:+ " not found"))
  | Some discount => mret discount
  end.

Definition get_discount_store_async (self : t) (limit page : Z) (sort : list (string * Z))
  : M DB (list DiscountStoreMasterDocument.t) :=
  DiscountStoreMasterRepository.get_discount_store_by_filter_async
    (discount_store_master_repo self) ∅ limit page sort.

Definition get_discount_store_paginated_async (self : t) (limit page : Z)
    (sort : list (string * Z))
  : M DB (AbstractRepository.PaginatedResult DiscountStoreMasterDocument.t) :=
  DiscountStoreMasterRepository.get_discount_store_by_filter_paginated_async
    (discount_store_master_repo self) ∅ limit page sort.

Definition update_discount_store_async (self : t) (discount_code : string)
    (update_data : gmap string pyval) : M DB (option DiscountStoreMasterDocument.t) :=
  (* check if discount exists *)
  discount ← DiscountStoreMasterRepository.get_discount_store_by_code_async
    (discount_store_master_repo self) (Some discount_code);
  match discount with
  | None =>
      raise (DocumentNotFoundException ("discount with code " +:+ discount_code +:+ " not found"))
  | Some _ =>
      (* update discount *)
      DiscountStoreMasterRepository.update_discount_store_async
        (discount_store_master_repo self) (Some discount_code) update_data
  end.

Definition delete_discount_store_async (self : t) (discount_code : string) : M DB bool :=
  (* check if discount exists *)
  discount ← DiscountStoreMasterRepository.get_discount_store_by_code_async
    (discount_store_master_repo self) (Some discount_code);
  match discount with
  | None =>
      raise (DocumentNotFoundException
        ("discount_code with code " +:+ discount_code +:+ " not found"))
  | Some _ =>
      (* delete discount *)
      DiscountStoreMasterRepository.delete_discount_store_async
        (discount_store_master_repo self) (Some discount_code)
  end.
End DiscountStoreMasterService.

Module CategoryDiscountMasterService.
Record t : Type := mk {
  category_discount_master_repo : CategoryDiscountMasterRepository.t;
  discount_store_master_repo : DiscountStoreMasterRepository.t;
}.

Definition create_category_discount_async (self : t)
    (category_code store_code description discount_code : string)
  : M DB CategoryDiscountMasterDocument.t :=
  (* check if category discount exists *)
  category ← CategoryDiscountMasterRepository.get_category_discount_by_code_async
    (category_discount_master_repo self) category_code;
  match category with
  | Some category =>
      raise (DocumentAlreadyExistsException
        ("category with code " +:+ category_code +:+ " already exists. tenant_id: "
           +:+ fmt (CategoryDiscountMasterDocument.tenant_id category)))
  | None =>
      let category_discount_doc := CategoryDiscountMasterDocument.new in
      let category_discount_doc :=
        CategoryDiscountMasterDocument.set "category_code" (VStr category_code)
          category_discount_doc in
      let category_discount_doc :=
        CategoryDiscountMasterDocument.set "store_code" (VStr store_code)
          category_discount_doc in
      let category_discount_doc :=
        CategoryDiscountMasterDocument.set "description" (VStr description)
          category_discount_doc in
      let category_discount_doc :=
        CategoryDiscountMasterDocument.set "discount_code" (VStr discount_code)
          category_discount_doc in
      CategoryDiscountMasterRepository.create_category_discount_async
        (category_discount_master_repo self) category_discount_doc
  end.

Definition get_category_discount_by_code_async (self : t) (category_code : string)
  : M DB CategoryDiscountMasterDocument.t :=
  category ← CategoryDiscountMasterRepository.get_category_discount_by_code_async
    (category_discount_master_repo self) category_code;
  match category with
  | None =>
      raise (DocumentNotFoundException ("category with code " +:+ category_code +:+ " not found"))
  | Some category => mret category
  end.

Definition get_category_discount_async (self : t) (limit page : Z) (sort : list (string * Z))
  : M DB (list CategoryDiscountMasterDocument.t) :=
  CategoryDiscountMasterRepository.get_category_discount_by_filter_async
    (category_discount_master_repo self) ∅ limit page sort.

Definition get_category_discount_paginated_async (self : t) (limit page : Z)
    (sort : list (string * Z))
  : M DB (AbstractRepository.PaginatedResult CategoryDiscountMasterDocument.t) :=
  CategoryDiscountMasterRepository.get_category_discount_by_filter_paginated_async
    (category_discount_master_repo self) ∅ limit page sort.

Definition update_category_discount_async (self : t) (category_code : string)
    (update_data : gmap string pyval) : M DB (option CategoryDiscountMasterDocument.t) :=
  (* check if category exists *)
  category ← CategoryDiscountMasterRepository.get_category_discount_by_code_async
    (category_discount_master_repo self) category_code;
  match category with
  | None =>
      raise (DocumentNotFoundException ("category with code " +:+ category_code +:+ " not found"))
  | Some _ =>
      (* update category discount *)
      CategoryDiscountMasterRepository.update_category_discount_async
        (category_discount_master_repo self) category_code update_data
  end.

Definition get_category_discount_detail_by_code_async (self : t) (category_code : string)
  : M DB CategoryDiscountDetailDocument.t :=
  let category_discount_detail_doc := CategoryDiscountDetailDocument.new in
  category_discount_master_doc ←
    CategoryDiscountMasterRepository.get_category_discount_by_code_async
      (category_discount_master_repo self) category_code;
  match category_discount_master_doc with
  | None =>
      (* the raise is commented out in the source: the miss is logged
         and the default document returned *)
      mret category_discount_detail_doc
  | Some category_discount_master_doc =>
      let category_discount_detail_doc :=
        CategoryDiscountDetailDocument.set_tenant_id
          (CategoryDiscountMasterDocument.tenant_id category_discount_master_doc)
          category_discount_detail_doc in
      let category_discount_detail_doc :=
        CategoryDiscountDetailDocument.set_category_code
          (CategoryDiscountMasterDocument.category_code category_discount_master_doc)
          category_discount_detail_doc in
      let category_discount_detail_doc :=
        CategoryDiscountDetailDocument.set_store_code
          (CategoryDiscountMasterDocument.store_code category_discount_master_doc)
          category_discount_detail_doc in
      let category_discount_detail_doc :=
        CategoryDiscountDetailDocument.set_discount_code
          (CategoryDiscountMasterDocument.discount_code category_discount_master_doc)
          category_discount_detail_doc in
      let category_discount_detail_doc :=
        CategoryDiscountDetailDocument.set_description
          (CategoryDiscountMasterDocument.description category_discount_master_doc)
          category_discount_detail_doc in
      discount_master ← DiscountStoreMasterRepository.get_discount_store_by_code_async
        (discount_store_master_repo self)
        (CategoryDiscountMasterDocument.discount_code category_discount_master_doc);
      match discount_master with
      | None =>
          raise (DocumentNotFoundException
            ("discount store with code "
               +:+ fmt (CategoryDiscountMasterDocument.discount_code
                          category_discount_master_doc)
               +:+ " not found"))
      | Some discount_master =>
          mret (CategoryDiscountDetailDocument.set_discount_value
                  (DiscountStoreMasterDocument.discount_value discount_master)
                  category_discount_detail_doc)
      end
  end.

Definition delete_category_discount_async (self : t) (category_code : string) : M DB bool :=
  (* check if category discount exists *)
  category ← CategoryDiscountMasterRepository.get_category_discount_by_code_async
    (category_discount_master_repo self) category_code;
  match category with
  | None =>
      raise (DocumentNotFoundException ("category with code " +:+ category_code +:+ " not found"))
  | Some _ =>
      (* delete category discount *)
      CategoryDiscountMasterRepository.delete_category_discount_async
        (category_discount_master_repo self) category_code
  end.
End CategoryDiscountMasterService.

(** * API layer: the category-discount detail endpoint *)

Module Api.
(** The uniform response envelope. *)
Record ApiResponse (P : Type) : Type := mkApiResponse {
  success : bool;
  code : Z;
  message : string;
  data : option P;
  operation : string;
}.
Arguments mkApiResponse {P} success code message data operation.
Arguments success {P} a.
Arguments code {P} a.
Arguments message {P} a.
Arguments data {P} a.
Arguments operation {P} a.

Definition HTTP_200_OK : Z := 200.

(** Truth value of an object reference in a condition: [None] is false;
    an instance of a model class, which defines neither [__bool__] nor
    [__len__], is true. *)
Definition truthy {A} (o : option A) : bool :=
  match o with Some _ => true | None => false end.

(** Modelled from the spec: the service of a tenant works on
    repositories constructed for that tenant (the dependency module that
    builds it is not part of the sources at hand). *)
Definition get_category_discount_master_service_async (tenant_id : string)
  : CategoryDiscountMasterService.t :=
  CategoryDiscountMasterService.mk
    (CategoryDiscountMasterRepository.mk tenant_id)
    (DiscountStoreMasterRepository.mk tenant_id).

Section Endpoint.
(** External collaborators of the endpoint: the check of the tenant
    against the security credentials, the response schema with its
    [model_dump], and the schema transformer. *)
Context {Response Payload : Type}.
Variable verify_tenant_id : string → string → result unit.
Variable transform_category_discount_detail :
  CategoryDiscountDetailDocument.t → result Response.
Variable model_dump : Response → Payload.

Definition get_category_discount_detail
    (category_code tenant_id tenant_id_with_security : string)
  : M DB (ApiResponse Payload) :=
  lift (verify_tenant_id tenant_id tenant_id_with_security);;
  let service := get_category_discount_master_service_async tenant_id in
  category_discount_detail ←
    CategoryDiscountMasterService.get_category_discount_detail_by_code_async
      service category_code;
  (* the name is bound to the instance the service returned *)
  let category_discount_detail := Some category_discount_detail in
  return_category_discount_detail ←
    match category_discount_detail with
    | Some detail =>
        if truthy category_discount_detail
        then r ← lift (transform_category_discount_detail detail); mret (Some r)
        else mret None
    | None => mret None
    end;
  let '(message, data) :=
    if truthy return_category_discount_detail
    then ("Category " +:+ category_code +:+ " found successfully for tenant_id: "
            +:+ tenant_id,
          model_dump <$> return_category_discount_detail)
    else ("Category " +:+ category_code +:+ " not found for tenant_id: " +:+ tenant_id,
          None) in
  mret (mkApiResponse true HTTP_200_OK message data "get_category_discount_detail").
End Endpoint.
End Api.

(** * Cart service: category-discount details fetched over HTTP, with a
    list cache *)

Module CategoryDiscountDetailsDocument.
Record t : Type := mk {
  tenant_id : option string;
  category_code : option string;
  store_code : option string;
  discount_code : option string;
  description : option string;
  description_short : option string;
  discount_value : option float;
}.

Section Construction.
(** The alias generator of the model configuration, a helper of the
    common library. *)
Variable to_lower_camel : string → string.

(** A field is populated by its alias or, failing that, by its name;
    a field not given takes its default [None]. *)
Definition given (kwargs : gmap string pyval) (name : string) : pyval :=
  match kwargs !! to_lower_camel name with
  | Some v => v
  | None => default VNone (kwargs !! name)
  end.

Definition as_str (name : string) (v : pyval) : result (option string) :=
  match v with
  | VNone => Ok None
  | VStr s => Ok (Some s)
  | VFloat _ => Raise (ValidationError (name +:+ ": Input should be a valid string"))
  end.

(** A string is not taken for a number here. *)
Definition as_float (name : string) (v : pyval) : result (option float) :=
  match v with
  | VNone => Ok None
  | VFloat f => Ok (Some f)
  | VStr _ => Raise (ValidationError (name +:+ ": Input should be a valid number"))
  end.

(** The constructor, called with the payload unpacked into keyword
    arguments. *)
Definition init (kwargs : gmap string pyval) : result t :=
  tenant_id ← as_str "tenant_id" (given kwargs "tenant_id");
  category_code ← as_str "category_code" (given kwargs "category_code");
  store_code ← as_str "store_code" (given kwargs "store_code");
  discount_code ← as_str "discount_code" (given kwargs "discount_code");
  description ← as_str "description" (given kwargs "description");
  description_short ← as_str "description_short" (given kwargs "description_short");
  discount_value ← as_float "discount_value" (given kwargs "discount_value");
  mret (mk tenant_id category_code store_code discount_code description
          description_short discount_value).
End Construction.
End CategoryDiscountDetailsDocument.

Module CategoryDiscountDetailWebRepository.
Record TerminalInfoDocument : Type := mkTerminalInfo {
  api_key : string;
  terminal_id : string;
}.

Record t : Type := mk {
  tenant_id : string;
  store_code : string;
  terminal_info : TerminalInfoDocument;
  category_code : string;
  category_discount_detail_documents : option (list CategoryDiscountDetailsDocument.t);
  base_url : string;
}.

(** A GET request as handed to the service client. *)
Record Request : Type := mkRequest {
  endpoint : string;
  params : list (string * string);
  headers : list (string * string);
}.

(** What [client.get] does: it returns the decoded body, of which the
    code reads the entry ["data"] ([None] when the body has none), or it
    raises an exception that may carry a [status_code]. *)
Inductive Outcome : Type :=
  | Body (data : option (gmap string pyval))
  | Failure (status_code : option Z).

(** The repository object together with the requests sent so far. *)
Record State : Type := mkState {
  self : t;
  sent : list Request;
}.

Definition set_cache (docs : option (list CategoryDiscountDetailsDocument.t)) (r : t) : t :=
  mk (tenant_id r) (store_code r) (terminal_info r) (category_code r) docs (base_url r).

Definition set_category_discount_detail_documents
    (category_discount_detail_documents : option (list CategoryDiscountDetailsDocument.t))
  : M State unit :=
  λ st, (Ok (), mkState (set_cache category_discount_detail_documents (self st)) (sent st)).

Section Client.
Variable to_lower_camel : string → string.
(** The master-data service as seen through the service client. *)
Variable client_get : Request → Outcome.

Definition send (rq : Request) : M State Outcome :=
  λ st, (Ok (client_get rq), mkState (self st) (sent st ++ [rq])).

(** [if self.category_discount_detail_documents is None: ... = []] *)
Definition ensure_cache : M State (list CategoryDiscountDetailsDocument.t) :=
  λ st,
    let cache := default [] (category_discount_detail_documents (self st)) in
    (Ok cache, mkState (set_cache (Some cache) (self st)) (sent st)).

(** [self.category_discount_detail_documents.append(document)] *)
Definition append_to_cache (document : CategoryDiscountDetailsDocument.t) : M State unit :=
  λ st,
    let cache := default [] (category_discount_detail_documents (self st)) in
    (Ok (), mkState (set_cache (Some (cache ++ [document])) (self st)) (sent st)).

Definition get_category_discount_detail_by_code_async (category_code : string)
  : M State CategoryDiscountDetailsDocument.t :=
  cache ← ensure_cache;
  (* first check the code exists in the list of cached documents *)
  match List.find
          (λ item, bool_decide
             (CategoryDiscountDetailsDocument.category_code item = Some category_code))
          cache with
  | Some item => mret item
  | None =>
      this ← query self;
      let headers := [("X-API-KEY", api_key (terminal_info this))] in
      let params := [("terminal_id", terminal_id (terminal_info this))] in
      let endpoint :=
        "/tenants/" +:+ tenant_id this +:+ "/category_discounts/"
          +:+ category_code +:+ "/detail" in
      response_data ← send (mkRequest endpoint params headers);
      match response_data with
      | Failure status_code =>
          if bool_decide (status_code = Some 404)
          then raise (NotFoundException
                        ("category discount detail not found for id " +:+ category_code))
          else raise (RepositoryException ("Request error for id " +:+ category_code))
      | Body None =>
          raise (TypeError "argument after ** must be a mapping, not NoneType")
      | Body (Some data) =>
          category_discount_detail ←
            lift (CategoryDiscountDetailsDocument.init to_lower_camel data);
          append_to_cache category_discount_detail;;
          mret category_discount_detail
      end
  end.
End Client.
End CategoryDiscountDetailWebRepository.

(** * The nested item-book editor *)

Module ItemBookMasterService.
(** Modelled from the spec: the item-book document of the data model (a
    book owns categories, a category owns tabs, a tab owns buttons keyed
    by position); the document classes and the service that edits them
    are not part of the sources at hand, only the endpoints calling the
    service are. *)
Record Button : Type := mkButton {
  pos_x : Z;
  pos_y : Z;
  item_code : string;
  display : string;
}.

Record Tab : Type := mkTab {
  tab_number : Z;
  tab_title : string;
  buttons : list Button;
}.

Record Category : Type := mkCategory {
  category_number : Z;
  category_title : string;
  tabs : list Tab;
}.

Record ItemBook : Type := mkItemBook {
  tenant_id : string;
  item_book_id : string;
  title : string;
  categories : list Category;
}.

(** The service of one tenant. *)
Record t : Type := mk { tenant : string }.

Definition is_book (self : t) (item_book_id' : string) (b : ItemBook) : bool :=
  bool_decide (tenant_id b = tenant self ∧ item_book_id b = item_book_id').
Definition is_category (category_number' : Z) (c : Category) : bool :=
  bool_decide (category_number c = category_number').
Definition is_tab (tab_number' : Z) (t : Tab) : bool :=
  bool_decide (tab_number t = tab_number').
Definition is_button (x y : Z) (b : Button) : bool :=
  bool_decide (pos_x b = x ∧ pos_y b = y).

(** Replace the element with the matching key, in place. *)
Fixpoint replace_first {A} (p : A → bool) (x : A) (l : list A) : list A :=
  match l with
  | [] => []
  | y :: rest => if p y then x :: rest else y :: replace_first p x rest
  end.

(** Remove the elements with the matching key. *)
Definition remove_matching {A} (p : A → bool) (l : list A) : list A :=
  List.filter (λ y, negb (p y)) l.

Definition with_categories (b : ItemBook) (cs : list Category) : ItemBook :=
  mkItemBook (tenant_id b) (item_book_id b) (title b) cs.
Definition with_tabs (c : Category) (ts : list Tab) : Category :=
  mkCategory (category_number c) (category_title c) ts.
Definition with_buttons (t : Tab) (bs : list Button) : Tab :=
  mkTab (tab_number t) (tab_title t) bs.

Definition put_category (b : ItemBook) (n : Z) (c : Category) : ItemBook :=
  with_categories b (replace_first (is_category n) c (categories b)).
Definition put_tab (c : Category) (n : Z) (t : Tab) : Category :=
  with_tabs c (replace_first (is_tab n) t (tabs c)).

(** Modelled from the spec: load the book of this tenant; a missing book
    is [NotFound] at the book level. *)
Definition load (self : t) (item_book_id : string) : M (list ItemBook) ItemBook :=
  λ store,
    match List.find (is_book self item_book_id) store with
    | Some book => (Ok book, store)
    | None => (Raise (NotFound BookLevel), store)
    end.

(** Modelled from the spec: persist the whole document and return the
    refreshed one. *)
Definition persist (self : t) (book : ItemBook) : M (list ItemBook) ItemBook :=
  λ store,
    load self (item_book_id book)
      (replace_first (is_book self (item_book_id book)) book store).

(** Modelled from the spec: locate a nested element by key; a missing one
    is [NotFound] at its level. *)
Definition locate_category (book : ItemBook) (category_number : Z)
  : M (list ItemBook) Category :=
  match List.find (is_category category_number) (categories book) with
  | Some c => mret c
  | None => raise (NotFound CategoryLevel)
  end.

Definition locate_tab (category : Category) (tab_number : Z) : M (list ItemBook) Tab :=
  match List.find (is_tab tab_number) (tabs category) with
  | Some t => mret t
  | None => raise (NotFound TabLevel)
  end.

Definition locate_button (tab : Tab) (x y : Z) : M (list ItemBook) Button :=
  match List.find (is_button x y) (buttons tab) with
  | Some b => mret b
  | None => raise (NotFound ButtonLevel)
  end.

(** Modelled from the spec: a book is created empty or with initial
    categories; the identifier is the one the service assigns. *)
Definition create_item_book_async (self : t) (item_book_id title : string)
    (categories : list Category) : M (list ItemBook) ItemBook :=
  λ store,
    if existsb (is_book self item_book_id) store
    then (Raise (AlreadyExists BookLevel), store)
    else
      let book := mkItemBook (tenant self) item_book_id title categories in
      (Ok book, store ++ [book]).

(** Modelled from the spec: destroying a book removes the entire nested
    tree. *)
Definition delete_item_book_async (self : t) (item_book_id : string)
  : M (list ItemBook) unit :=
  load self item_book_id;;
  ((λ store, (Ok (), remove_matching (is_book self item_book_id) store))
     : M (list ItemBook) unit).

(** Modelled from the spec: append; the category number must not already
    exist in the book. *)
Definition add_category_to_item_book_async (self : t) (item_book_id : string)
    (category : Category) : M (list ItemBook) ItemBook :=
  book ← load self item_book_id;
  if existsb (is_category (category_number category)) (categories book)
  then raise (AlreadyExists CategoryLevel)
  else persist self (with_categories book (categories book ++ [category])).

(** Modelled from the spec: replace the category in place; it must
    exist. *)
Definition update_category_in_item_book_async (self : t) (item_book_id : string)
    (category_number : Z) (category : Category) : M (list ItemBook) ItemBook :=
  book ← load self item_book_id;
  locate_category book category_number;;
  persist self (put_category book category_number category).

(** Modelled from the spec: remove the matching category and with it
    its tabs and buttons. *)
Definition delete_category_from_item_book_async (self : t) (item_book_id : string)
    (category_number : Z) : M (list ItemBook) unit :=
  book ← load self item_book_id;
  persist self
    (with_categories book (remove_matching (is_category category_number) (categories book)));;
  mret ().

(** Modelled from the spec: the same pattern one level down. *)
Definition add_tab_to_category_in_item_book_async (self : t) (item_book_id : string)
    (category_number : Z) (tab : Tab) : M (list ItemBook) ItemBook :=
  book ← load self item_book_id;
  category ← locate_category book category_number;
  if existsb (is_tab (tab_number tab)) (tabs category)
  then raise (AlreadyExists TabLevel)
  else persist self
         (put_category book category_number (with_tabs category (tabs category ++ [tab]))).

(** Modelled from the spec: the same pattern one level down. *)
Definition update_tab_in_category_in_item_book_async (self : t) (item_book_id : string)
    (category_number tab_number : Z) (tab : Tab) : M (list ItemBook) ItemBook :=
  book ← load self item_book_id;
  category ← locate_category book category_number;
  locate_tab category tab_number;;
  persist self (put_category book category_number (put_tab category tab_number tab)).

(** Modelled from the spec: the same pattern one level down. *)
Definition delete_tab_from_category_in_item_book_async (self : t) (item_book_id : string)
    (category_number tab_number : Z) : M (list ItemBook) unit :=
  book ← load self item_book_id;
  category ← locate_category book category_number;
  persist self
    (put_category book category_number
       (with_tabs category (remove_matching (is_tab tab_number) (tabs category))));;
  mret ().

(** Modelled from the spec: the same pattern two levels down; two
    buttons cannot share a position within a tab. *)
Definition add_button_to_tab_in_category_in_item_book_async (self : t)
    (item_book_id : string) (category_number tab_number : Z) (button : Button)
  : M (list ItemBook) ItemBook :=
  book ← load self item_book_id;
  category ← locate_category book category_number;
  tab ← locate_tab category tab_number;
  if existsb (is_button (pos_x button) (pos_y button)) (buttons tab)
  then raise (AlreadyExists ButtonLevel)
  else persist self
         (put_category book category_number
            (put_tab category tab_number (with_buttons tab (buttons tab ++ [button])))).

(** Modelled from the spec: the same pattern two levels down. *)
Definition update_button_in_tab_in_category_in_item_book_async (self : t)
    (item_book_id : string) (category_number tab_number pos_x pos_y : Z) (button : Button)
  : M (list ItemBook) ItemBook :=
  book ← load self item_book_id;
  category ← locate_category book category_number;
  tab ← locate_tab category tab_number;
  locate_button tab pos_x pos_y;;
  persist self
    (put_category book category_number
       (put_tab category tab_number
          (with_buttons tab (replace_first (is_button pos_x pos_y) button (buttons tab))))).

(** Modelled from the spec: the same pattern two levels down. *)
Definition delete_button_from_tab_in_category_in_item_book_async (self : t)
    (item_book_id : string) (category_number tab_number pos_x pos_y : Z)
  : M (list ItemBook) unit :=
  book ← load self item_book_id;
  category ← locate_category book category_number;
  tab ← locate_tab category tab_number;
  persist self
    (put_category book category_number
       (put_tab category tab_number
          (with_buttons tab (remove_matching (is_button pos_x pos_y) (buttons tab)))));;
  mret ().

(** The nine mutations of the nested collections, as the endpoints
    address them. *)
Inductive mutation : Type :=
  | AddCategory (category : Category)
  | UpdateCategory (category_number : Z) (category : Category)
  | DeleteCategory (category_number : Z)
  | AddTab (category_number : Z) (tab : Tab)
  | UpdateTab (category_number tab_number : Z) (tab : Tab)
  | DeleteTab (category_number tab_number : Z)
  | AddButton (category_number tab_number : Z) (button : Button)
  | UpdateButton (category_number tab_number pos_x pos_y : Z) (button : Button)
  | DeleteButton (category_number tab_number pos_x pos_y : Z).

Definition discard {A} (c : M (list ItemBook) A) : M (list ItemBook) unit := c;; mret ().

Definition mutate (self : t) (item_book_id : string) (m : mutation)
  : M (list ItemBook) unit :=
  match m with
  | AddCategory c => discard (add_category_to_item_book_async self item_book_id c)
  | UpdateCategory n c => discard (update_category_in_item_book_async self item_book_id n c)
  | DeleteCategory n => delete_category_from_item_book_async self item_book_id n
  | AddTab cn t => discard (add_tab_to_category_in_item_book_async self item_book_id cn t)
  | UpdateTab cn tn t =>
      discard (update_tab_in_category_in_item_book_async self item_book_id cn tn t)
  | DeleteTab cn tn => delete_tab_from_category_in_item_book_async self item_book_id cn tn
  | AddButton cn tn b =>
      discard (add_button_to_tab_in_category_in_item_book_async self item_book_id cn tn b)
  | UpdateButton cn tn x y b =>
      discard (update_button_in_tab_in_category_in_item_book_async
                 self item_book_id cn tn x y b)
  | DeleteButton cn tn x y =>
      delete_button_from_tab_in_category_in_item_book_async self item_book_id cn tn x y
  end.

(** The category and the tab a mutation addresses as ancestors of its
    target. *)
Definition ancestor_category (m : mutation) : option Z :=
  match m with
  | AddCategory _ | UpdateCategory _ _ | DeleteCategory _ => None
  | AddTab cn _ | UpdateTab cn _ _ | DeleteTab cn _
  | AddButton cn _ _ | UpdateButton cn _ _ _ _ | DeleteButton cn _ _ _ => Some cn
  end.

Definition ancestor_tab (m : mutation) : option Z :=
  match m with
  | AddButton _ tn _ | UpdateButton _ tn _ _ _ | DeleteButton _ tn _ _ => Some tn
  | _ => None
  end.

(** The first addressed ancestor that does not exist, if any. *)
Definition missing_ancestor (self : t) (item_book_id : string) (m : mutation)
    (store : list ItemBook) : option level :=
  match List.find (is_book self item_book_id) store with
  | None => Some BookLevel
  | Some book =>
      match ancestor_category m with
      | None => None
      | Some cn =>
          match List.find (is_category cn) (categories book) with
          | None => Some CategoryLevel
          | Some category =>
              match ancestor_tab m with
              | None => None
              | Some tn =>
                  match List.find (is_tab tn) (tabs category) with
                  | None => Some TabLevel
                  | Some _ => None
                  end
              end
          end
      end
  end.

(** Requests to the item-book endpoints of a tenant, and the store after
    a sequence of them; a failed request leaves what it leaves. *)
Inductive request : Type :=
  | Create (item_book_id title : string) (categories : list Category)
  | Delete (item_book_id : string)
  | Edit (item_book_id : string) (m : mutation).

Definition serve (rq : string * request) : M (list ItemBook) unit :=
  let self := mk rq.1 in
  match rq.2 with
  | Create item_book_id title categories =>
      discard (create_item_book_async self item_book_id title categories)
  | Delete item_book_id => delete_item_book_async self item_book_id
  | Edit item_book_id m => mutate self item_book_id m
  end.

Definition run (rqs : list (string * request)) (store : list ItemBook) : list ItemBook :=
  foldl (λ store rq, (serve rq store).2) store rqs.

(** Positional uniqueness of buttons, tab by tab. *)
Definition position (b : Button) : Z * Z := (pos_x b, pos_y b).
Definition tab_ok (t : Tab) : Prop := NoDup (position <$> buttons t).
Definition category_ok (c : Category) : Prop := Forall tab_ok (tabs c).
Definition book_ok (b : ItemBook) : Prop := Forall category_ok (categories b).
Definition store_ok (store : list ItemBook) : Prop := Forall book_ok store.

(** Payloads that are themselves free of positional duplicates; an
    update of a button keeps the addressed position. *)
Definition mutation_ok (m : mutation) : Prop :=
  match m with
  | AddCategory c | UpdateCategory _ c => category_ok c
  | AddTab _ t | UpdateTab _ _ t => tab_ok t
  | UpdateButton _ _ x y b => position b = (x, y)
  | _ => True
  end.

Definition request_ok (rq : string * request) : Prop :=
  match rq.2 with
  | Create _ _ categories => Forall category_ok categories
  | Delete _ => True
  | Edit _ m => mutation_ok m
  end.
End ItemBookMasterService.

(** * Vocabulary of the statements *)

(** What the repositories store on create: the document with the tenant
    of the repository and the shard key derived from it. *)
Definition category_discount_created (tenant : string)
    (doc : CategoryDiscountMasterDocument.t) : CategoryDiscountMasterDocument.t :=
  CategoryDiscountMasterDocument.mk (Some tenant) (Some tenant)
    (CategoryDiscountMasterDocument.category_code doc)
    (CategoryDiscountMasterDocument.store_code doc)
    (CategoryDiscountMasterDocument.discount_code doc)
    (CategoryDiscountMasterDocument.description doc)
    (CategoryDiscountMasterDocument.description_short doc).

Definition discount_store_created (tenant : string)
    (doc : DiscountStoreMasterDocument.t) : DiscountStoreMasterDocument.t :=
  DiscountStoreMasterDocument.mk (Some tenant) (Some tenant)
    (DiscountStoreMasterDocument.store_code doc)
    (DiscountStoreMasterDocument.discount_code doc)
    (DiscountStoreMasterDocument.discount_value doc)
    (DiscountStoreMasterDocument.description doc).

(** Isolation of a category discount created under tenant [T1] from
    the repository of tenant [T2]: the create stores the document under
    [T1]; every read through the repository of [T2] answers as it does
    without the document and never returns it; update and delete through
    the repository of [T2] act as they do without the document and leave
    it in place. *)
Definition category_discount_isolated (T1 T2 : string)
    (doc : CategoryDiscountMasterDocument.t) (db : DB) : Prop :=
  let created := category_discount_created T1 doc in
  let db1 := mkDB (category_discount_master db ++ [created]) (discount_master db) in
  let theirs := CategoryDiscountMasterRepository.mk T2 in
  CategoryDiscountMasterRepository.create_category_discount_async
    (CategoryDiscountMasterRepository.mk T1) doc db = (Ok created, db1)
  ∧ (∀ code,
       ∃ found,
         CategoryDiscountMasterRepository.get_category_discount_by_code_async theirs code db1
         = (Ok found, db1)
         ∧ CategoryDiscountMasterRepository.get_category_discount_by_code_async theirs code db
           = (Ok found, db)
         ∧ found ≠ Some created)
  ∧ (∀ qf limit page sort,
       ∃ docs,
         CategoryDiscountMasterRepository.get_category_discount_by_filter_async
           theirs qf limit page sort db1 = (Ok docs, db1)
         ∧ CategoryDiscountMasterRepository.get_category_discount_by_filter_async
             theirs qf limit page sort db = (Ok docs, db)
         ∧ created ∉ docs)
  ∧ (∀ qf limit page sort,
       ∃ res,
         CategoryDiscountMasterRepository.get_category_discount_by_filter_paginated_async
           theirs qf limit page sort db1 = (Ok res, db1)
         ∧ CategoryDiscountMasterRepository.get_category_discount_by_filter_paginated_async
             theirs qf limit page sort db = (Ok res, db)
         ∧ created ∉ AbstractRepository.data res)
  ∧ (∀ code upd,
       ∃ r db2,
         CategoryDiscountMasterRepository.update_category_discount_async theirs code upd db
         = (r, db2)
         ∧ CategoryDiscountMasterRepository.update_category_discount_async theirs code upd db1
           = (r, mkDB (category_discount_master db2 ++ [created]) (discount_master db2))
         ∧ r ≠ Ok (Some created))
  ∧ (∀ code,
       ∃ r db2,
         CategoryDiscountMasterRepository.delete_category_discount_async theirs code db
         = (r, db2)
         ∧ CategoryDiscountMasterRepository.delete_category_discount_async theirs code db1
           = (r, mkDB (category_discount_master db2 ++ [created]) (discount_master db2))).

(** The same for a store discount. *)
Definition discount_store_isolated (T1 T2 : string)
    (doc : DiscountStoreMasterDocument.t) (db : DB) : Prop :=
  let created := discount_store_created T1 doc in
  let db1 := mkDB (category_discount_master db) (discount_master db ++ [created]) in
  let theirs := DiscountStoreMasterRepository.mk T2 in
  DiscountStoreMasterRepository.create_discount_store_async
    (DiscountStoreMasterRepository.mk T1) doc db = (Ok created, db1)
  ∧ (∀ code,
       ∃ found,
         DiscountStoreMasterRepository.get_discount_store_by_code_async theirs code db1
         = (Ok found, db1)
         ∧ DiscountStoreMasterRepository.get_discount_store_by_code_async theirs code db
           = (Ok found, db)
         ∧ found ≠ Some created)
  ∧ (∀ qf limit page sort,
       ∃ docs,
         DiscountStoreMasterRepository.get_discount_store_by_filter_async
           theirs qf limit page sort db1 = (Ok docs, db1)
         ∧ DiscountStoreMasterRepository.get_discount_store_by_filter_async
             theirs qf limit page sort db = (Ok docs, db)
         ∧ created ∉ docs)
  ∧ (∀ qf limit page sort,
       ∃ res,
         DiscountStoreMasterRepository.get_discount_store_by_filter_paginated_async
           theirs qf limit page sort db1 = (Ok res, db1)
         ∧ DiscountStoreMasterRepository.get_discount_store_by_filter_paginated_async
             theirs qf limit page sort db = (Ok res, db)
         ∧ created ∉ AbstractRepository.data res)
  ∧ (∀ code upd,
       ∃ r db2,
         DiscountStoreMasterRepository.update_discount_store_async theirs code upd db
         = (r, db2)
         ∧ DiscountStoreMasterRepository.update_discount_store_async theirs code upd db1
           = (r, mkDB (category_discount_master db2) (discount_master db2 ++ [created]))
         ∧ r ≠ Ok (Some created))
  ∧ (∀ code,
       ∃ r db2,
         DiscountStoreMasterRepository.delete_discount_store_async theirs code db
         = (r, db2)
         ∧ DiscountStoreMasterRepository.delete_discount_store_async theirs code db1
           = (r, mkDB (category_discount_master db2) (discount_master db2 ++ [created]))).

(** The category discount of a tenant with a given code, and the store
    discount of a tenant with a given code, as the collections hold
    them (the first one, should the collection hold several). *)
Definition the_category_discount (tenant code : string) (db : DB)
  : option CategoryDiscountMasterDocument.t :=
  List.find
    (λ d, bool_decide (CategoryDiscountMasterDocument.tenant_id d = Some tenant
                       ∧ CategoryDiscountMasterDocument.category_code d = Some code))
    (category_discount_master db).

Definition the_store_discount (tenant : string) (code : option string) (db : DB)
  : option DiscountStoreMasterDocument.t :=
  List.find
    (λ d, bool_decide (DiscountStoreMasterDocument.tenant_id d = Some tenant
                       ∧ DiscountStoreMasterDocument.discount_code d = code))
    (discount_master db).

(** The existence check before each write of the store-discount
    service, for one state and one discount code: create is refused with
    [DocumentAlreadyExistsException], the database left as it is, when
    the tenant already has the code, and otherwise is the create of the
    repository, which appends the new document; update and delete are
    refused with [DocumentNotFoundException] when the tenant does not
    have the code, and otherwise are the update and delete of the
    repository. *)
Definition discount_store_guarded (self : DiscountStoreMasterService.t)
    (db : DB) (discount_code : string) : Prop :=
  let repo := DiscountStoreMasterService.discount_store_master_repo self in
  let tenant := DiscountStoreMasterRepository.tenant_id repo in
  (∀ existing store_code discount_value description,
     the_store_discount tenant (Some discount_code) db = Some existing →
     DiscountStoreMasterService.create_discount_store_async
       self discount_code store_code discount_value description db
     = (Raise (DocumentAlreadyExistsException
                 ("discount with code " +:+ discount_code
                    +:+ " already exists. tenant_id: "
                    +:+ fmt (DiscountStoreMasterDocument.tenant_id existing))), db))
  ∧ (∀ store_code discount_value description,
       the_store_discount tenant (Some discount_code) db = None →
       let doc :=
         DiscountStoreMasterDocument.mk None None (Some store_code) (Some discount_code)
           (Some discount_value) (Some description) in
       DiscountStoreMasterService.create_discount_store_async
         self discount_code store_code discount_value description db
       = DiscountStoreMasterRepository.create_discount_store_async repo doc db
       ∧ DiscountStoreMasterRepository.create_discount_store_async repo doc db
         = (Ok (discount_store_created tenant doc),
            mkDB (category_discount_master db)
                 (discount_master db ++ [discount_store_created tenant doc])))
  ∧ (∀ update_data,
       the_store_discount tenant (Some discount_code) db = None →
       DiscountStoreMasterService.update_discount_store_async
         self discount_code update_data db
       = (Raise (DocumentNotFoundException
                   ("discount with code " +:+ discount_code +:+ " not found")), db))
  ∧ (∀ existing update_data,
       the_store_discount tenant (Some discount_code) db = Some existing →
       DiscountStoreMasterService.update_discount_store_async
         self discount_code update_data db
       = DiscountStoreMasterRepository.update_discount_store_async
           repo (Some discount_code) update_data db)
  ∧ (the_store_discount tenant (Some discount_code) db = None →
     DiscountStoreMasterService.delete_discount_store_async self discount_code db
     = (Raise (DocumentNotFoundException
                 ("discount_code with code " +:+ discount_code +:+ " not found")), db))
  ∧ (∀ existing,
       the_store_discount tenant (Some discount_code) db = Some existing →
       DiscountStoreMasterService.delete_discount_store_async self discount_code db
       = DiscountStoreMasterRepository.delete_discount_store_async
           repo (Some discount_code) db).

(** The same for the category-discount service. *)
Definition category_discount_guarded (self : CategoryDiscountMasterService.t)
    (db : DB) (category_code : string) : Prop :=
  let repo := CategoryDiscountMasterService.category_discount_master_repo self in
  let tenant := CategoryDiscountMasterRepository.tenant_id repo in
  (∀ existing store_code description discount_code,
     the_category_discount tenant category_code db = Some existing →
     CategoryDiscountMasterService.create_category_discount_async
       self category_code store_code description discount_code db
     = (Raise (DocumentAlreadyExistsException
                 ("category with code " +:+ category_code
                    +:+ " already exists. tenant_id: "
                    +:+ fmt (CategoryDiscountMasterDocument.tenant_id existing))), db))
  ∧ (∀ store_code description discount_code,
       the_category_discount tenant category_code db = None →
       let doc :=
         CategoryDiscountMasterDocument.mk None None (Some category_code)
           (Some store_code) (Some discount_code) (Some description) None in
       CategoryDiscountMasterService.create_category_discount_async
         self category_code store_code description discount_code db
       = CategoryDiscountMasterRepository.create_category_discount_async repo doc db
       ∧ CategoryDiscountMasterRepository.create_category_discount_async repo doc db
         = (Ok (category_discount_created tenant doc),
            mkDB (category_discount_master db ++ [category_discount_created tenant doc])
                 (discount_master db)))
  ∧ (∀ update_data,
       the_category_discount tenant category_code db = None →
       CategoryDiscountMasterService.update_category_discount_async
         self category_code update_data db
       = (Raise (DocumentNotFoundException
                   ("category with code " +:+ category_code +:+ " not found")), db))
  ∧ (∀ existing update_data,
       the_category_discount tenant category_code db = Some existing →
       CategoryDiscountMasterService.update_category_discount_async
         self category_code update_data db
       = CategoryDiscountMasterRepository.update_category_discount_async
           repo category_code update_data db)
  ∧ (the_category_discount tenant category_code db = None →
     CategoryDiscountMasterService.delete_category_discount_async self category_code db
     = (Raise (DocumentNotFoundException
                 ("category with code " +:+ category_code +:+ " not found")), db))
  ∧ (∀ existing,
       the_category_discount tenant category_code db = Some existing →
       CategoryDiscountMasterService.delete_category_discount_async self category_code db
       = CategoryDiscountMasterRepository.delete_category_discount_async
           repo category_code db).

(** * Sample data *)

Module Sample.
Definition service : CategoryDiscountMasterService.t :=
  CategoryDiscountMasterService.mk
    (CategoryDiscountMasterRepository.mk "tenant-a")
    (DiscountStoreMasterRepository.mk "tenant-a").

Definition discounts : DiscountStoreMasterService.t :=
  DiscountStoreMasterService.mk (DiscountStoreMasterRepository.mk "tenant-a").

Definition summer : CategoryDiscountMasterDocument.t :=
  CategoryDiscountMasterDocument.mk (Some "tenant-a") (Some "tenant-a")
    (Some "C1") (Some "S1") (Some "D10") (Some "summer sale") None.

Definition ten_percent : DiscountStoreMasterDocument.t :=
  DiscountStoreMasterDocument.mk (Some "tenant-a") (Some "tenant-a")
    (Some "S1") (Some "D10") (Some 10%float) (Some "ten percent").

Definition db_empty : DB := mkDB [] [].
Definition db_dangling : DB := mkDB [summer] [].
Definition db_full : DB := mkDB [summer] [ten_percent].
End Sample.

Module SampleData.
(** Four store discounts of one tenant, out of order, and one of another
    tenant. *)
Definition discount (tenant code : string) (v : float) : DiscountStoreMasterDocument.t :=
  DiscountStoreMasterDocument.mk (Some tenant) (Some tenant) (Some "S1") (Some code)
    (Some v) None.

Definition db_four : DB :=
  mkDB []
    [discount "tenant-a" "D30" 30; discount "tenant-b" "D10" 5;
     discount "tenant-a" "D10" 10; discount "tenant-a" "D40" 40;
     discount "tenant-a" "D20" 20].

(** Keys in lower camel case, as the master-data service spells them. *)
Definition camel (name : string) : string :=
  if bool_decide (name = "tenant_id") then "tenantId"
  else if bool_decide (name = "category_code") then "categoryCode"
  else if bool_decide (name = "store_code") then "storeCode"
  else if bool_decide (name = "discount_code") then "discountCode"
  else if bool_decide (name = "description") then "description"
  else if bool_decide (name = "description_short") then "descriptionShort"
  else if bool_decide (name = "discount_value") then "discountValue"
  else name.

(** The payload of the detail endpoint for a category without a
    category discount: the default detail document, every field null. *)
Definition soft_miss_payload : gmap string pyval :=
  {[ "tenantId" := VNone; "categoryCode" := VNone; "storeCode" := VNone;
     "discountCode" := VNone; "description" := VNone; "discountValue" := VNone ]}.

Definition soft_miss_server (rq : CategoryDiscountDetailWebRepository.Request)
  : CategoryDiscountDetailWebRepository.Outcome :=
  CategoryDiscountDetailWebRepository.Body (Some soft_miss_payload).

(** The payload for category C1 with its ten percent. *)
Definition summer_payload : gmap string pyval :=
  {[ "tenantId" := VStr "tenant-a"; "categoryCode" := VStr "C1"; "storeCode" := VStr "S1";
     "discountCode" := VStr "D10"; "description" := VStr "summer sale";
     "discountValue" := VFloat 10 ]}.

Definition summer_server (rq : CategoryDiscountDetailWebRepository.Request)
  : CategoryDiscountDetailWebRepository.Outcome :=
  CategoryDiscountDetailWebRepository.Body (Some summer_payload).

Definition summer_details : CategoryDiscountDetailsDocument.t :=
  CategoryDiscountDetailsDocument.mk (Some "tenant-a") (Some "C1") (Some "S1") (Some "D10")
    (Some "summer sale") None (Some 10%float).

Definition no_details : CategoryDiscountDetailsDocument.t :=
  CategoryDiscountDetailsDocument.mk None None None None None None None.

(** A cart repository that has fetched nothing yet. *)
Definition cart : CategoryDiscountDetailWebRepository.State :=
  CategoryDiscountDetailWebRepository.mkState
    (CategoryDiscountDetailWebRepository.mk "tenant-a" "S1"
       (CategoryDiscountDetailWebRepository.mkTerminalInfo "key" "tenant-a-S1-1")
       "C1" None "http://master-data")
    [].

Definition detail_request : CategoryDiscountDetailWebRepository.Request :=
  CategoryDiscountDetailWebRepository.mkRequest
    "/tenants/tenant-a/category_discounts/C1/detail"
    [("terminal_id", "tenant-a-S1-1")] [("X-API-KEY", "key")].
End SampleData.

Module SampleBooks.
Import ItemBookMasterService.

Definition cola : Button := mkButton 2 3 "4901" "cola".
Definition tea : Button := mkButton 2 3 "4902" "tea".
Definition water : Button := mkButton 0 0 "4903" "water".

(** One book of tenant-a: category 1 with tab 1 holding one button at
    (2, 3). *)
Definition book : ItemBook :=
  mkItemBook "tenant-a" "B1" "front"
    [mkCategory 1 "drinks" [mkTab 1 "cold" [cola]]].

Definition store : list ItemBook := [book].
Definition service : t := mk "tenant-a".
End SampleBooks.

(** * Natural keys *)

(** The natural key of a document within its collection: tenant and
    code.  A collection has unique keys when no two of its documents
    share one. *)
Definition store_discount_key (d : DiscountStoreMasterDocument.t)
  : option string * option string :=
  (DiscountStoreMasterDocument.tenant_id d, DiscountStoreMasterDocument.discount_code d).

Definition category_discount_key (d : CategoryDiscountMasterDocument.t)
  : option string * option string :=
  (CategoryDiscountMasterDocument.tenant_id d, CategoryDiscountMasterDocument.category_code d).

Definition unique_keys (db : DB) : Prop :=
  NoDup (category_discount_key <$> category_discount_master db)
  ∧ NoDup (store_discount_key <$> discount_master db).

(** * API layer: the delete endpoints *)

Module ApiDelete.
(** Modelled from the spec: the service of a tenant works on a
    repository constructed for that tenant (the dependency module that
    builds it is not part of the sources at hand). *)
Definition get_discount_store_master_service_async (tenant_id : string)
  : DiscountStoreMasterService.t :=
  DiscountStoreMasterService.mk (DiscountStoreMasterRepository.mk tenant_id).

Section Endpoints.
(** External collaborators: the check of the tenant against the
    security credentials, and the two delete response schemas, each
    constructed from keyword arguments and dumped. *)
Context {Payload : Type}.
Variable verify_tenant_id : string → string → result unit.
Variable DiscountStoreMasterDeleteResponse :
  option string → option string → option float → result Payload.
Variable CategoryDiscountMasterDeleteResponse :
  option string → option string → option string → result Payload.

Definition delete_discount (discount_code tenant_id tenant_id_with_security : string)
  : M DB (Api.ApiResponse Payload) :=
  lift (verify_tenant_id tenant_id tenant_id_with_security);;
  let service := get_discount_store_master_service_async tenant_id in
  (* check if discount exists *)
  discount ← DiscountStoreMasterService.get_discount_store_by_code_async service discount_code;
  (* the name is bound to the instance the service returned *)
  match Some discount with
  | None =>
      raise (DocumentNotFoundException
               ("discount_code with code " +:+ discount_code +:+ " not found"))
  | Some discount =>
      DiscountStoreMasterService.delete_discount_store_async service discount_code;;
      data ← lift (DiscountStoreMasterDeleteResponse
                     (DiscountStoreMasterDocument.discount_code discount)
                     (DiscountStoreMasterDocument.store_code discount)
                     (DiscountStoreMasterDocument.discount_value discount));
      mret (Api.mkApiResponse true Api.HTTP_200_OK
              ("discount " +:+ discount_code +:+ " deleted successfully for tenant_id: "
                 +:+ tenant_id)
              (Some data) "delete_discount")
  end.

Definition delete_category_discount
    (category_code tenant_id tenant_id_with_security : string)
  : M DB (Api.ApiResponse Payload) :=
  lift (verify_tenant_id tenant_id tenant_id_with_security);;
  let service := Api.get_category_discount_master_service_async tenant_id in
  (* Check if the category discount exists before attempting to delete *)
  existing_category_discount ←
    CategoryDiscountMasterService.get_category_discount_by_code_async service category_code;
  match Some existing_category_discount with
  | None =>
      raise (DocumentNotFoundException
               ("Category " +:+ category_code +:+ " not found, tenant_id: " +:+ tenant_id))
  | Some existing_category_discount =>
      CategoryDiscountMasterService.delete_category_discount_async service category_code;;
      data ← lift (CategoryDiscountMasterDeleteResponse
                     (CategoryDiscountMasterDocument.category_code existing_category_discount)
                     (CategoryDiscountMasterDocument.store_code existing_category_discount)
                     (CategoryDiscountMasterDocument.discount_code existing_category_discount));
      mret (Api.mkApiResponse true Api.HTTP_200_OK
              ("Category " +:+ category_code +:+ " deleted successfully for tenant_id: "
                 +:+ tenant_id)
              (Some data) "delete_category_discount")
  end.
End Endpoints.
End ApiDelete.

Module SampleServers.
(** A master-data service that knows no such category discount, and one
    that is down. *)
Definition not_found_server (rq : CategoryDiscountDetailWebRepository.Request)
  : CategoryDiscountDetailWebRepository.Outcome :=
  CategoryDiscountDetailWebRepository.Failure (Some 404).

Definition unreachable_server (rq : CategoryDiscountDetailWebRepository.Request)
  : CategoryDiscountDetailWebRepository.Outcome :=
  CategoryDiscountDetailWebRepository.Failure None.
End SampleServers.

(** * Properties *)

(** ** Running the effect monad *)

Ltac run :=
  repeat (unfold mbind, M_bind, mret, M_ret, lift, query, raise, zoom,
          result_bind, result_ret in *; cbn in * ).

(** ** Filters of the generic repository *)

Arguments AbstractRepository.matches : simpl never.
Arguments AbstractRepository.get_one_async : simpl never.
Arguments AbstractRepository.update_one_async : simpl never.
Arguments AbstractRepository.replace_one_async : simpl never.
Arguments AbstractRepository.delete_async : simpl never.
Arguments AbstractRepository.get_list_async_with_sort_and_paging : simpl never.
Arguments AbstractRepository.get_paginated_list_async : simpl never.
Arguments CategoryDiscountMasterRepository.__make_query_filter : simpl never.
Arguments DiscountStoreMasterRepository.__make_query_filter : simpl never.

Lemma pyval_eqb_str (a : pyval) (s : string) : pyval_eqb a (VStr s) = true ↔ a = VStr s.
Proof.
  destruct a as [|u|f]; cbn; try (split; [discriminate | intros [=]]).
  rewrite bool_decide_eq_true. split; [congruence | intros [=]; done].
Qed.

Lemma pyval_eqb_of_str (o : option string) (s : string) :
  pyval_eqb (of_str o) (VStr s) = true ↔ o = Some s.
Proof.
  rewrite pyval_eqb_str. destruct o; cbn; split; congruence.
Qed.

Section Filters.
Context {D : Type} `{!Document D}.
Import AbstractRepository.

Lemma matches_spec (qf : gmap string pyval) (d : D) :
  matches qf d = true ↔ ∀ k v, qf !! k = Some v → pyval_eqb (doc_get k d) v = true.
Proof. unfold matches. rewrite bool_decide_eq_true. reflexivity. Qed.

(** A filter naming a tenant matches documents of that tenant only. *)
Lemma matches_tenant (qf : gmap string pyval) (tenant : string) (d : D) :
  qf !! "tenant_id" = Some (VStr tenant) →
  matches qf d = true → doc_get "tenant_id" d = VStr tenant.
Proof.
  intros Hq Hm. rewrite matches_spec in Hm. apply pyval_eqb_str. eauto.
Qed.

Lemma matches_other_tenant (qf : gmap string pyval) (t1 t2 : string) (d : D) :
  qf !! "tenant_id" = Some (VStr t2) → doc_get "tenant_id" d = VStr t1 → t1 ≠ t2 →
  matches qf d = false.
Proof.
  intros Hq Hd Hne. destruct (matches qf d) eqn:Hm; [|done].
  apply (matches_tenant _ _ _ Hq) in Hm. congruence.
Qed.

(** Matching against a filter of two required fields. *)
Lemma matches_pair (k1 k2 : string) (v1 v2 : pyval) (d : D) :
  k1 ≠ k2 →
  matches {[ k1 := v1; k2 := v2 ]} d = true ↔
  pyval_eqb (doc_get k1 d) v1 = true ∧ pyval_eqb (doc_get k2 d) v2 = true.
Proof.
  intros Hne. rewrite matches_spec. split.
  - intros H. split; apply H.
    + apply lookup_insert_eq.
    + rewrite lookup_insert_ne by done. apply lookup_singleton_eq.
  - intros [H1 H2] k v Hk.
    apply lookup_insert_Some in Hk as [[<- <-]|[_ Hk]]; [done|].
    apply lookup_singleton_Some in Hk as [<- <-]. done.
Qed.

Lemma get_one_async_Some (qf : gmap string pyval) (coll : list D) (d : D) :
  get_one_async qf coll = Some d → d ∈ coll ∧ matches qf d = true.
Proof.
  unfold get_one_async. intros H. apply find_some in H as [Hin Hm].
  split; [by apply list_elem_of_In | done].
Qed.

Lemma get_one_async_None (qf : gmap string pyval) (coll : list D) :
  get_one_async qf coll = None ↔ ∀ d, d ∈ coll → matches qf d = false.
Proof.
  unfold get_one_async. split.
  - intros H d Hin. apply (find_none _ _ H). by apply list_elem_of_In.
  - intros H. induction coll as [|x coll IH]; [done|]. cbn.
    rewrite (H x) by left. apply IH. intros d Hd. apply H. by right.
Qed.

(** A document the filter rejects, appended to the collection, changes
    no answer and is touched by no write. *)
Lemma get_one_async_app_other (qf : gmap string pyval) (coll : list D) (x : D) :
  matches qf x = false → get_one_async qf (coll ++ [x]) = get_one_async qf coll.
Proof.
  intros Hx. unfold get_one_async. induction coll as [|y coll IH]; cbn.
  - by rewrite Hx.
  - destruct (matches qf y); [done | apply IH].
Qed.

Lemma filter_matches_app_other (qf : gmap string pyval) (coll : list D) (x : D) :
  matches qf x = false →
  filter (λ d, matches qf d = true) (coll ++ [x]) = filter (λ d, matches qf d = true) coll.
Proof.
  intros Hx. rewrite filter_app. rewrite (filter_cons_False _ x) by (rewrite Hx; done).
  rewrite filter_nil. apply app_nil_r.
Qed.

Lemma change_first_app_other (p : D → bool) (f : D → option D) (coll : list D) (x : D) :
  p x = false →
  change_first p f (coll ++ [x]) = (λ c, c ++ [x]) <$> change_first p f coll.
Proof.
  intros Hx. induction coll as [|y coll IH]; cbn.
  - by rewrite Hx.
  - destruct (p y).
    + cbn. destruct (f y); done.
    + rewrite IH. destruct (change_first p f coll); done.
Qed.

Lemma change_first_None (p : D → bool) (f : D → option D) (coll : list D) :
  change_first p f coll = None ↔ List.find p coll = None.
Proof.
  induction coll as [|y coll IH]; cbn; [done|].
  destruct (p y); [done|]. rewrite <- IH.
  destruct (change_first p f coll); cbn; split; congruence.
Qed.
End Filters.

(** ** Tenant isolation *)

Section Isolation.
Context {D : Type} `{!Document D}.
Import AbstractRepository.

(** What a page holds are documents the filter matches. *)
Lemma page_matches (qf : gmap string pyval) (limit page : Z) (sort : list (string * Z))
    (coll : list D) (d : D) :
  d ∈ get_list_async_with_sort_and_paging qf limit page sort coll →
  d ∈ coll ∧ matches qf d = true.
Proof.
  unfold get_list_async_with_sort_and_paging, sorted. intros Hd.
  apply elem_of_take in Hd as (i & Hd & _).
  rewrite lookup_drop in Hd. apply list_elem_of_lookup_2 in Hd.
  rewrite merge_sort_Permutation in Hd.
  apply list_elem_of_filter in Hd as [Hm Hin]. done.
Qed.

Lemma page_app_other (qf : gmap string pyval) (limit page : Z) (sort : list (string * Z))
    (coll : list D) (x : D) :
  matches qf x = false →
  get_list_async_with_sort_and_paging qf limit page sort (coll ++ [x])
  = get_list_async_with_sort_and_paging qf limit page sort coll.
Proof.
  intros Hx. unfold get_list_async_with_sort_and_paging.
  by rewrite filter_matches_app_other.
Qed.

Lemma paginated_app_other (qf : gmap string pyval) (limit page : Z)
    (sort : list (string * Z)) (coll : list D) (x : D) :
  matches qf x = false →
  get_paginated_list_async qf limit page sort (coll ++ [x])
  = get_paginated_list_async qf limit page sort coll.
Proof.
  intros Hx. unfold get_paginated_list_async.
  by rewrite page_app_other, filter_matches_app_other.
Qed.

Lemma update_one_async_app_other (qf upd : gmap string pyval) (coll : list D) (x : D) :
  matches qf x = false →
  update_one_async qf upd (coll ++ [x])
  = ((update_one_async qf upd coll).1, (update_one_async qf upd coll).2 ++ [x]).
Proof.
  intros Hx. unfold update_one_async. rewrite change_first_app_other by done.
  destruct (change_first _ _ coll); done.
Qed.

Lemma delete_async_app_other (qf : gmap string pyval) (coll : list D) (x : D) :
  matches qf x = false →
  delete_async qf (coll ++ [x])
  = ((delete_async qf coll).1, (delete_async qf coll).2 ++ [x]).
Proof.
  intros Hx. unfold delete_async. rewrite change_first_app_other by done.
  destruct (change_first _ _ coll); done.
Qed.
End Isolation.

Lemma category_filter_tenant (self : CategoryDiscountMasterRepository.t) (code : string) :
  CategoryDiscountMasterRepository.__make_query_filter self code !! "tenant_id"
  = Some (VStr (CategoryDiscountMasterRepository.tenant_id self)).
Proof. apply lookup_insert_eq. Qed.

Lemma discount_filter_tenant (self : DiscountStoreMasterRepository.t) (code : option string) :
  DiscountStoreMasterRepository.__make_query_filter self code !! "tenant_id"
  = Some (VStr (DiscountStoreMasterRepository.tenant_id self)).
Proof. apply lookup_insert_eq. Qed.

Lemma create_category_discount_async_eq (self : CategoryDiscountMasterRepository.t)
    (doc : CategoryDiscountMasterDocument.t) (db : DB) :
  CategoryDiscountMasterRepository.create_category_discount_async self doc db
  = (Ok (category_discount_created (CategoryDiscountMasterRepository.tenant_id self) doc),
     mkDB (category_discount_master db
             ++ [category_discount_created
                   (CategoryDiscountMasterRepository.tenant_id self) doc])
          (discount_master db)).
Proof. destruct doc, db. reflexivity. Qed.

Lemma create_discount_store_async_eq (self : DiscountStoreMasterRepository.t)
    (doc : DiscountStoreMasterDocument.t) (db : DB) :
  DiscountStoreMasterRepository.create_discount_store_async self doc db
  = (Ok (discount_store_created (DiscountStoreMasterRepository.tenant_id self) doc),
     mkDB (category_discount_master db)
          (discount_master db
             ++ [discount_store_created (DiscountStoreMasterRepository.tenant_id self) doc])).
Proof. destruct doc, db. reflexivity. Qed.

Lemma category_discount_isolation (T1 T2 : string)
    (doc : CategoryDiscountMasterDocument.t) (db : DB) :
  T1 ≠ T2 → category_discount_isolated T1 T2 doc db.
Proof.
  intros Hne. unfold category_discount_isolated.
  set (created := category_discount_created T1 doc).
  set (db1 := mkDB _ _).
  set (theirs := CategoryDiscountMasterRepository.mk T2).
  assert (Hcreated : ∀ qf : gmap string pyval,
             qf !! "tenant_id" = Some (VStr T2) →
             AbstractRepository.matches qf created = false).
  { intros qf Hq. by apply (matches_other_tenant qf T1 T2). }
  assert (Hfound : ∀ (qf : gmap string pyval) coll,
             qf !! "tenant_id" = Some (VStr T2) →
             AbstractRepository.get_one_async qf coll ≠ Some created).
  { intros qf coll Hq Hf. apply get_one_async_Some in Hf as [_ Hm].
    rewrite Hcreated in Hm; done. }
  split; [apply create_category_discount_async_eq|].
  split; [|split; [|split; [|split]]].
  - intros code. eexists. unfold db1. run.
    rewrite get_one_async_app_other
      by (apply Hcreated, (category_filter_tenant theirs)).
    repeat split. destruct db; cbn. reflexivity.
    apply Hfound, (category_filter_tenant theirs).
  - intros qf limit page sort. eexists. unfold db1. run.
    rewrite page_app_other by (apply Hcreated, lookup_insert_eq).
    repeat split. destruct db; reflexivity.
    intros Hin. apply page_matches in Hin as [_ Hm].
    rewrite Hcreated in Hm; [done | apply lookup_insert_eq].
  - intros qf limit page sort. eexists. unfold db1. run.
    rewrite paginated_app_other by (apply Hcreated, lookup_insert_eq).
    repeat split. destruct db; reflexivity.
    intros Hin. apply page_matches in Hin as [_ Hm].
    rewrite Hcreated in Hm; [done | apply lookup_insert_eq].
  - intros code upd.
    unfold CategoryDiscountMasterRepository.update_category_discount_async,
      CategoryDiscountMasterRepository.get_category_discount_by_code_async,
      CategoryDiscountMasterRepository.collection, db1.
    run.
    rewrite update_one_async_app_other
      by (apply Hcreated, (category_filter_tenant theirs)).
    destruct (AbstractRepository.update_one_async _ upd (category_discount_master db))
      as [[[]|e] coll2] eqn:Hupd; cbn.
    + rewrite get_one_async_app_other
        by (apply Hcreated, (category_filter_tenant theirs)).
      do 2 eexists. repeat split.
      intros [=Hf]. by apply Hfound in Hf; [|apply (category_filter_tenant theirs)].
    + do 2 eexists. repeat split. done.
    + do 2 eexists. repeat split. unfold AbstractRepository.update_one_async in Hupd.
      destruct (AbstractRepository.change_first _ _ _); done.
  - intros code.
    unfold CategoryDiscountMasterRepository.delete_category_discount_async,
      CategoryDiscountMasterRepository.collection, db1.
    run.
    rewrite delete_async_app_other
      by (apply Hcreated, (category_filter_tenant theirs)).
    destruct (AbstractRepository.delete_async _ (category_discount_master db))
      as [r coll2]; cbn.
    do 2 eexists. repeat split.
Qed.

Lemma discount_store_isolation (T1 T2 : string)
    (doc : DiscountStoreMasterDocument.t) (db : DB) :
  T1 ≠ T2 → discount_store_isolated T1 T2 doc db.
Proof.
  intros Hne. unfold discount_store_isolated.
  set (created := discount_store_created T1 doc).
  set (db1 := mkDB _ _).
  set (theirs := DiscountStoreMasterRepository.mk T2).
  assert (Hcreated : ∀ qf : gmap string pyval,
             qf !! "tenant_id" = Some (VStr T2) →
             AbstractRepository.matches qf created = false).
  { intros qf Hq. by apply (matches_other_tenant qf T1 T2). }
  assert (Hfound : ∀ (qf : gmap string pyval) coll,
             qf !! "tenant_id" = Some (VStr T2) →
             AbstractRepository.get_one_async qf coll ≠ Some created).
  { intros qf coll Hq Hf. apply get_one_async_Some in Hf as [_ Hm].
    rewrite Hcreated in Hm; done. }
  split; [apply create_discount_store_async_eq|].
  split; [|split; [|split; [|split]]].
  - intros code. eexists. unfold db1. run.
    rewrite get_one_async_app_other
      by (apply Hcreated, (discount_filter_tenant theirs)).
    repeat split. destruct db; cbn. reflexivity.
    apply Hfound, (discount_filter_tenant theirs).
  - intros qf limit page sort. eexists. unfold db1. run.
    rewrite page_app_other by (apply Hcreated, lookup_insert_eq).
    repeat split. destruct db; reflexivity.
    intros Hin. apply page_matches in Hin as [_ Hm].
    rewrite Hcreated in Hm; [done | apply lookup_insert_eq].
  - intros qf limit page sort. eexists. unfold db1. run.
    rewrite paginated_app_other by (apply Hcreated, lookup_insert_eq).
    repeat split. destruct db; reflexivity.
    intros Hin. apply page_matches in Hin as [_ Hm].
    rewrite Hcreated in Hm; [done | apply lookup_insert_eq].
  - intros code upd.
    unfold DiscountStoreMasterRepository.update_discount_store_async,
      DiscountStoreMasterRepository.get_discount_store_by_code_async,
      DiscountStoreMasterRepository.collection, db1.
    run.
    rewrite update_one_async_app_other
      by (apply Hcreated, (discount_filter_tenant theirs)).
    destruct (AbstractRepository.update_one_async _ upd (discount_master db))
      as [[[]|e] coll2] eqn:Hupd; cbn.
    + rewrite get_one_async_app_other
        by (apply Hcreated, (discount_filter_tenant theirs)).
      do 2 eexists. repeat split.
      intros [=Hf]. by apply Hfound in Hf; [|apply (discount_filter_tenant theirs)].
    + do 2 eexists. repeat split. done.
    + do 2 eexists. repeat split. unfold AbstractRepository.update_one_async in Hupd.
      destruct (AbstractRepository.change_first _ _ _); done.
  - intros code.
    unfold DiscountStoreMasterRepository.delete_discount_store_async,
      DiscountStoreMasterRepository.collection, db1.
    run.
    rewrite delete_async_app_other
      by (apply Hcreated, (discount_filter_tenant theirs)).
    destruct (AbstractRepository.delete_async _ (discount_master db))
      as [r coll2]; cbn.
    do 2 eexists. repeat split.
Qed.


(** C1 — tenant isolation: for tenants T1 ≠ T2, a document created
    through a repository constructed for T1 is stored under T1 and is
    never returned by get_by_code, never included in a list or paginated
    result, and never matched by update or delete issued through a
    repository constructed for T2, whatever the natural key, for category
    discounts and for store discounts alike. *)
Theorem tenant_isolation (T1 T2 : string) :
  T1 ≠ T2 →
  (∀ doc db, category_discount_isolated T1 T2 doc db)
  ∧ (∀ doc db, discount_store_isolated T1 T2 doc db).
Proof.
  intros Hne. split; intros doc db.
  - by apply category_discount_isolation.
  - by apply discount_store_isolation.
Qed.

Lemma tenant_isolation_witness :
  "tenant-a" ≠ "tenant-b"
  ∧ (∀ doc db, category_discount_isolated "tenant-a" "tenant-b" doc db)
  ∧ (∀ doc db, discount_store_isolated "tenant-a" "tenant-b" doc db).
Proof.
  split; [discriminate|]. apply tenant_isolation. discriminate.
Defined.

(** Tenant-b asks for the code tenant-a has just created, by code and
    by list: nothing is found. *)
Example isolation_of_a_created_discount :
  let ours := DiscountStoreMasterRepository.mk "tenant-a" in
  let theirs := DiscountStoreMasterRepository.mk "tenant-b" in
  let db1 :=
    (DiscountStoreMasterRepository.create_discount_store_async ours
       (DiscountStoreMasterDocument.mk None None (Some "S1") (Some "D10") (Some 10%float) None)
       Sample.db_empty).2 in
  discount_master db1 = [SampleData.discount "tenant-a" "D10" 10]
  ∧ (DiscountStoreMasterRepository.get_discount_store_by_code_async theirs (Some "D10") db1).1
    = Ok None
  ∧ (DiscountStoreMasterRepository.get_discount_store_by_filter_async theirs
       {[ "tenant_id" := VStr "tenant-a" ]} 10 1 [] db1).1 = Ok []
  ∧ (DiscountStoreMasterRepository.delete_discount_store_async theirs (Some "D10") db1)
    = (Ok false, db1)
  ∧ (DiscountStoreMasterRepository.get_discount_store_by_code_async ours (Some "D10") db1).1
    = Ok (Some (SampleData.discount "tenant-a" "D10" 10)).
Proof. vm_compute. repeat split. Qed.

(** ** What the repositories find *)

Lemma pyval_eqb_of_str_of_str (a b : option string) :
  pyval_eqb (of_str a) (of_str b) = true ↔ a = b.
Proof.
  destruct a, b; cbn; rewrite ?bool_decide_eq_true; split; congruence.
Qed.

Lemma category_filter_matches (self : CategoryDiscountMasterRepository.t) (code : string)
    (d : CategoryDiscountMasterDocument.t) :
  AbstractRepository.matches (CategoryDiscountMasterRepository.__make_query_filter self code) d
  = bool_decide
      (CategoryDiscountMasterDocument.tenant_id d
         = Some (CategoryDiscountMasterRepository.tenant_id self)
       ∧ CategoryDiscountMasterDocument.category_code d = Some code).
Proof.
  apply Bool.eq_iff_eq_true. rewrite bool_decide_eq_true.
  unfold CategoryDiscountMasterRepository.__make_query_filter.
  rewrite matches_pair by discriminate. cbn.
  change (CategoryDiscountMasterDocument.get "tenant_id" d)
    with (of_str (CategoryDiscountMasterDocument.tenant_id d)).
  change (CategoryDiscountMasterDocument.get "category_code" d)
    with (of_str (CategoryDiscountMasterDocument.category_code d)).
  by rewrite !pyval_eqb_of_str.
Qed.

Lemma discount_filter_matches (self : DiscountStoreMasterRepository.t) (code : option string)
    (d : DiscountStoreMasterDocument.t) :
  AbstractRepository.matches (DiscountStoreMasterRepository.__make_query_filter self code) d
  = bool_decide
      (DiscountStoreMasterDocument.tenant_id d
         = Some (DiscountStoreMasterRepository.tenant_id self)
       ∧ DiscountStoreMasterDocument.discount_code d = code).
Proof.
  apply Bool.eq_iff_eq_true. rewrite bool_decide_eq_true.
  unfold DiscountStoreMasterRepository.__make_query_filter.
  rewrite matches_pair by discriminate. cbn.
  change (DiscountStoreMasterDocument.get "tenant_id" d)
    with (of_str (DiscountStoreMasterDocument.tenant_id d)).
  change (DiscountStoreMasterDocument.get "discount_code" d)
    with (of_str (DiscountStoreMasterDocument.discount_code d)).
  by rewrite pyval_eqb_of_str, pyval_eqb_of_str_of_str.
Qed.

Lemma find_ext {A} (p q : A → bool) (l : list A) :
  (∀ x, p x = q x) → List.find p l = List.find q l.
Proof.
  intros H. induction l as [|x l IH]; cbn; [done|]. rewrite H, IH. done.
Qed.

Lemma get_category_discount_by_code_async_eq (self : CategoryDiscountMasterRepository.t)
    (code : string) (db : DB) :
  CategoryDiscountMasterRepository.get_category_discount_by_code_async self code db
  = (Ok (the_category_discount (CategoryDiscountMasterRepository.tenant_id self) code db), db).
Proof.
  unfold CategoryDiscountMasterRepository.get_category_discount_by_code_async,
    CategoryDiscountMasterRepository.collection, the_category_discount,
    AbstractRepository.get_one_async.
  run. destruct db; cbn. do 2 f_equal.
  apply find_ext, category_filter_matches.
Qed.

Lemma get_discount_store_by_code_async_eq (self : DiscountStoreMasterRepository.t)
    (code : option string) (db : DB) :
  DiscountStoreMasterRepository.get_discount_store_by_code_async self code db
  = (Ok (the_store_discount (DiscountStoreMasterRepository.tenant_id self) code db), db).
Proof.
  unfold DiscountStoreMasterRepository.get_discount_store_by_code_async,
    DiscountStoreMasterRepository.collection, the_store_discount,
    AbstractRepository.get_one_async.
  run. destruct db; cbn. do 2 f_equal.
  apply find_ext, discount_filter_matches.
Qed.

(** ** Category-discount detail composition *)

Arguments the_category_discount : simpl never.
Arguments the_store_discount : simpl never.

Ltac lookups :=
  rewrite ?get_category_discount_by_code_async_eq, ?get_discount_store_by_code_async_eq.

(** C2 — error policy of the detail composition: when no category
    discount with the code exists the call returns the default detail
    document, all of whose fields are [None], and raises nothing; when
    the category discount exists and its discount code resolves to no
    store discount the call raises [DocumentNotFoundException]. *)
Theorem detail_error_policy (self : CategoryDiscountMasterService.t)
    (category_code : string) (db : DB) :
  let tenant :=
    CategoryDiscountMasterRepository.tenant_id
      (CategoryDiscountMasterService.category_discount_master_repo self) in
  let store_tenant :=
    DiscountStoreMasterRepository.tenant_id
      (CategoryDiscountMasterService.discount_store_master_repo self) in
  (the_category_discount tenant category_code db = None →
   CategoryDiscountMasterService.get_category_discount_detail_by_code_async
     self category_code db
   = (Ok (CategoryDiscountDetailDocument.mk None None None None None None None None), db))
  ∧ (∀ cd,
       the_category_discount tenant category_code db = Some cd →
       the_store_discount store_tenant (CategoryDiscountMasterDocument.discount_code cd) db
       = None →
       CategoryDiscountMasterService.get_category_discount_detail_by_code_async
         self category_code db
       = (Raise (DocumentNotFoundException
                   ("discount store with code "
                      +:+ fmt (CategoryDiscountMasterDocument.discount_code cd)
                      +:+ " not found")), db)).
Proof.
  intros tenant store_tenant.
  unfold CategoryDiscountMasterService.get_category_discount_detail_by_code_async.
  split.
  - intros Hcd. unfold mbind, M_bind. lookups. fold tenant. rewrite Hcd. reflexivity.
  - intros cd Hcd Hsd. unfold mbind, M_bind. lookups. fold tenant. rewrite Hcd.
    lookups. fold store_tenant. rewrite Hsd. reflexivity.
Qed.

Lemma detail_error_policy_witness :
  (the_category_discount "tenant-a" "C1" Sample.db_empty = None
   ∧ CategoryDiscountMasterService.get_category_discount_detail_by_code_async
       Sample.service "C1" Sample.db_empty
     = (Ok (CategoryDiscountDetailDocument.mk None None None None None None None None),
        Sample.db_empty))
  ∧ (the_category_discount "tenant-a" "C1" Sample.db_dangling = Some Sample.summer
     ∧ the_store_discount "tenant-a" (Some "D10") Sample.db_dangling = None
     ∧ CategoryDiscountMasterService.get_category_discount_detail_by_code_async
         Sample.service "C1" Sample.db_dangling
       = (Raise (DocumentNotFoundException "discount store with code D10 not found"),
          Sample.db_dangling)).
Proof.
  split.
  - split; [reflexivity|].
    apply (proj1 (detail_error_policy Sample.service "C1" Sample.db_empty)).
    reflexivity.
  - split; [reflexivity|]. split; [reflexivity|].
    apply (proj2 (detail_error_policy Sample.service "C1" Sample.db_dangling)
             Sample.summer); reflexivity.
Defined.

(** C8 — success postcondition of the detail composition: when the
    category discount exists and the store discount it refers to exists,
    the returned detail carries tenant_id, category_code, store_code,
    discount_code and description of the category discount and the
    discount_value of the store discount. *)
Theorem detail_success (self : CategoryDiscountMasterService.t)
    (category_code : string) (db : DB)
    (cd : CategoryDiscountMasterDocument.t) (sd : DiscountStoreMasterDocument.t) :
  the_category_discount
    (CategoryDiscountMasterRepository.tenant_id
       (CategoryDiscountMasterService.category_discount_master_repo self))
    category_code db = Some cd →
  the_store_discount
    (DiscountStoreMasterRepository.tenant_id
       (CategoryDiscountMasterService.discount_store_master_repo self))
    (CategoryDiscountMasterDocument.discount_code cd) db = Some sd →
  ∃ detail,
    CategoryDiscountMasterService.get_category_discount_detail_by_code_async
      self category_code db = (Ok detail, db)
    ∧ CategoryDiscountDetailDocument.tenant_id detail
      = CategoryDiscountMasterDocument.tenant_id cd
    ∧ CategoryDiscountDetailDocument.category_code detail
      = CategoryDiscountMasterDocument.category_code cd
    ∧ CategoryDiscountDetailDocument.store_code detail
      = CategoryDiscountMasterDocument.store_code cd
    ∧ CategoryDiscountDetailDocument.discount_code detail
      = CategoryDiscountMasterDocument.discount_code cd
    ∧ CategoryDiscountDetailDocument.description detail
      = CategoryDiscountMasterDocument.description cd
    ∧ CategoryDiscountDetailDocument.discount_value detail
      = DiscountStoreMasterDocument.discount_value sd.
Proof.
  intros Hcd Hsd.
  unfold CategoryDiscountMasterService.get_category_discount_detail_by_code_async.
  unfold mbind, M_bind. lookups. rewrite Hcd. lookups. rewrite Hsd.
  eexists. split; [reflexivity|]. cbn. repeat split.
Qed.

Lemma detail_success_witness :
  the_category_discount "tenant-a" "C1" Sample.db_full = Some Sample.summer
  ∧ the_store_discount "tenant-a" (Some "D10") Sample.db_full = Some Sample.ten_percent
  ∧ ∃ detail,
      CategoryDiscountMasterService.get_category_discount_detail_by_code_async
        Sample.service "C1" Sample.db_full = (Ok detail, Sample.db_full)
      ∧ CategoryDiscountDetailDocument.tenant_id detail = Some "tenant-a"
      ∧ CategoryDiscountDetailDocument.category_code detail = Some "C1"
      ∧ CategoryDiscountDetailDocument.store_code detail = Some "S1"
      ∧ CategoryDiscountDetailDocument.discount_code detail = Some "D10"
      ∧ CategoryDiscountDetailDocument.description detail = Some "summer sale"
      ∧ CategoryDiscountDetailDocument.discount_value detail = Some 10%float.
Proof.
  split; [reflexivity|]. split; [reflexivity|].
  apply (detail_success Sample.service "C1" Sample.db_full Sample.summer
           Sample.ten_percent); reflexivity.
Defined.

(** ** Existence check, then mutate *)

Ltac guarded H :=
  unfold mbind, M_bind; lookups; rewrite H; reflexivity.

Lemma discount_store_service_guarded (self : DiscountStoreMasterService.t)
    (db : DB) (discount_code : string) :
  discount_store_guarded self db discount_code.
Proof.
  unfold discount_store_guarded.
  split; [|split; [|split; [|split; [|split]]]].
  - intros existing store_code discount_value description H.
    unfold DiscountStoreMasterService.create_discount_store_async. guarded H.
  - intros store_code discount_value description H. split.
    + unfold DiscountStoreMasterService.create_discount_store_async.
      unfold mbind, M_bind at 1. lookups. rewrite H. reflexivity.
    + apply create_discount_store_async_eq.
  - intros update_data H.
    unfold DiscountStoreMasterService.update_discount_store_async. guarded H.
  - intros existing update_data H.
    unfold DiscountStoreMasterService.update_discount_store_async.
    unfold mbind, M_bind at 1. lookups. rewrite H. reflexivity.
  - intros H. unfold DiscountStoreMasterService.delete_discount_store_async. guarded H.
  - intros existing H. unfold DiscountStoreMasterService.delete_discount_store_async.
    guarded H.
Qed.

Lemma category_discount_service_guarded (self : CategoryDiscountMasterService.t)
    (db : DB) (category_code : string) :
  category_discount_guarded self db category_code.
Proof.
  unfold category_discount_guarded.
  split; [|split; [|split; [|split; [|split]]]].
  - intros existing store_code description discount_code H.
    unfold CategoryDiscountMasterService.create_category_discount_async. guarded H.
  - intros store_code description discount_code H. split.
    + unfold CategoryDiscountMasterService.create_category_discount_async.
      unfold mbind, M_bind at 1. lookups. rewrite H. reflexivity.
    + apply create_category_discount_async_eq.
  - intros update_data H.
    unfold CategoryDiscountMasterService.update_category_discount_async. guarded H.
  - intros existing update_data H.
    unfold CategoryDiscountMasterService.update_category_discount_async.
    unfold mbind, M_bind at 1. lookups. rewrite H. reflexivity.
  - intros H. unfold CategoryDiscountMasterService.delete_category_discount_async.
    guarded H.
  - intros existing H. unfold CategoryDiscountMasterService.delete_category_discount_async.
    guarded H.
Qed.

(** C4 — existence check, then mutate, in both discount master
    services: for every state and natural key, create raises
    [DocumentAlreadyExistsException] and leaves the database as it is when
    the tenant already has a document with the key; update and delete
    raise [DocumentNotFoundException] when the tenant has none; when the
    precondition holds, the operation is the write of the repository. *)
Theorem existence_check_then_mutate (db : DB) (code : string) :
  (∀ self : DiscountStoreMasterService.t, discount_store_guarded self db code)
  ∧ (∀ self : CategoryDiscountMasterService.t, category_discount_guarded self db code).
Proof.
  split; intros self.
  - apply discount_store_service_guarded.
  - apply category_discount_service_guarded.
Qed.

Lemma existence_check_then_mutate_witness :
  (the_store_discount "tenant-a" (Some "D10") Sample.db_full = Some Sample.ten_percent
   ∧ DiscountStoreMasterService.create_discount_store_async
       Sample.discounts "D10" "S2" 20%float "twenty percent" Sample.db_full
     = (Raise (DocumentAlreadyExistsException
                 "discount with code D10 already exists. tenant_id: tenant-a"),
        Sample.db_full))
  ∧ (the_store_discount "tenant-a" (Some "D10") Sample.db_empty = None
     ∧ DiscountStoreMasterService.delete_discount_store_async
         Sample.discounts "D10" Sample.db_empty
       = (Raise (DocumentNotFoundException "discount_code with code D10 not found"),
          Sample.db_empty))
  ∧ (the_category_discount "tenant-a" "C1" Sample.db_empty = None
     ∧ CategoryDiscountMasterService.update_category_discount_async
         Sample.service "C1" ∅ Sample.db_empty
       = (Raise (DocumentNotFoundException "category with code C1 not found"),
          Sample.db_empty)).
Proof.
  split; [|split].
  - split; [reflexivity|].
    pose proof (proj1 (existence_check_then_mutate Sample.db_full "D10") Sample.discounts)
      as H.
    unfold discount_store_guarded in H. destruct H as (H & _).
    apply (H Sample.ten_percent). reflexivity.
  - split; [reflexivity|].
    pose proof (proj1 (existence_check_then_mutate Sample.db_empty "D10") Sample.discounts)
      as H.
    unfold discount_store_guarded in H. destruct H as (_ & _ & _ & _ & H & _).
    apply H. reflexivity.
  - split; [reflexivity|].
    pose proof (proj2 (existence_check_then_mutate Sample.db_empty "C1") Sample.service)
      as H.
    unfold category_discount_guarded in H. destruct H as (_ & _ & H & _).
    apply H. reflexivity.
Defined.

(** ** Range validation of the discount value *)

#[local] Set Warnings "-inexact-float".

Section Updates.
Context {D : Type} `{!Document D}.
Import AbstractRepository.

Lemma apply_update_singleton (k : string) (v : pyval) (d : D) :
  apply_update {[ k := v ]} d = doc_set k v d.
Proof. unfold apply_update. by rewrite map_to_list_singleton. Qed.

(** Changing the first match into a document that still matches: the
    lookup then finds the changed document. *)
Lemma change_first_find (p : D → bool) (f : D → option D) (coll : list D) (d d' : D) :
  List.find p coll = Some d → f d = Some d' → p d' = true →
  ∃ coll', change_first p f coll = Some coll' ∧ List.find p coll' = Some d'.
Proof.
  intros Hfind Hf Hp. induction coll as [|x coll IH]; cbn in *; [done|].
  destruct (p x) eqn:Hx.
  - injection Hfind as ->. rewrite Hf. cbn. eexists. split; [done|].
    cbn. by rewrite Hp.
  - destruct (IH Hfind) as (coll' & -> & Hfind'). cbn.
    eexists. split; [done|]. cbn. by rewrite Hx.
Qed.
End Updates.

Lemma the_store_discount_find (self : DiscountStoreMasterRepository.t)
    (code : option string) (db : DB) :
  List.find
    (AbstractRepository.matches (DiscountStoreMasterRepository.__make_query_filter self code))
    (discount_master db)
  = the_store_discount (DiscountStoreMasterRepository.tenant_id self) code db.
Proof. apply find_ext, discount_filter_matches. Qed.

(** An update of the discount value alone puts the given value into the
    store discount, whatever the value. *)
Lemma update_discount_value_stored (self : DiscountStoreMasterService.t) (db : DB)
    (code : string) (existing : DiscountStoreMasterDocument.t) (v : float) :
  the_store_discount
    (DiscountStoreMasterRepository.tenant_id
       (DiscountStoreMasterService.discount_store_master_repo self))
    (Some code) db = Some existing →
  ∃ db',
    DiscountStoreMasterService.update_discount_store_async
      self code {[ "discount_value" := VFloat v ]} db
    = (Ok (Some (DiscountStoreMasterDocument.set "discount_value" (VFloat v) existing)), db').
Proof.
  intros Hex.
  destruct (discount_store_service_guarded self db code) as (_ & _ & _ & Hupd & _).
  rewrite (Hupd existing _ Hex). clear Hupd.
  set (repo := DiscountStoreMasterService.discount_store_master_repo self) in *.
  unfold DiscountStoreMasterRepository.update_discount_store_async,
    DiscountStoreMasterRepository.get_discount_store_by_code_async,
    DiscountStoreMasterRepository.collection, AbstractRepository.update_one_async.
  rewrite <- the_store_discount_find in Hex.
  destruct (change_first_find
              (AbstractRepository.matches
                 (DiscountStoreMasterRepository.__make_query_filter repo (Some code)))
              (λ d, Some (AbstractRepository.apply_update
                            {[ "discount_value" := VFloat v ]} d))
              (discount_master db) existing
              (DiscountStoreMasterDocument.set "discount_value" (VFloat v) existing) Hex)
    as (coll' & Hch & Hfind').
  { by rewrite apply_update_singleton. }
  { apply find_some in Hex as [_ Hm]. rewrite discount_filter_matches in Hm |- *.
    rewrite bool_decide_eq_true in Hm |- *. by destruct existing. }
  run. rewrite Hch. cbn. unfold AbstractRepository.get_one_async. rewrite Hfind'.
  eexists. reflexivity.
Qed.




(** ** Pagination *)

Section Pagination.
Context {D : Type} `{!Document D}.
Import AbstractRepository.

Lemma sorted_Permutation (sort : list (string * Z)) (docs : list D) :
  sorted sort docs ≡ₚ docs.
Proof. apply merge_sort_Permutation. Qed.

Lemma page_length (qf : gmap string pyval) (limit page : Z) (sort : list (string * Z))
    (coll : list D) :
  0 ≤ limit →
  Z.of_nat (length (get_list_async_with_sort_and_paging qf limit page sort coll)) ≤ limit.
Proof.
  intros Hl. unfold get_list_async_with_sort_and_paging.
  rewrite length_take. lia.
Qed.

Lemma data_paginated (qf : gmap string pyval) (limit page : Z) (sort : list (string * Z))
    (coll : list D) :
  data (get_paginated_list_async qf limit page sort coll)
  = get_list_async_with_sort_and_paging qf limit page sort coll.
Proof. reflexivity. Qed.

(** Two pages of two cover a sorted sequence of four, in order. *)
Lemma two_pages_of_two (qf : gmap string pyval) (sort : list (string * Z)) (coll : list D) :
  length (filter (λ d, matches qf d = true) coll) = 4%nat →
  get_list_async_with_sort_and_paging qf 2 1 sort coll
  ++ get_list_async_with_sort_and_paging qf 2 2 sort coll
  = sorted sort (filter (λ d, matches qf d = true) coll).
Proof.
  intros Hlen. unfold get_list_async_with_sort_and_paging.
  set (s := sorted sort _).
  assert (Hs : length s = 4%nat) by (unfold s; by rewrite sorted_Permutation).
  change (Z.to_nat ((1 - 1) * 2)) with 0%nat.
  change (Z.to_nat ((2 - 1) * 2)) with 2%nat.
  change (Z.to_nat 2) with 2%nat.
  rewrite drop_0.
  rewrite (take_ge (drop 2 s)) by (rewrite length_drop; lia).
  apply take_drop.
Qed.
End Pagination.



(** The two pages of the four discounts of tenant-a, by ascending code;
    the discount of tenant-b is on neither. *)
Example pages_of_four :
  let page p :=
    (DiscountStoreMasterRepository.get_discount_store_by_filter_paginated_async
       (DiscountStoreMasterRepository.mk "tenant-a") ∅ 2 p [("discount_code", 1)]
       SampleData.db_four).1 in
  page 1
  = Ok (AbstractRepository.mkPaginatedResult
          [SampleData.discount "tenant-a" "D10" 10; SampleData.discount "tenant-a" "D20" 20]
          (AbstractRepository.mkMetadata 4 1 2))
  ∧ page 2
    = Ok (AbstractRepository.mkPaginatedResult
            [SampleData.discount "tenant-a" "D30" 30; SampleData.discount "tenant-a" "D40" 40]
            (AbstractRepository.mkMetadata 4 2 2))
  ∧ page 3
    = Ok (AbstractRepository.mkPaginatedResult [] (AbstractRepository.mkMetadata 4 3 2)).
Proof. vm_compute. repeat split. Qed.

(** ** The detail endpoint *)

Lemma append_inv_head (s a b : string) : s +:+ a = s +:+ b → a = b.
Proof. induction s as [|c s IH]; cbn; [done|]. intros [=]. by apply IH. Qed.



(** ** The list cache of the cart-side repository *)

Section Cache.
Import CategoryDiscountDetailWebRepository.
Variable to_lower_camel : string → string.
Variable client_get : Request → Outcome.

Lemma set_cache_same (r : t) (docs : list CategoryDiscountDetailsDocument.t) :
  category_discount_detail_documents r = Some docs → set_cache (Some docs) r = r.
Proof. destruct r; cbn. by intros ->. Qed.

Lemma cache_hit (st : State) (category_code : string)
    (docs : list CategoryDiscountDetailsDocument.t) (item : CategoryDiscountDetailsDocument.t) :
  category_discount_detail_documents (self st) = Some docs →
  List.find
    (λ item, bool_decide
       (CategoryDiscountDetailsDocument.category_code item = Some category_code)) docs
  = Some item →
  get_category_discount_detail_by_code_async to_lower_camel client_get category_code st
  = (Ok item, st).
Proof.
  intros Hdocs Hfind. unfold get_category_discount_detail_by_code_async, ensure_cache.
  run. rewrite Hdocs. cbn. rewrite Hfind.
  rewrite set_cache_same by done. by destruct st.
Qed.

Lemma cache_miss_fetch (st : State) (category_code : string) (data : gmap string pyval)
    (fetched : CategoryDiscountDetailsDocument.t) :
  let cached := default [] (category_discount_detail_documents (self st)) in
  let rq :=
    mkRequest
      ("/tenants/" +:+ tenant_id (self st) +:+ "/category_discounts/"
         +:+ category_code +:+ "/detail")
      [("terminal_id", terminal_id (terminal_info (self st)))]
      [("X-API-KEY", api_key (terminal_info (self st)))] in
  List.find
    (λ item, bool_decide
       (CategoryDiscountDetailsDocument.category_code item = Some category_code)) cached
  = None →
  client_get rq = Body (Some data) →
  CategoryDiscountDetailsDocument.init to_lower_camel data = Ok fetched →
  get_category_discount_detail_by_code_async to_lower_camel client_get category_code st
  = (Ok fetched,
     mkState (set_cache (Some (cached ++ [fetched])) (self st)) (sent st ++ [rq])).
Proof.
  intros cached rq Hfind Hget Hinit.
  unfold get_category_discount_detail_by_code_async, ensure_cache, send, append_to_cache.
  run. fold cached. rewrite Hfind.
  destruct st as [r sent0]. destruct r. cbn in *. unfold rq in Hget. cbn in Hget.
  rewrite Hget. cbn. rewrite Hinit. cbn. reflexivity.
Qed.
End Cache.

(** C9, as amended — the list cache of the cart-side repository: a
    lookup whose code is on a cached document returns that document,
    sends no request and leaves the repository as it is; a lookup that
    misses and fetches successfully sends one request and appends exactly
    one entry, the fetched document; and when the fetched document
    carries the requested code, the repeated lookup is a hit: it returns
    the document fetched by the first, sends no further request and adds
    no entry. *)
Theorem cache_lookup (to_lower_camel : string → string)
    (client_get : CategoryDiscountDetailWebRepository.Request
                  → CategoryDiscountDetailWebRepository.Outcome)
    (st : CategoryDiscountDetailWebRepository.State) (category_code : string) :
  let lookup :=
    CategoryDiscountDetailWebRepository.get_category_discount_detail_by_code_async
      to_lower_camel client_get category_code in
  let coded item :=
    bool_decide (CategoryDiscountDetailsDocument.category_code item = Some category_code) in
  let this := CategoryDiscountDetailWebRepository.self st in
  let cached :=
    default [] (CategoryDiscountDetailWebRepository.category_discount_detail_documents this) in
  let rq :=
    CategoryDiscountDetailWebRepository.mkRequest
      ("/tenants/" +:+ CategoryDiscountDetailWebRepository.tenant_id this
         +:+ "/category_discounts/" +:+ category_code +:+ "/detail")
      [("terminal_id",
        CategoryDiscountDetailWebRepository.terminal_id
          (CategoryDiscountDetailWebRepository.terminal_info this))]
      [("X-API-KEY",
        CategoryDiscountDetailWebRepository.api_key
          (CategoryDiscountDetailWebRepository.terminal_info this))] in
  (∀ docs item,
     CategoryDiscountDetailWebRepository.category_discount_detail_documents this = Some docs →
     List.find coded docs = Some item →
     lookup st = (Ok item, st))
  ∧ (∀ data fetched,
       List.find coded cached = None →
       client_get rq = CategoryDiscountDetailWebRepository.Body (Some data) →
       CategoryDiscountDetailsDocument.init to_lower_camel data = Ok fetched →
       let st' :=
         CategoryDiscountDetailWebRepository.mkState
           (CategoryDiscountDetailWebRepository.set_cache (Some (cached ++ [fetched])) this)
           (CategoryDiscountDetailWebRepository.sent st ++ [rq]) in
       lookup st = (Ok fetched, st')
       ∧ (CategoryDiscountDetailsDocument.category_code fetched = Some category_code →
          lookup st' = (Ok fetched, st'))).
Proof.
  intros lookup coded this cached rq. split.
  - intros docs item Hdocs Hfind. by apply (cache_hit _ _ _ _ docs).
  - intros data fetched Hmiss Hget Hinit st'. split.
    + by apply (cache_miss_fetch _ _ _ _ data).
    + intros Hcode. apply (cache_hit _ _ _ _ (cached ++ [fetched])).
      * unfold st', this. by destruct st as [[] ?].
      * clear -Hmiss Hcode. fold coded. induction cached as [|x l IH]; cbn in *.
        -- unfold coded. by rewrite bool_decide_eq_true_2.
        -- destruct (coded x); [done | by apply IH].
Qed.

Lemma cache_lookup_witness :
  let lookup :=
    CategoryDiscountDetailWebRepository.get_category_discount_detail_by_code_async
      SampleData.camel SampleData.summer_server "C1" in
  let st' :=
    CategoryDiscountDetailWebRepository.mkState
      (CategoryDiscountDetailWebRepository.set_cache (Some [SampleData.summer_details])
         (CategoryDiscountDetailWebRepository.self SampleData.cart))
      [SampleData.detail_request] in
  CategoryDiscountDetailsDocument.init SampleData.camel SampleData.summer_payload
  = Ok SampleData.summer_details
  ∧ lookup SampleData.cart = (Ok SampleData.summer_details, st')
  ∧ lookup st' = (Ok SampleData.summer_details, st').
Proof.
  intros lookup st'.
  assert (Hinit : CategoryDiscountDetailsDocument.init SampleData.camel
                    SampleData.summer_payload = Ok SampleData.summer_details)
    by (vm_compute; reflexivity).
  split; [exact Hinit|].
  destruct (cache_lookup SampleData.camel SampleData.summer_server SampleData.cart "C1")
    as [_ Hfetch].
  destruct (Hfetch SampleData.summer_payload SampleData.summer_details
              eq_refl eq_refl Hinit) as [Hfirst Hsecond].
  split; [exact Hfirst|]. apply Hsecond. reflexivity.
Defined.

(** The master-data service answers a category that has no category
    discount with the default detail document, whose category code is
    null: the cart-side repository appends it at every lookup of that
    category and sends a request each time. *)
Lemma soft_miss_cached_twice :
  let lookup :=
    CategoryDiscountDetailWebRepository.get_category_discount_detail_by_code_async
      SampleData.camel SampleData.soft_miss_server "C1" in
  ∃ st1 st2,
    lookup SampleData.cart = (Ok SampleData.no_details, st1)
    ∧ lookup st1 = (Ok SampleData.no_details, st2)
    ∧ CategoryDiscountDetailWebRepository.category_discount_detail_documents
        (CategoryDiscountDetailWebRepository.self st1) = Some [SampleData.no_details]
    ∧ CategoryDiscountDetailWebRepository.category_discount_detail_documents
        (CategoryDiscountDetailWebRepository.self st2)
      = Some [SampleData.no_details; SampleData.no_details]
    ∧ CategoryDiscountDetailWebRepository.sent st2
      = [SampleData.detail_request; SampleData.detail_request].
Proof. vm_compute. do 2 eexists. repeat split. Qed.

(** ** The nested item-book editor *)

Section ItemBookEditor.
Import ItemBookMasterService.

Arguments persist : simpl never.
Arguments load : simpl never.

Lemma find_replace_first {A} (p : A → bool) (x y : A) (l : list A) :
  List.find p l = Some y → p x = true → List.find p (replace_first p x l) = Some x.
Proof.
  intros Hfind Hx. induction l as [|z l IH]; cbn in *; [done|].
  destruct (p z) eqn:Hz; cbn.
  - by rewrite Hx.
  - rewrite Hz. by apply IH.
Qed.

Lemma load_found (self : t) (item_book_id : string) (store : list ItemBook) (b : ItemBook) :
  List.find (is_book self item_book_id) store = Some b →
  load self item_book_id store = (Ok b, store).
Proof. unfold load. by intros ->. Qed.

Lemma load_missing (self : t) (item_book_id : string) (store : list ItemBook) :
  List.find (is_book self item_book_id) store = None →
  load self item_book_id store = (Raise (NotFound BookLevel), store).
Proof. unfold load. by intros ->. Qed.

(** Persisting an edited copy of a loaded book succeeds and replaces
    the book. *)
Lemma persist_after_load (self : t) (item_book_id : string) (store : list ItemBook)
    (b : ItemBook) (cs : list Category) :
  List.find (is_book self item_book_id) store = Some b →
  persist self (with_categories b cs) store
  = (Ok (with_categories b cs),
     replace_first (is_book self item_book_id) (with_categories b cs) store).
Proof.
  intros Hfind. unfold persist. cbn.
  pose proof (find_some _ _ Hfind) as [_ Hb].
  unfold is_book in Hb. rewrite bool_decide_eq_true in Hb. destruct Hb as [Ht <-].
  apply load_found. apply (find_replace_first _ _ b); [done|].
  unfold is_book. by rewrite bool_decide_eq_true.
Qed.

Ltac edit_steps :=
  repeat match goal with
    | |- context [load ?s ?i ?st] =>
        first [ rewrite (load_found s i st _ ltac:(eassumption))
              | rewrite (load_missing s i st ltac:(eassumption)) ]
    | |- context [persist ?s (with_categories ?b ?cs) ?st] =>
        rewrite (persist_after_load s _ st b cs ltac:(eassumption))
    | |- context [List.find ?p ?l] =>
        lazymatch goal with
        | H : List.find p l = _ |- _ => rewrite H
        | _ => let E := fresh "E" in destruct (List.find p l) eqn:E
        end
    | |- context [existsb ?p ?l] =>
        let E := fresh "E" in destruct (existsb p l) eqn:E
    | _ => progress unfold put_category
    | _ => progress cbn
    end.

Lemma mutate_missing_ancestor (self : t) (item_book_id : string) (m : mutation)
    (store : list ItemBook) (l : level) :
  missing_ancestor self item_book_id m store = Some l →
  mutate self item_book_id m store = (Raise (NotFound l), store).
Proof.
  unfold missing_ancestor. intros H.
  destruct (List.find (is_book self item_book_id) store) as [book|] eqn:Hbook.
  - destruct m; cbn in H; try discriminate H;
      unfold mutate, discard, put_category,
        add_tab_to_category_in_item_book_async,
        update_tab_in_category_in_item_book_async,
        delete_tab_from_category_in_item_book_async,
        add_button_to_tab_in_category_in_item_book_async,
        update_button_in_tab_in_category_in_item_book_async,
        delete_button_from_tab_in_category_in_item_book_async,
        locate_category, locate_tab, locate_button;
      unfold mbind, M_bind, mret, M_ret, raise;
      rewrite (load_found _ _ _ _ Hbook);
      (destruct (List.find (is_category _) (categories book)) as [category|];
       [|injection H as <-; reflexivity]);
      try discriminate H;
      (destruct (List.find (is_tab _) (tabs category)) as [tab'|];
       [discriminate H | injection H as <-; reflexivity]).
  - injection H as <-.
    destruct m;
      unfold mutate, discard,
        add_category_to_item_book_async, update_category_in_item_book_async,
        delete_category_from_item_book_async,
        add_tab_to_category_in_item_book_async,
        update_tab_in_category_in_item_book_async,
        delete_tab_from_category_in_item_book_async,
        add_button_to_tab_in_category_in_item_book_async,
        update_button_in_tab_in_category_in_item_book_async,
        delete_button_from_tab_in_category_in_item_book_async;
      unfold mbind, M_bind;
      rewrite (load_missing _ _ _ Hbook); reflexivity.
Qed.

(** A mutation that raises has written nothing. *)
Lemma mutate_raise_unchanged (self : t) (item_book_id : string) (m : mutation)
    (store store' : list ItemBook) (e : exn) :
  mutate self item_book_id m store = (Raise e, store') → store' = store.
Proof.
  destruct m;
    unfold mutate, discard, put_category,
      add_category_to_item_book_async, update_category_in_item_book_async,
      delete_category_from_item_book_async,
      add_tab_to_category_in_item_book_async,
      update_tab_in_category_in_item_book_async,
      delete_tab_from_category_in_item_book_async,
      add_button_to_tab_in_category_in_item_book_async,
      update_button_in_tab_in_category_in_item_book_async,
      delete_button_from_tab_in_category_in_item_book_async,
      locate_category, locate_tab, locate_button;
    unfold mbind, M_bind, mret, M_ret, raise;
    destruct (List.find (is_book self item_book_id) store) as [book|] eqn:Hbook;
    edit_steps; congruence.
Qed.
(** C6 — atomicity of the nested mutations on a missing ancestor: for
    each of the nine mutations (add, update, delete of a category, a tab
    or a button), when the book, the addressed category or the addressed
    tab does not exist, the mutation fails with [NotFound] of the first
    missing level and the stored books are left exactly as they were;
    and whatever the reason a mutation raises, it has persisted
    nothing. *)
Theorem missing_ancestor_atomic (self : t) (item_book_id : string) (m : mutation)
    (store : list ItemBook) :
  (∀ l, missing_ancestor self item_book_id m store = Some l →
        mutate self item_book_id m store = (Raise (NotFound l), store))
  ∧ (∀ e store', mutate self item_book_id m store = (Raise e, store') → store' = store).
Proof.
  split.
  - intros l. apply mutate_missing_ancestor.
  - intros e store'. apply mutate_raise_unchanged.
Qed.

Lemma missing_ancestor_atomic_witness :
  missing_ancestor SampleBooks.service "B1" (UpdateTab 9 1 (mkTab 1 "hot" []))
    SampleBooks.store = Some CategoryLevel
  ∧ update_tab_in_category_in_item_book_async SampleBooks.service "B1" 9 1
      (mkTab 1 "hot" []) SampleBooks.store
    = (Raise (NotFound CategoryLevel), SampleBooks.store)
  ∧ mutate SampleBooks.service "B1" (UpdateTab 9 1 (mkTab 1 "hot" [])) SampleBooks.store
    = (Raise (NotFound CategoryLevel), SampleBooks.store).
Proof.
  split; [reflexivity|]. split; [reflexivity|].
  apply (proj1 (missing_ancestor_atomic SampleBooks.service "B1"
                  (UpdateTab 9 1 (mkTab 1 "hot" [])) SampleBooks.store)).
  reflexivity.
Defined.

(** *** Positional uniqueness of buttons *)

Lemma Forall_replace_first {A} (P : A → Prop) (p : A → bool) (x : A) (l : list A) :
  Forall P l → P x → Forall P (replace_first p x l).
Proof.
  intros Hl Hx. induction Hl as [|y l Hy Hl IH]; cbn; [constructor|].
  destruct (p y); by constructor.
Qed.

Lemma Forall_remove_matching {A} (P : A → Prop) (p : A → bool) (l : list A) :
  Forall P l → Forall P (remove_matching p l).
Proof.
  intros Hl. unfold remove_matching. induction Hl as [|y l Hy Hl IH]; cbn; [constructor|].
  destruct (p y); cbn; [done | by constructor].
Qed.

Lemma Forall_snoc {A} (P : A → Prop) (x : A) (l : list A) :
  Forall P l → P x → Forall P (l ++ [x]).
Proof. intros Hl Hx. apply Forall_app. split; [done | by constructor]. Qed.

Lemma find_Forall {A} (P : A → Prop) (p : A → bool) (l : list A) (x : A) :
  Forall P l → List.find p l = Some x → P x.
Proof.
  intros Hl Hfind. apply find_some in Hfind as [Hin _].
  rewrite Forall_forall in Hl. by apply Hl, list_elem_of_In.
Qed.

Lemma existsb_is_button_false (b : Button) (bs : list Button) :
  existsb (is_button (pos_x b) (pos_y b)) bs = false → position b ∉ position <$> bs.
Proof.
  intros Hex Hin. apply list_elem_of_fmap in Hin as (b' & Hpos & Hin).
  assert (existsb (is_button (pos_x b) (pos_y b)) bs = true); [|congruence].
  apply existsb_exists. exists b'. split; [by apply list_elem_of_In|].
  unfold is_button. rewrite bool_decide_eq_true. unfold position in Hpos. by injection Hpos.
Qed.

Lemma tab_ok_add (t0 : Tab) (b : Button) :
  tab_ok t0 → existsb (is_button (pos_x b) (pos_y b)) (buttons t0) = false →
  tab_ok (with_buttons t0 (buttons t0 ++ [b])).
Proof.
  unfold tab_ok. cbn. intros Hnd Hex. rewrite fmap_app. cbn.
  apply NoDup_app. split; [done|]. split.
  - intros p Hp Hin. apply list_elem_of_singleton in Hin as ->.
    by apply existsb_is_button_false in Hex.
  - apply NoDup_singleton.
Qed.

Lemma positions_replace_first (x y : Z) (b : Button) (bs : list Button) :
  position b = (x, y) →
  position <$> replace_first (is_button x y) b bs = position <$> bs.
Proof.
  intros Hb. induction bs as [|b' bs IH]; cbn; [done|].
  destruct (is_button x y b') eqn:Hb'; cbn.
  - f_equal. unfold is_button in Hb'. rewrite bool_decide_eq_true in Hb'.
    destruct Hb' as [<- <-]. done.
  - by rewrite IH.
Qed.

Lemma tab_ok_update (t0 : Tab) (x y : Z) (b : Button) :
  tab_ok t0 → position b = (x, y) →
  tab_ok (with_buttons t0 (replace_first (is_button x y) b (buttons t0))).
Proof. unfold tab_ok. cbn. intros Hnd Hb. by rewrite positions_replace_first. Qed.

Lemma tab_ok_delete (t0 : Tab) (p : Button → bool) :
  tab_ok t0 → tab_ok (with_buttons t0 (remove_matching p (buttons t0))).
Proof.
  unfold tab_ok, remove_matching. cbn. intros Hnd.
  induction (buttons t0) as [|b bs IH]; cbn; [constructor|].
  apply NoDup_cons in Hnd as [Hb Hnd].
  destruct (p b); cbn; [by apply IH|].
  apply NoDup_cons. split; [|by apply IH].
  intros Hin. apply Hb. apply list_elem_of_fmap in Hin as (b' & -> & Hin).
  apply list_elem_of_fmap. exists b'. split; [done|].
  apply list_elem_of_In in Hin. apply filter_In in Hin as [Hin _].
  by apply list_elem_of_In.
Qed.

Lemma store_ok_book (self : t) (item_book_id : string) (store : list ItemBook) (b : ItemBook) :
  store_ok store → List.find (is_book self item_book_id) store = Some b →
  Forall category_ok (categories b).
Proof. intros Hs Hfind. by apply (find_Forall book_ok _ _ _ Hs Hfind). Qed.

Lemma store_ok_replace (p : ItemBook → bool) (b : ItemBook) (cs : list Category)
    (store : list ItemBook) :
  store_ok store → Forall category_ok cs →
  store_ok (replace_first p (with_categories b cs) store).
Proof. intros Hs Hcs. by apply Forall_replace_first. Qed.

Lemma category_ok_with_tabs (c : Category) (ts : list Tab) :
  Forall tab_ok ts → category_ok (with_tabs c ts).
Proof. done. Qed.

Lemma category_ok_put_tab (c : Category) (n : Z) (t0 : Tab) :
  category_ok c → tab_ok t0 → category_ok (put_tab c n t0).
Proof. intros Hc Ht. by apply Forall_replace_first. Qed.

Lemma category_ok_tabs (c : Category) : category_ok c → Forall tab_ok (tabs c).
Proof. done. Qed.

Create HintDb itembook.
#[local] Hint Resolve Forall_replace_first Forall_remove_matching Forall_snoc
  tab_ok_add tab_ok_update tab_ok_delete store_ok_replace
  category_ok_with_tabs category_ok_put_tab category_ok_tabs : itembook.

Lemma mutate_preserves (self : t) (item_book_id : string) (m : mutation)
    (store : list ItemBook) :
  store_ok store → mutation_ok m → store_ok (mutate self item_book_id m store).2.
Proof.
  intros Hs Hm.
  destruct m;
    unfold mutate, discard, put_category,
      add_category_to_item_book_async, update_category_in_item_book_async,
      delete_category_from_item_book_async,
      add_tab_to_category_in_item_book_async,
      update_tab_in_category_in_item_book_async,
      delete_tab_from_category_in_item_book_async,
      add_button_to_tab_in_category_in_item_book_async,
      update_button_in_tab_in_category_in_item_book_async,
      delete_button_from_tab_in_category_in_item_book_async,
      locate_category, locate_tab, locate_button;
    unfold mbind, M_bind, mret, M_ret, raise;
    destruct (List.find (is_book self item_book_id) store) as [book|] eqn:Hbook;
    edit_steps; try done;
    pose proof (store_ok_book _ _ _ _ Hs Hbook) as Hbook_ok;
    repeat match goal with
      | E : List.find (is_category _) (categories book) = Some ?c |- _ =>
          lazymatch goal with
          | _ : category_ok c |- _ => fail
          | _ => pose proof (find_Forall category_ok _ _ _ Hbook_ok E)
          end
      | E : List.find (is_tab _) (tabs ?c) = Some ?t0, H : category_ok ?c |- _ =>
          lazymatch goal with
          | _ : tab_ok t0 |- _ => fail
          | _ => pose proof (find_Forall tab_ok _ _ _ H E)
          end
      end.
  all: cbn in Hm.
  all: eauto 8 with itembook.
Qed.

Lemma serve_preserves (rq : string * request) (store : list ItemBook) :
  store_ok store → request_ok rq → store_ok (serve rq store).2.
Proof.
  intros Hs Hrq. destruct rq as [tenant0 [item_book_id0 title0 cs|item_book_id0|item_book_id0 m]];
    unfold serve, request_ok in *; cbn in *.
  - unfold discard, create_item_book_async, mbind, M_bind.
    destruct (existsb _ store); cbn; [done|]. by apply Forall_snoc.
  - unfold delete_item_book_async, mbind, M_bind.
    destruct (List.find (is_book (mk tenant0) item_book_id0) store) as [b|] eqn:Hb.
    + rewrite (load_found _ _ _ _ Hb). cbn. by apply Forall_remove_matching.
    + by rewrite (load_missing _ _ _ Hb).
  - by apply mutate_preserves.
Qed.

Lemma run_preserves (rqs : list (string * request)) (store : list ItemBook) :
  store_ok store → Forall request_ok rqs → store_ok (run rqs store).
Proof.
  intros Hs Hrqs. revert store Hs.
  induction Hrqs as [|rq rqs Hrq Hrqs IH]; intros store Hs; cbn; [done|].
  apply IH. by apply serve_preserves.
Qed.

Lemma add_button_occupied (self : t) (item_book_id : string) (category_number tab_number : Z)
    (button occupant : Button) (store : list ItemBook)
    (book : ItemBook) (category : Category) (tab : Tab) :
  List.find (is_book self item_book_id) store = Some book →
  List.find (is_category category_number) (categories book) = Some category →
  List.find (is_tab tab_number) (tabs category) = Some tab →
  occupant ∈ buttons tab → position occupant = position button →
  add_button_to_tab_in_category_in_item_book_async
    self item_book_id category_number tab_number button store
  = (Raise (AlreadyExists ButtonLevel), store).
Proof.
  intros Hbook Hcat Htab Hin Hpos.
  assert (Hex : existsb (is_button (pos_x button) (pos_y button)) (buttons tab) = true).
  { apply existsb_exists. exists occupant. split; [by apply list_elem_of_In|].
    unfold is_button. rewrite bool_decide_eq_true.
    unfold position in Hpos. by injection Hpos. }
  unfold add_button_to_tab_in_category_in_item_book_async, locate_category, locate_tab.
  unfold mbind, M_bind, mret, M_ret, raise.
  rewrite (load_found _ _ _ _ Hbook), Hcat, Htab, Hex. reflexivity.
Qed.



End ItemBookEditor.

(** * Further properties of the repositories and services *)

Lemma find_app_Some {A} (p : A → bool) (l l' : list A) (x : A) :
  List.find p l = Some x → List.find p (l ++ l') = Some x.
Proof.
  induction l as [|y l IH]; cbn; [done|]. destruct (p y); [done | apply IH].
Qed.

Lemma find_app_None {A} (p : A → bool) (l l' : list A) :
  List.find p l = None → List.find p (l ++ l') = List.find p l'.
Proof.
  induction l as [|y l IH]; cbn; [done|]. destruct (p y); [done | apply IH].
Qed.

Lemma the_category_discount_find (self : CategoryDiscountMasterRepository.t)
    (code : string) (db : DB) :
  List.find
    (AbstractRepository.matches (CategoryDiscountMasterRepository.__make_query_filter self code))
    (category_discount_master db)
  = the_category_discount (CategoryDiscountMasterRepository.tenant_id self) code db.
Proof. apply find_ext, category_filter_matches. Qed.

(** X1 — create, then look up, at the level of the repositories: the
    create never refuses; afterwards the repository finds under a code
    what it found before, and, where it found nothing, the created
    document if that carries the code.  A document created under a key
    the tenant already has is stored as well, behind the earlier one. *)
Theorem create_then_lookup :
  (∀ (self : DiscountStoreMasterRepository.t) doc db code,
     let tenant := DiscountStoreMasterRepository.tenant_id self in
     let created := discount_store_created tenant doc in
     let db1 := mkDB (category_discount_master db) (discount_master db ++ [created]) in
     DiscountStoreMasterRepository.create_discount_store_async self doc db = (Ok created, db1)
     ∧ DiscountStoreMasterRepository.get_discount_store_by_code_async self code db1
       = (Ok (match the_store_discount tenant code db with
              | Some earlier => Some earlier
              | None =>
                  if bool_decide (DiscountStoreMasterDocument.discount_code doc = code)
                  then Some created else None
              end), db1))
  ∧ (∀ (self : CategoryDiscountMasterRepository.t) doc db code,
       let tenant := CategoryDiscountMasterRepository.tenant_id self in
       let created := category_discount_created tenant doc in
       let db1 := mkDB (category_discount_master db ++ [created]) (discount_master db) in
       CategoryDiscountMasterRepository.create_category_discount_async self doc db
       = (Ok created, db1)
       ∧ CategoryDiscountMasterRepository.get_category_discount_by_code_async self code db1
         = (Ok (match the_category_discount tenant code db with
                | Some earlier => Some earlier
                | None =>
                    if bool_decide
                         (CategoryDiscountMasterDocument.category_code doc = Some code)
                    then Some created else None
                end), db1)).
Proof.
  split.
  - intros self doc db code tenant created db1.
    split; [apply create_discount_store_async_eq|].
    rewrite get_discount_store_by_code_async_eq. do 2 f_equal.
    unfold the_store_discount, db1. cbn. fold tenant.
    destruct (List.find _ (discount_master db)) as [earlier|] eqn:Hfind.
    + by apply find_app_Some.
    + rewrite (find_app_None _ _ _ Hfind). cbn.
      destruct (bool_decide (DiscountStoreMasterDocument.discount_code doc = code)) eqn:Hc.
      * rewrite bool_decide_eq_true in Hc. by rewrite bool_decide_eq_true_2.
      * rewrite bool_decide_eq_false in Hc. rewrite bool_decide_eq_false_2; [done|].
        by intros [_ ?].
  - intros self doc db code tenant created db1.
    split; [apply create_category_discount_async_eq|].
    rewrite get_category_discount_by_code_async_eq. do 2 f_equal.
    unfold the_category_discount, db1. cbn. fold tenant.
    destruct (List.find _ (category_discount_master db)) as [earlier|] eqn:Hfind.
    + by apply find_app_Some.
    + rewrite (find_app_None _ _ _ Hfind). cbn.
      destruct (bool_decide (CategoryDiscountMasterDocument.category_code doc = Some code))
        eqn:Hc.
      * rewrite bool_decide_eq_true in Hc. by rewrite bool_decide_eq_true_2.
      * rewrite bool_decide_eq_false in Hc. rewrite bool_decide_eq_false_2; [done|].
        by intros [_ ?].
Qed.

Lemma change_first_missing {D : Type} (p : D → bool) (f : D → option D) (coll : list D) :
  List.find p coll = None → AbstractRepository.change_first p f coll = None.
Proof.
  induction coll as [|y coll IH]; cbn; [done|].
  destruct (p y); [done|]. intros H. by rewrite IH.
Qed.

(** X2 — writes of the repositories under a key the tenant does not
    have: update and replace raise a plain [Exception] naming the code,
    delete reports [False] without raising, and none of the three changes
    the database. *)
Theorem repository_writes_on_missing_key :
  (∀ (self : DiscountStoreMasterRepository.t) code db upd new_document,
     the_store_discount (DiscountStoreMasterRepository.tenant_id self) code db = None →
     DiscountStoreMasterRepository.update_discount_store_async self code upd db
     = (Raise (Exception ("Failed to update discount with code " +:+ fmt code)), db)
     ∧ DiscountStoreMasterRepository.replace_discount_store_async self code new_document db
       = (Raise (Exception ("Failed to replace discount with code " +:+ fmt code)), db)
     ∧ DiscountStoreMasterRepository.delete_discount_store_async self code db
       = (Ok false, db))
  ∧ (∀ (self : CategoryDiscountMasterRepository.t) code db upd new_document,
       the_category_discount (CategoryDiscountMasterRepository.tenant_id self) code db
       = None →
       CategoryDiscountMasterRepository.update_category_discount_async self code upd db
       = (Raise (Exception ("Failed to update category discount with code " +:+ code)), db)
       ∧ CategoryDiscountMasterRepository.replace_category_discount_async
           self code new_document db
         = (Raise (Exception ("Failed to replace category with code " +:+ code)), db)
       ∧ CategoryDiscountMasterRepository.delete_category_discount_async self code db
         = (Ok false, db)).
Proof.
  split.
  - intros self code db upd new_document Hnone.
    rewrite <- the_store_discount_find in Hnone.
    unfold DiscountStoreMasterRepository.update_discount_store_async,
      DiscountStoreMasterRepository.replace_discount_store_async,
      DiscountStoreMasterRepository.delete_discount_store_async,
      DiscountStoreMasterRepository.collection,
      AbstractRepository.update_one_async, AbstractRepository.replace_one_async,
      AbstractRepository.delete_async.
    unfold mbind, M_bind, zoom, raise.
    rewrite !(change_first_missing _ _ _ Hnone). by destruct db.
  - intros self code db upd new_document Hnone.
    rewrite <- the_category_discount_find in Hnone.
    unfold CategoryDiscountMasterRepository.update_category_discount_async,
      CategoryDiscountMasterRepository.replace_category_discount_async,
      CategoryDiscountMasterRepository.delete_category_discount_async,
      CategoryDiscountMasterRepository.collection,
      AbstractRepository.update_one_async, AbstractRepository.replace_one_async,
      AbstractRepository.delete_async.
    unfold mbind, M_bind, zoom, raise.
    rewrite !(change_first_missing _ _ _ Hnone). by destruct db.
Qed.

Lemma repository_writes_on_missing_key_witness :
  the_store_discount "tenant-a" (Some "D77") Sample.db_full = None
  ∧ DiscountStoreMasterRepository.update_discount_store_async
      (DiscountStoreMasterRepository.mk "tenant-a") (Some "D77") ∅ Sample.db_full
    = (Raise (Exception "Failed to update discount with code D77"), Sample.db_full)
  ∧ DiscountStoreMasterRepository.delete_discount_store_async
      (DiscountStoreMasterRepository.mk "tenant-a") (Some "D77") Sample.db_full
    = (Ok false, Sample.db_full).
Proof.
  split; [reflexivity|].
  destruct repository_writes_on_missing_key as [Hstore _].
  destruct (Hstore (DiscountStoreMasterRepository.mk "tenant-a") (Some "D77") Sample.db_full
              ∅ DiscountStoreMasterDocument.new eq_refl) as (Hupd & _ & Hdel).
  split; [exact Hupd | exact Hdel].
Defined.

Lemma change_first_app_last {D : Type} (p : D → bool) (f : D → option D)
    (coll : list D) (x : D) :
  List.find p coll = None → p x = true →
  AbstractRepository.change_first p f (coll ++ [x])
  = Some (coll ++ from_option (λ x', [x']) [] (f x)).
Proof.
  intros Hnone Hx. induction coll as [|y coll IH]; cbn in *.
  - rewrite Hx. by destruct (f x).
  - destruct (p y); [done|]. by rewrite IH.
Qed.

Lemma the_store_discount_None_app (tenant : string) (code : option string) (db : DB)
    (doc : DiscountStoreMasterDocument.t) :
  the_store_discount tenant code db = None →
  DiscountStoreMasterDocument.tenant_id doc = Some tenant →
  DiscountStoreMasterDocument.discount_code doc = code →
  the_store_discount tenant code
    (mkDB (category_discount_master db) (discount_master db ++ [doc])) = Some doc.
Proof.
  unfold the_store_discount. cbn. intros Hnone Ht Hc.
  rewrite (find_app_None _ _ _ Hnone). cbn. by rewrite bool_decide_eq_true_2.
Qed.

Lemma the_category_discount_None_app (tenant code : string) (db : DB)
    (doc : CategoryDiscountMasterDocument.t) :
  the_category_discount tenant code db = None →
  CategoryDiscountMasterDocument.tenant_id doc = Some tenant →
  CategoryDiscountMasterDocument.category_code doc = Some code →
  the_category_discount tenant code
    (mkDB (category_discount_master db ++ [doc]) (discount_master db)) = Some doc.
Proof.
  unfold the_category_discount. cbn. intros Hnone Ht Hc.
  rewrite (find_app_None _ _ _ Hnone). cbn. by rewrite bool_decide_eq_true_2.
Qed.

(** X3 — create, read, create again, delete, through the services: for
    a code the tenant does not have yet, create stores a document that
    the service then returns under the code; a second create under the
    code is refused with [DocumentAlreadyExistsException] naming the
    tenant; and delete takes the document out again, leaving the database
    exactly as it was before the create. *)
Theorem service_round_trip :
  (∀ (self : DiscountStoreMasterService.t) db code store_code v description,
     let tenant :=
       DiscountStoreMasterRepository.tenant_id
         (DiscountStoreMasterService.discount_store_master_repo self) in
     the_store_discount tenant (Some code) db = None →
     let doc :=
       DiscountStoreMasterDocument.mk (Some tenant) (Some tenant) (Some store_code)
         (Some code) (Some v) (Some description) in
     let db1 := mkDB (category_discount_master db) (discount_master db ++ [doc]) in
     DiscountStoreMasterService.create_discount_store_async
       self code store_code v description db = (Ok doc, db1)
     ∧ DiscountStoreMasterService.get_discount_store_by_code_async self code db1
       = (Ok doc, db1)
     ∧ (∀ store_code' v' description',
          DiscountStoreMasterService.create_discount_store_async
            self code store_code' v' description' db1
          = (Raise (DocumentAlreadyExistsException
                      ("discount with code " +:+ code +:+ " already exists. tenant_id: "
                         +:+ tenant)), db1))
     ∧ DiscountStoreMasterService.delete_discount_store_async self code db1 = (Ok true, db))
  ∧ (∀ (self : CategoryDiscountMasterService.t) db code store_code description discount_code,
       let tenant :=
         CategoryDiscountMasterRepository.tenant_id
           (CategoryDiscountMasterService.category_discount_master_repo self) in
       the_category_discount tenant code db = None →
       let doc :=
         CategoryDiscountMasterDocument.mk (Some tenant) (Some tenant) (Some code)
           (Some store_code) (Some discount_code) (Some description) None in
       let db1 := mkDB (category_discount_master db ++ [doc]) (discount_master db) in
       CategoryDiscountMasterService.create_category_discount_async
         self code store_code description discount_code db = (Ok doc, db1)
       ∧ CategoryDiscountMasterService.get_category_discount_by_code_async self code db1
         = (Ok doc, db1)
       ∧ (∀ store_code' description' discount_code',
            CategoryDiscountMasterService.create_category_discount_async
              self code store_code' description' discount_code' db1
            = (Raise (DocumentAlreadyExistsException
                        ("category with code " +:+ code +:+ " already exists. tenant_id: "
                           +:+ tenant)), db1))
       ∧ CategoryDiscountMasterService.delete_category_discount_async self code db1
         = (Ok true, db)).
Proof.
  split.
  - intros self db code store_code v description tenant Hnone doc db1.
    assert (Hfound : the_store_discount tenant (Some code) db1 = Some doc)
      by (by apply the_store_discount_None_app).
    destruct (discount_store_service_guarded self db code) as (_ & Hcreate & _).
    destruct (discount_store_service_guarded self db1 code)
      as (Hagain & _ & _ & _ & _ & Hdelete).
    split; [|split; [|split]].
    + destruct (Hcreate store_code v description Hnone) as [-> ->]. reflexivity.
    + unfold DiscountStoreMasterService.get_discount_store_by_code_async.
      unfold mbind, M_bind. lookups. fold tenant. by rewrite Hfound.
    + intros store_code' v' description'.
      by rewrite (Hagain doc store_code' v' description' Hfound).
    + rewrite (Hdelete doc Hfound).
      unfold DiscountStoreMasterRepository.delete_discount_store_async,
        DiscountStoreMasterRepository.collection, AbstractRepository.delete_async, zoom.
      unfold tenant in Hnone. rewrite <- the_store_discount_find in Hnone.
      unfold db1. cbn [discount_master category_discount_master].
      rewrite (change_first_app_last _ _ _ _ Hnone).
      * cbn. rewrite app_nil_r. by destruct db.
      * rewrite discount_filter_matches. by rewrite bool_decide_eq_true_2.
  - intros self db code store_code description discount_code tenant Hnone doc db1.
    assert (Hfound : the_category_discount tenant code db1 = Some doc)
      by (by apply the_category_discount_None_app).
    destruct (category_discount_service_guarded self db code) as (_ & Hcreate & _).
    destruct (category_discount_service_guarded self db1 code)
      as (Hagain & _ & _ & _ & _ & Hdelete).
    split; [|split; [|split]].
    + destruct (Hcreate store_code description discount_code Hnone) as [-> ->]. reflexivity.
    + unfold CategoryDiscountMasterService.get_category_discount_by_code_async.
      unfold mbind, M_bind. lookups. fold tenant. by rewrite Hfound.
    + intros store_code' description' discount_code'.
      by rewrite (Hagain doc store_code' description' discount_code' Hfound).
    + rewrite (Hdelete doc Hfound).
      unfold CategoryDiscountMasterRepository.delete_category_discount_async,
        CategoryDiscountMasterRepository.collection, AbstractRepository.delete_async, zoom.
      unfold tenant in Hnone. rewrite <- the_category_discount_find in Hnone.
      unfold db1. cbn [discount_master category_discount_master].
      rewrite (change_first_app_last _ _ _ _ Hnone).
      * cbn. rewrite app_nil_r. by destruct db.
      * rewrite category_filter_matches. by rewrite bool_decide_eq_true_2.
Qed.

Lemma service_round_trip_witness :
  let doc :=
    DiscountStoreMasterDocument.mk (Some "tenant-a") (Some "tenant-a") (Some "S1")
      (Some "D20") (Some 20%float) (Some "twenty percent") in
  let db1 := mkDB [Sample.summer] [Sample.ten_percent; doc] in
  the_store_discount "tenant-a" (Some "D20") Sample.db_full = None
  ∧ DiscountStoreMasterService.create_discount_store_async
      Sample.discounts "D20" "S1" 20%float "twenty percent" Sample.db_full = (Ok doc, db1)
  ∧ DiscountStoreMasterService.get_discount_store_by_code_async Sample.discounts "D20" db1
    = (Ok doc, db1)
  ∧ DiscountStoreMasterService.delete_discount_store_async Sample.discounts "D20" db1
    = (Ok true, Sample.db_full).
Proof.
  intros doc db1. split; [reflexivity|].
  destruct service_round_trip as [Hstore _].
  destruct (Hstore Sample.discounts Sample.db_full "D20" "S1" 20%float "twenty percent"
              eq_refl) as (Hcreate & Hget & _ & Hdelete).
  split; [exact Hcreate|]. split; [exact Hget | exact Hdelete].
Defined.

(** ** Uniqueness of the natural keys *)

Section Keys.
Context {D K : Type} `{!Document D} (key : D → K).
Import AbstractRepository.

Lemma change_first_delete_NoDup (p : D → bool) (coll coll' : list D) :
  change_first p (λ _, None) coll = Some coll' →
  NoDup (key <$> coll) → NoDup (key <$> coll').
Proof.
  revert coll'. induction coll as [|y coll IH]; intros coll'; cbn; [done|].
  rewrite NoDup_cons. intros Hch [Hy Hnd]. destruct (p y).
  - by injection Hch as <-.
  - destruct (change_first p _ coll) as [c|] eqn:Hc; [|done].
    injection Hch as <-. rewrite fmap_cons. apply NoDup_cons. split; [|by apply IH].
    intros Hin. apply Hy. clear -Hc Hin. revert c Hc Hin.
    induction coll as [|z coll IH]; intros c Hc Hin; cbn in *; [done|].
    destruct (p z).
    + injection Hc as <-. by right.
    + destruct (change_first p _ coll) as [c'|] eqn:Hc'; [|done].
      injection Hc as <-. rewrite fmap_cons in Hin.
      apply elem_of_cons in Hin as [->|Hin]; [by left|]. right. by eapply IH.
Qed.

Lemma change_first_keys (p : D → bool) (g : D → D) (coll coll' : list D) :
  (∀ d, key (g d) = key d) →
  change_first p (λ d, Some (g d)) coll = Some coll' →
  key <$> coll' = key <$> coll.
Proof.
  intros Hg. revert coll'. induction coll as [|y coll IH]; intros coll'; cbn; [done|].
  destruct (p y).
  - intros [= <-]. cbn. by rewrite Hg.
  - destruct (change_first p _ coll) as [c|]; [|done].
    intros [= <-]. cbn. by rewrite (IH c).
Qed.

Lemma apply_update_key (fields : list string) (upd : gmap string pyval) (d : D) :
  (∀ k v d', k ∉ fields → key (doc_set k v d') = key d') →
  (∀ k, k ∈ fields → upd !! k = None) →
  key (apply_update upd d) = key d.
Proof.
  intros Hset Hupd. unfold apply_update.
  assert (Hkv : ∀ kv, kv ∈ map_to_list upd → kv.1 ∉ fields).
  { intros [k v] Hin Hk. apply elem_of_map_to_list in Hin.
    rewrite (Hupd k Hk) in Hin. done. }
  induction (map_to_list upd) as [|kv l IH]; cbn; [done|].
  rewrite Hset by (apply Hkv; left). apply IH. intros kv' Hin. apply Hkv. by right.
Qed.
End Keys.

Lemma store_discount_set_key (k : string) (v : pyval) (d : DiscountStoreMasterDocument.t) :
  k ∉ ["tenant_id"; "discount_code"] →
  store_discount_key (DiscountStoreMasterDocument.set k v d) = store_discount_key d.
Proof.
  intros Hk. destruct d. unfold DiscountStoreMasterDocument.set.
  repeat case_bool_decide; subst; try done; exfalso; apply Hk; set_solver.
Qed.

Lemma category_discount_set_key (k : string) (v : pyval)
    (d : CategoryDiscountMasterDocument.t) :
  k ∉ ["tenant_id"; "category_code"] →
  category_discount_key (CategoryDiscountMasterDocument.set k v d) = category_discount_key d.
Proof.
  intros Hk. destruct d. unfold CategoryDiscountMasterDocument.set.
  repeat case_bool_decide; subst; try done; exfalso; apply Hk; set_solver.
Qed.

Lemma store_discount_key_fresh (tenant code : string) (db : DB) :
  the_store_discount tenant (Some code) db = None →
  (Some tenant, Some code) ∉ store_discount_key <$> discount_master db.
Proof.
  unfold the_store_discount. intros Hnone Hin.
  apply list_elem_of_fmap in Hin as (d & Hkey & Hin).
  apply list_elem_of_In in Hin. apply (find_none _ _ Hnone) in Hin.
  rewrite bool_decide_eq_false in Hin. apply Hin.
  unfold store_discount_key in Hkey. by injection Hkey as <- <-.
Qed.

Lemma category_discount_key_fresh (tenant code : string) (db : DB) :
  the_category_discount tenant code db = None →
  (Some tenant, Some code) ∉ category_discount_key <$> category_discount_master db.
Proof.
  unfold the_category_discount. intros Hnone Hin.
  apply list_elem_of_fmap in Hin as (d & Hkey & Hin).
  apply list_elem_of_In in Hin. apply (find_none _ _ Hnone) in Hin.
  rewrite bool_decide_eq_false in Hin. apply Hin.
  unfold category_discount_key in Hkey. by injection Hkey as <- <-.
Qed.

Lemma NoDup_snoc {A} (l : list A) (x : A) : NoDup l → x ∉ l → NoDup (l ++ [x]).
Proof.
  intros Hl Hx. apply NoDup_app. split; [done|]. split; [|apply NoDup_singleton].
  intros y Hy Hin. apply list_elem_of_singleton in Hin as ->. done.
Qed.

Lemma update_discount_store_async_snd (self : DiscountStoreMasterRepository.t)
    (code : option string) (upd : gmap string pyval) (db : DB) :
  (DiscountStoreMasterRepository.update_discount_store_async self code upd db).2
  = mkDB (category_discount_master db)
      (default (discount_master db)
         (AbstractRepository.change_first
            (AbstractRepository.matches
               (DiscountStoreMasterRepository.__make_query_filter self code))
            (λ d, Some (AbstractRepository.apply_update upd d)) (discount_master db))).
Proof.
  unfold DiscountStoreMasterRepository.update_discount_store_async,
    DiscountStoreMasterRepository.get_discount_store_by_code_async,
    DiscountStoreMasterRepository.collection, AbstractRepository.update_one_async.
  unfold mbind, M_bind, zoom, raise, query.
  destruct (AbstractRepository.change_first _ _ (discount_master db)); cbn; [done|].
  by destruct db.
Qed.

Lemma update_category_discount_async_snd (self : CategoryDiscountMasterRepository.t)
    (code : string) (upd : gmap string pyval) (db : DB) :
  (CategoryDiscountMasterRepository.update_category_discount_async self code upd db).2
  = mkDB
      (default (category_discount_master db)
         (AbstractRepository.change_first
            (AbstractRepository.matches
               (CategoryDiscountMasterRepository.__make_query_filter self code))
            (λ d, Some (AbstractRepository.apply_update upd d))
            (category_discount_master db)))
      (discount_master db).
Proof.
  unfold CategoryDiscountMasterRepository.update_category_discount_async,
    CategoryDiscountMasterRepository.get_category_discount_by_code_async,
    CategoryDiscountMasterRepository.collection, AbstractRepository.update_one_async.
  unfold mbind, M_bind, zoom, raise, query.
  destruct (AbstractRepository.change_first _ _ (category_discount_master db)); cbn; [done|].
  by destruct db.
Qed.

Lemma delete_discount_store_async_snd (self : DiscountStoreMasterRepository.t)
    (code : option string) (db : DB) :
  (DiscountStoreMasterRepository.delete_discount_store_async self code db).2
  = mkDB (category_discount_master db)
      (default (discount_master db)
         (AbstractRepository.change_first
            (AbstractRepository.matches
               (DiscountStoreMasterRepository.__make_query_filter self code))
            (λ _, None) (discount_master db))).
Proof.
  unfold DiscountStoreMasterRepository.delete_discount_store_async,
    DiscountStoreMasterRepository.collection, AbstractRepository.delete_async, zoom.
  destruct (AbstractRepository.change_first _ _ (discount_master db)); cbn; [done|].
  by destruct db.
Qed.

Lemma delete_category_discount_async_snd (self : CategoryDiscountMasterRepository.t)
    (code : string) (db : DB) :
  (CategoryDiscountMasterRepository.delete_category_discount_async self code db).2
  = mkDB
      (default (category_discount_master db)
         (AbstractRepository.change_first
            (AbstractRepository.matches
               (CategoryDiscountMasterRepository.__make_query_filter self code))
            (λ _, None) (category_discount_master db)))
      (discount_master db).
Proof.
  unfold CategoryDiscountMasterRepository.delete_category_discount_async,
    CategoryDiscountMasterRepository.collection, AbstractRepository.delete_async, zoom.
  destruct (AbstractRepository.change_first _ _ (category_discount_master db)); cbn; [done|].
  by destruct db.
Qed.

(** X4 — the services keep the natural keys unique: in a database in
    which no two category discounts share (tenant, category code) and no
    two store discounts share (tenant, discount code), that still holds
    after a create, after a delete, and after an update whose dictionary
    names neither the tenant nor the code, whether the call returns or
    raises. *)
Theorem services_keep_keys_unique (db : DB) :
  unique_keys db →
  (∀ (self : DiscountStoreMasterService.t) code store_code v description,
     unique_keys
       (DiscountStoreMasterService.create_discount_store_async
          self code store_code v description db).2)
  ∧ (∀ (self : DiscountStoreMasterService.t) code,
       unique_keys (DiscountStoreMasterService.delete_discount_store_async self code db).2)
  ∧ (∀ (self : DiscountStoreMasterService.t) code upd,
       upd !! "tenant_id" = None → upd !! "discount_code" = None →
       unique_keys (DiscountStoreMasterService.update_discount_store_async self code upd db).2)
  ∧ (∀ (self : CategoryDiscountMasterService.t) code store_code description discount_code,
       unique_keys
         (CategoryDiscountMasterService.create_category_discount_async
            self code store_code description discount_code db).2)
  ∧ (∀ (self : CategoryDiscountMasterService.t) code,
       unique_keys
         (CategoryDiscountMasterService.delete_category_discount_async self code db).2)
  ∧ (∀ (self : CategoryDiscountMasterService.t) code upd,
       upd !! "tenant_id" = None → upd !! "category_code" = None →
       unique_keys
         (CategoryDiscountMasterService.update_category_discount_async self code upd db).2).
Proof.
  intros [Hcat Hstore].
  split; [|split; [|split; [|split; [|split]]]].
  - intros self code store_code v description.
    destruct (discount_store_service_guarded self db code) as (Hex & Hnew & _).
    destruct (the_store_discount _ (Some code) db) as [existing|] eqn:Hfind.
    + rewrite (Hex existing _ _ _ eq_refl). by split.
    + destruct (Hnew store_code v description eq_refl) as [-> ->]. cbn.
      split; [done|]. cbn [discount_master]. rewrite fmap_app. apply NoDup_snoc; [done|].
      by apply store_discount_key_fresh.
  - intros self code.
    destruct (discount_store_service_guarded self db code) as (_ & _ & _ & _ & Hno & Hyes).
    destruct (the_store_discount _ (Some code) db) as [existing|] eqn:Hfind.
    + rewrite (Hyes existing eq_refl), delete_discount_store_async_snd.
      split; [done|]. cbn.
      destruct (AbstractRepository.change_first _ _ (discount_master db)) as [coll'|] eqn:Hch;
        [|done].
      by apply (change_first_delete_NoDup _ _ _ _ Hch).
    + rewrite (Hno eq_refl). by split.
  - intros self code upd Ht Hc.
    destruct (discount_store_service_guarded self db code) as (_ & _ & Hno & Hyes & _).
    destruct (the_store_discount _ (Some code) db) as [existing|] eqn:Hfind.
    + rewrite (Hyes existing upd eq_refl), update_discount_store_async_snd.
      split; [done|]. cbn.
      destruct (AbstractRepository.change_first _ _ (discount_master db)) as [coll'|] eqn:Hch;
        [|done].
      cbn. erewrite (change_first_keys store_discount_key); [done| |exact Hch].
      intros d. apply (apply_update_key _ ["tenant_id"; "discount_code"]).
      * intros k v' d'. apply store_discount_set_key.
      * intros k Hk. apply elem_of_cons in Hk as [->|Hk]; [done|].
        apply elem_of_cons in Hk as [->|Hk]; [done|]. by apply elem_of_nil in Hk.
    + rewrite (Hno upd eq_refl). by split.
  - intros self code store_code description discount_code.
    destruct (category_discount_service_guarded self db code) as (Hex & Hnew & _).
    destruct (the_category_discount _ code db) as [existing|] eqn:Hfind.
    + rewrite (Hex existing _ _ _ eq_refl). by split.
    + destruct (Hnew store_code description discount_code eq_refl) as [-> ->]. cbn.
      split; [|done]. cbn [category_discount_master]. rewrite fmap_app. apply NoDup_snoc; [done|].
      by apply category_discount_key_fresh.
  - intros self code.
    destruct (category_discount_service_guarded self db code)
      as (_ & _ & _ & _ & Hno & Hyes).
    destruct (the_category_discount _ code db) as [existing|] eqn:Hfind.
    + rewrite (Hyes existing eq_refl), delete_category_discount_async_snd.
      split; [|done]. cbn.
      destruct (AbstractRepository.change_first _ _ (category_discount_master db))
        as [coll'|] eqn:Hch; [|done].
      by apply (change_first_delete_NoDup _ _ _ _ Hch).
    + rewrite (Hno eq_refl). by split.
  - intros self code upd Ht Hc.
    destruct (category_discount_service_guarded self db code) as (_ & _ & Hno & Hyes & _).
    destruct (the_category_discount _ code db) as [existing|] eqn:Hfind.
    + rewrite (Hyes existing upd eq_refl), update_category_discount_async_snd.
      split; [|done]. cbn.
      destruct (AbstractRepository.change_first _ _ (category_discount_master db))
        as [coll'|] eqn:Hch; [|done].
      cbn. erewrite (change_first_keys category_discount_key); [done| |exact Hch].
      intros d. apply (apply_update_key _ ["tenant_id"; "category_code"]).
      * intros k v' d'. apply category_discount_set_key.
      * intros k Hk. apply elem_of_cons in Hk as [->|Hk]; [done|].
        apply elem_of_cons in Hk as [->|Hk]; [done|]. by apply elem_of_nil in Hk.
    + rewrite (Hno upd eq_refl). by split.
Qed.

Lemma services_keep_keys_unique_witness :
  unique_keys Sample.db_full
  ∧ unique_keys
      (DiscountStoreMasterService.create_discount_store_async
         Sample.discounts "D10" "S9" 90%float "again" Sample.db_full).2
  ∧ unique_keys
      (DiscountStoreMasterService.update_discount_store_async
         Sample.discounts "D10" {[ "description" := VStr "a tenth off" ]} Sample.db_full).2.
Proof.
  assert (Hu : unique_keys Sample.db_full).
  { split; cbn; apply NoDup_singleton. }
  split; [exact Hu|].
  destruct (services_keep_keys_unique Sample.db_full Hu) as (Hcreate & _ & Hupdate & _).
  split; [apply Hcreate | apply Hupdate; reflexivity].
Defined.

(** ** Update and delete of a document the tenant has *)

Lemma find_none_intro {A} (p : A → bool) (l : list A) :
  (∀ x, x ∈ l → p x = false) → List.find p l = None.
Proof.
  intros H. induction l as [|y l IH]; cbn; [done|].
  rewrite (H y) by left. apply IH. intros x Hx. apply H. by right.
Qed.

Section Existing.
Context {D K : Type} `{!Document D} (key : D → K).
Import AbstractRepository.

(** With unique keys, and a filter that selects by key, nothing matches
    once the first match is removed. *)
Lemma change_first_delete_gone (p : D → bool) (k : K) (coll coll' : list D) :
  NoDup (key <$> coll) → (∀ d, p d = true → key d = k) →
  change_first p (λ _, None) coll = Some coll' →
  List.find p coll' = None ∧ S (length coll') = length coll.
Proof.
  intros Hnd Hp. revert coll'. induction coll as [|y coll IH]; intros coll'; cbn; [done|].
  rewrite fmap_cons in Hnd. apply NoDup_cons in Hnd as [Hy Hnd].
  destruct (p y) eqn:Hpy.
  - intros [= <-]. split; [|done]. apply find_none_intro. intros x Hx.
    destruct (p x) eqn:Hpx; [|done]. exfalso. apply Hy.
    rewrite (Hp y Hpy), <- (Hp x Hpx). apply list_elem_of_fmap. eauto.
  - destruct (change_first p _ coll) as [c|]; [|done].
    intros [= <-]. destruct (IH Hnd c eq_refl) as [Hfind Hlen].
    cbn. rewrite Hpy. split; [done | by rewrite Hlen].
Qed.

Lemma change_first_length (p : D → bool) (g : D → D) (coll coll' : list D) :
  change_first p (λ d, Some (g d)) coll = Some coll' → length coll' = length coll.
Proof.
  revert coll'. induction coll as [|y coll IH]; intros coll'; cbn; [done|].
  destruct (p y).
  - by intros [= <-].
  - destruct (change_first p _ coll) as [c|]; [|done].
    intros [= <-]. cbn. by rewrite (IH c).
Qed.
End Existing.

(** X5 — update and delete, through the store-discount service, of a
    code the tenant has: an update whose dictionary names neither the
    tenant nor the code returns the document with the update applied,
    keeps the number of documents, and a read under the code then returns
    that document; with unique keys, a delete removes one document and a
    read under the code then raises [DocumentNotFoundException]. *)
Theorem store_discount_update_and_delete (self : DiscountStoreMasterService.t) (db : DB)
    (code : string) (existing : DiscountStoreMasterDocument.t) :
  the_store_discount
    (DiscountStoreMasterRepository.tenant_id
       (DiscountStoreMasterService.discount_store_master_repo self))
    (Some code) db = Some existing →
  (∀ upd : gmap string pyval,
     upd !! "tenant_id" = None → upd !! "discount_code" = None →
     ∃ db',
       DiscountStoreMasterService.update_discount_store_async self code upd db
       = (Ok (Some (AbstractRepository.apply_update upd existing)), db')
       ∧ length (discount_master db') = length (discount_master db)
       ∧ category_discount_master db' = category_discount_master db
       ∧ DiscountStoreMasterService.get_discount_store_by_code_async self code db'
         = (Ok (AbstractRepository.apply_update upd existing), db'))
  ∧ (unique_keys db →
     ∃ db',
       DiscountStoreMasterService.delete_discount_store_async self code db = (Ok true, db')
       ∧ S (length (discount_master db')) = length (discount_master db)
       ∧ category_discount_master db' = category_discount_master db
       ∧ DiscountStoreMasterService.get_discount_store_by_code_async self code db'
         = (Raise (DocumentNotFoundException
                     ("discount with code " +:+ code +:+ " not found")), db')).
Proof.
  intros Hex.
  set (repo := DiscountStoreMasterService.discount_store_master_repo self) in *.
  destruct (discount_store_service_guarded self db code) as (_ & _ & _ & Hupd & _ & Hdel).
  pose proof Hex as Hfind. rewrite <- the_store_discount_find in Hfind.
  pose proof (find_some _ _ Hfind) as [_ Hm].
  rewrite discount_filter_matches, bool_decide_eq_true in Hm.
  split.
  - intros upd Ht Hc.
    assert (Hkey : store_discount_key (AbstractRepository.apply_update upd existing)
                   = store_discount_key existing).
    { apply (apply_update_key _ ["tenant_id"; "discount_code"]).
      - intros k v' d'. apply store_discount_set_key.
      - intros k Hk. apply elem_of_cons in Hk as [->|Hk]; [done|].
        apply elem_of_cons in Hk as [->|Hk]; [done|]. by apply elem_of_nil in Hk. }
    destruct (change_first_find
                (AbstractRepository.matches
                   (DiscountStoreMasterRepository.__make_query_filter repo (Some code)))
                (λ d, Some (AbstractRepository.apply_update upd d))
                (discount_master db) existing
                (AbstractRepository.apply_update upd existing) Hfind eq_refl)
      as (coll' & Hch & Hfind').
    { rewrite discount_filter_matches, bool_decide_eq_true.
      unfold store_discount_key in Hkey. injection Hkey as -> ->. done. }
    exists (mkDB (category_discount_master db) coll').
    rewrite (Hupd existing upd Hex).
    unfold DiscountStoreMasterRepository.update_discount_store_async,
      DiscountStoreMasterService.get_discount_store_by_code_async,
      DiscountStoreMasterRepository.get_discount_store_by_code_async,
      DiscountStoreMasterRepository.collection, AbstractRepository.update_one_async,
      AbstractRepository.get_one_async.
    unfold mbind, M_bind, zoom, query. fold repo. rewrite Hch. cbn. rewrite Hfind'.
    repeat split. by apply (change_first_length _ _ _ _ Hch).
  - intros [_ Hnd].
    destruct (AbstractRepository.change_first
                (AbstractRepository.matches
                   (DiscountStoreMasterRepository.__make_query_filter repo (Some code)))
                (λ _, None) (discount_master db)) as [coll'|] eqn:Hch.
    2:{ apply change_first_None in Hch. congruence. }
    assert (Hsel : ∀ d,
               AbstractRepository.matches
                 (DiscountStoreMasterRepository.__make_query_filter repo (Some code)) d
               = true →
               store_discount_key d
               = (Some (DiscountStoreMasterRepository.tenant_id repo), Some code)).
    { intros d Hd. rewrite discount_filter_matches, bool_decide_eq_true in Hd.
      unfold store_discount_key. by destruct Hd as [-> ->]. }
    destruct (change_first_delete_gone store_discount_key _ _ _ _ Hnd Hsel Hch)
      as [Hgone Hlen].
    exists (mkDB (category_discount_master db) coll').
    rewrite (Hdel existing Hex).
    unfold DiscountStoreMasterRepository.delete_discount_store_async,
      DiscountStoreMasterService.get_discount_store_by_code_async,
      DiscountStoreMasterRepository.get_discount_store_by_code_async,
      DiscountStoreMasterRepository.collection, AbstractRepository.delete_async,
      AbstractRepository.get_one_async.
    unfold mbind, M_bind, zoom, query. fold repo. rewrite Hch. cbn. rewrite Hgone.
    repeat split. done.
Qed.

Lemma store_discount_update_and_delete_witness :
  the_store_discount "tenant-a" (Some "D10") Sample.db_full = Some Sample.ten_percent
  ∧ unique_keys Sample.db_full
  ∧ (∃ db',
       DiscountStoreMasterService.update_discount_store_async
         Sample.discounts "D10" {[ "description" := VStr "a tenth off" ]} Sample.db_full
       = (Ok (Some (AbstractRepository.apply_update
                      {[ "description" := VStr "a tenth off" ]} Sample.ten_percent)), db')
       ∧ length (discount_master db') = 1%nat)
  ∧ (∃ db',
       DiscountStoreMasterService.delete_discount_store_async
         Sample.discounts "D10" Sample.db_full = (Ok true, db')
       ∧ DiscountStoreMasterService.get_discount_store_by_code_async
           Sample.discounts "D10" db'
         = (Raise (DocumentNotFoundException "discount with code D10 not found"), db')).
Proof.
  assert (Hu : unique_keys Sample.db_full).
  { split; cbn; apply NoDup_singleton. }
  split; [reflexivity|]. split; [exact Hu|].
  destruct (store_discount_update_and_delete Sample.discounts Sample.db_full "D10"
              Sample.ten_percent eq_refl) as [Hupdate Hdelete].
  split.
  - destruct (Hupdate {[ "description" := VStr "a tenth off" ]})
      as (db' & Hres & Hlen & _); [reflexivity | reflexivity |].
    exists db'. split; [exact Hres | exact Hlen].
  - destruct (Hdelete Hu) as (db' & Hres & _ & _ & Hget).
    exists db'. split; [exact Hres | exact Hget].
Defined.

(** ** Replace *)

Section Replace.
Context {D K : Type} `{!Document D} (key : D → K).
Import AbstractRepository.

Lemma change_first_replace (p : D → bool) (k : K) (x : D) (coll coll' : list D) :
  NoDup (key <$> coll) → (∀ d, p d = true → key d = k) →
  change_first p (λ _, Some x) coll = Some coll' →
  List.find p coll' = (if p x then Some x else None)
  ∧ length coll' = length coll ∧ x ∈ coll'.
Proof.
  intros Hnd Hp. revert coll'. induction coll as [|y coll IH]; intros coll'; cbn; [done|].
  rewrite fmap_cons in Hnd. apply NoDup_cons in Hnd as [Hy Hnd].
  destruct (p y) eqn:Hpy.
  - intros [= <-]. split; [|split; [done | by left]]. cbn.
    destruct (p x); [done|]. apply find_none_intro. intros z Hz.
    destruct (p z) eqn:Hpz; [|done]. exfalso. apply Hy.
    rewrite (Hp y Hpy), <- (Hp z Hpz). apply list_elem_of_fmap. eauto.
  - destruct (change_first p _ coll) as [c|]; [|done].
    intros [= <-]. destruct (IH Hnd c eq_refl) as (Hfind & Hlen & Hin).
    cbn. rewrite Hpy. split; [done|]. split; [by rewrite Hlen | by right].
Qed.
End Replace.

(** X6 — replace through the store-discount repository, of a code the
    tenant has: the new document is stored as it is given, in the place
    of the old one; unlike create, replace stamps neither tenant nor
    shard key.  With unique keys, the repository afterwards finds the
    new document under the code exactly when the new document carries
    the tenant of the repository and the code; otherwise, as for a
    freshly constructed document, it finds nothing under the code. *)
Theorem replace_stores_as_given (self : DiscountStoreMasterRepository.t) (db : DB)
    (code : option string) (existing new_document : DiscountStoreMasterDocument.t) :
  let tenant := DiscountStoreMasterRepository.tenant_id self in
  unique_keys db →
  the_store_discount tenant code db = Some existing →
  ∃ db',
    DiscountStoreMasterRepository.replace_discount_store_async self code new_document db
    = (Ok new_document, db')
    ∧ new_document ∈ discount_master db'
    ∧ length (discount_master db') = length (discount_master db)
    ∧ category_discount_master db' = category_discount_master db
    ∧ DiscountStoreMasterRepository.get_discount_store_by_code_async self code db'
      = (Ok (if bool_decide
                  (DiscountStoreMasterDocument.tenant_id new_document = Some tenant
                   ∧ DiscountStoreMasterDocument.discount_code new_document = code)
             then Some new_document else None), db').
Proof.
  intros tenant [_ Hnd] Hex.
  pose proof Hex as Hfind. unfold tenant in Hfind. rewrite <- the_store_discount_find in Hfind.
  destruct (AbstractRepository.change_first
              (AbstractRepository.matches
                 (DiscountStoreMasterRepository.__make_query_filter self code))
              (λ _, Some new_document) (discount_master db)) as [coll'|] eqn:Hch.
  2:{ apply change_first_None in Hch. congruence. }
  assert (Hsel : ∀ d,
             AbstractRepository.matches
               (DiscountStoreMasterRepository.__make_query_filter self code) d = true →
             store_discount_key d = (Some tenant, code)).
  { intros d Hd. rewrite discount_filter_matches, bool_decide_eq_true in Hd.
    unfold store_discount_key. by destruct Hd as [-> ->]. }
  destruct (change_first_replace store_discount_key _ _ _ _ _ Hnd Hsel Hch)
    as (Hfind' & Hlen & Hin).
  exists (mkDB (category_discount_master db) coll').
  unfold DiscountStoreMasterRepository.replace_discount_store_async,
    DiscountStoreMasterRepository.get_discount_store_by_code_async,
    DiscountStoreMasterRepository.collection, AbstractRepository.replace_one_async,
    AbstractRepository.get_one_async.
  unfold mbind, M_bind, zoom, query. rewrite Hch. cbn. rewrite Hfind'.
  rewrite discount_filter_matches. repeat split; done.
Qed.

Lemma replace_stores_as_given_witness :
  unique_keys Sample.db_full
  ∧ the_store_discount "tenant-a" (Some "D10") Sample.db_full = Some Sample.ten_percent
  ∧ ∃ db',
      DiscountStoreMasterRepository.replace_discount_store_async
        (DiscountStoreMasterRepository.mk "tenant-a") (Some "D10")
        DiscountStoreMasterDocument.new Sample.db_full
      = (Ok DiscountStoreMasterDocument.new, db')
      ∧ DiscountStoreMasterRepository.get_discount_store_by_code_async
          (DiscountStoreMasterRepository.mk "tenant-a") (Some "D10") db' = (Ok None, db').
Proof.
  assert (Hu : unique_keys Sample.db_full).
  { split; cbn; apply NoDup_singleton. }
  split; [exact Hu|]. split; [reflexivity|].
  destruct (replace_stores_as_given (DiscountStoreMasterRepository.mk "tenant-a")
              Sample.db_full (Some "D10") Sample.ten_percent
              DiscountStoreMasterDocument.new Hu eq_refl)
    as (db' & Hres & _ & _ & _ & Hget).
  exists db'. split; [exact Hres | exact Hget].
Defined.

(** ** The delete endpoints *)

Lemma delete_discount_store_async_found (self : DiscountStoreMasterRepository.t)
    (code : option string) (db : DB) (existing : DiscountStoreMasterDocument.t) :
  the_store_discount (DiscountStoreMasterRepository.tenant_id self) code db = Some existing →
  ∃ db',
    DiscountStoreMasterRepository.delete_discount_store_async self code db = (Ok true, db')
    ∧ S (length (discount_master db')) = length (discount_master db)
    ∧ category_discount_master db' = category_discount_master db.
Proof.
  intros Hex. rewrite <- the_store_discount_find in Hex.
  destruct (AbstractRepository.change_first
              (AbstractRepository.matches
                 (DiscountStoreMasterRepository.__make_query_filter self code))
              (λ _, None) (discount_master db)) as [coll'|] eqn:Hch.
  2:{ apply change_first_None in Hch. congruence. }
  exists (mkDB (category_discount_master db) coll').
  unfold DiscountStoreMasterRepository.delete_discount_store_async,
    DiscountStoreMasterRepository.collection, AbstractRepository.delete_async, zoom.
  rewrite Hch. repeat split. cbn. clear Hex. revert coll' Hch.
  induction (discount_master db) as [|y coll IH]; intros coll'; cbn; [done|].
  destruct (AbstractRepository.matches _ y); [by intros [= <-]|].
  destruct (AbstractRepository.change_first _ _ coll) as [c|]; [|done].
  intros [= <-]. cbn. by rewrite (IH c).
Qed.

Lemma delete_category_discount_async_found (self : CategoryDiscountMasterRepository.t)
    (code : string) (db : DB) (existing : CategoryDiscountMasterDocument.t) :
  the_category_discount (CategoryDiscountMasterRepository.tenant_id self) code db
  = Some existing →
  ∃ db',
    CategoryDiscountMasterRepository.delete_category_discount_async self code db
    = (Ok true, db')
    ∧ S (length (category_discount_master db')) = length (category_discount_master db)
    ∧ discount_master db' = discount_master db.
Proof.
  intros Hex. rewrite <- the_category_discount_find in Hex.
  destruct (AbstractRepository.change_first
              (AbstractRepository.matches
                 (CategoryDiscountMasterRepository.__make_query_filter self code))
              (λ _, None) (category_discount_master db)) as [coll'|] eqn:Hch.
  2:{ apply change_first_None in Hch. congruence. }
  exists (mkDB coll' (discount_master db)).
  unfold CategoryDiscountMasterRepository.delete_category_discount_async,
    CategoryDiscountMasterRepository.collection, AbstractRepository.delete_async, zoom.
  rewrite Hch. repeat split. cbn. clear Hex. revert coll' Hch.
  induction (category_discount_master db) as [|y coll IH]; intros coll'; cbn; [done|].
  destruct (AbstractRepository.matches _ y); [by intros [= <-]|].
  destruct (AbstractRepository.change_first _ _ coll) as [c|]; [|done].
  intros [= <-]. cbn. by rewrite (IH c).
Qed.

Lemma bind_ok {S A B} (c : M S A) (k : A → M S B) (s s' : S) (a : A) :
  c s = (Ok a, s') → (c ≫= k) s = k a s'.
Proof. unfold mbind, M_bind. by intros ->. Qed.

Lemma bind_raise {S A B} (c : M S A) (k : A → M S B) (s s' : S) (e : exn) :
  c s = (Raise e, s') → (c ≫= k) s = (Raise e, s').
Proof. unfold mbind, M_bind. by intros ->. Qed.

Lemma store_discount_service_get (self : DiscountStoreMasterService.t) (code : string)
    (db : DB) :
  DiscountStoreMasterService.get_discount_store_by_code_async self code db
  = (match the_store_discount
             (DiscountStoreMasterRepository.tenant_id
                (DiscountStoreMasterService.discount_store_master_repo self))
             (Some code) db with
     | Some discount => Ok discount
     | None =>
         Raise (DocumentNotFoundException ("discount with code " +:+ code +:+ " not found"))
     end, db).
Proof.
  unfold DiscountStoreMasterService.get_discount_store_by_code_async.
  unfold mbind, M_bind. lookups. by destruct (the_store_discount _ _ _).
Qed.

Lemma category_discount_service_get (self : CategoryDiscountMasterService.t) (code : string)
    (db : DB) :
  CategoryDiscountMasterService.get_category_discount_by_code_async self code db
  = (match the_category_discount
             (CategoryDiscountMasterRepository.tenant_id
                (CategoryDiscountMasterService.category_discount_master_repo self))
             code db with
     | Some category => Ok category
     | None =>
         Raise (DocumentNotFoundException ("category with code " +:+ code +:+ " not found"))
     end, db).
Proof.
  unfold CategoryDiscountMasterService.get_category_discount_by_code_async.
  unfold mbind, M_bind. lookups. by destruct (the_category_discount _ _ _).
Qed.

(** X7 — the two delete endpoints, once the tenant is verified: for a
    code the tenant does not have they raise the
    [DocumentNotFoundException] of the service's read (the endpoint's own
    check for [None], with its own message, is never reached) and delete
    nothing; for a code the tenant has they remove one document and
    answer 200 with a payload built from the document as it was read
    before the delete; if building that payload raises, the document is
    gone all the same. *)
Theorem delete_endpoints {Payload : Type}
    (verify_tenant_id : string → string → result unit)
    (DiscountStoreMasterDeleteResponse :
       option string → option string → option float → result Payload)
    (CategoryDiscountMasterDeleteResponse :
       option string → option string → option string → result Payload)
    (code tenant_id tenant_id_with_security : string) (db : DB) :
  verify_tenant_id tenant_id tenant_id_with_security = Ok () →
  let delete_discount :=
    ApiDelete.delete_discount verify_tenant_id DiscountStoreMasterDeleteResponse
      code tenant_id tenant_id_with_security in
  let delete_category_discount :=
    ApiDelete.delete_category_discount verify_tenant_id CategoryDiscountMasterDeleteResponse
      code tenant_id tenant_id_with_security in
  (the_store_discount tenant_id (Some code) db = None →
   delete_discount db
   = (Raise (DocumentNotFoundException ("discount with code " +:+ code +:+ " not found")),
      db))
  ∧ (∀ existing,
       the_store_discount tenant_id (Some code) db = Some existing →
       ∃ db',
         S (length (discount_master db')) = length (discount_master db)
         ∧ category_discount_master db' = category_discount_master db
         ∧ delete_discount db
           = (match DiscountStoreMasterDeleteResponse
                      (DiscountStoreMasterDocument.discount_code existing)
                      (DiscountStoreMasterDocument.store_code existing)
                      (DiscountStoreMasterDocument.discount_value existing) with
              | Ok data =>
                  Ok (Api.mkApiResponse true 200
                        ("discount " +:+ code +:+ " deleted successfully for tenant_id: "
                           +:+ tenant_id)
                        (Some data) "delete_discount")
              | Raise e => Raise e
              end, db'))
  ∧ (the_category_discount tenant_id code db = None →
     delete_category_discount db
     = (Raise (DocumentNotFoundException ("category with code " +:+ code +:+ " not found")),
        db))
  ∧ (∀ existing,
       the_category_discount tenant_id code db = Some existing →
       ∃ db',
         S (length (category_discount_master db')) = length (category_discount_master db)
         ∧ discount_master db' = discount_master db
         ∧ delete_category_discount db
           = (match CategoryDiscountMasterDeleteResponse
                      (CategoryDiscountMasterDocument.category_code existing)
                      (CategoryDiscountMasterDocument.store_code existing)
                      (CategoryDiscountMasterDocument.discount_code existing) with
              | Ok data =>
                  Ok (Api.mkApiResponse true 200
                        ("Category " +:+ code +:+ " deleted successfully for tenant_id: "
                           +:+ tenant_id)
                        (Some data) "delete_category_discount")
              | Raise e => Raise e
              end, db')).
Proof.
  intros Hverify delete_discount delete_category_discount.
  assert (Hv : lift (S := DB) (verify_tenant_id tenant_id tenant_id_with_security) db
               = (Ok (), db)) by (unfold lift; by rewrite Hverify).
  split; [|split; [|split]].
  - intros Hnone. unfold delete_discount, ApiDelete.delete_discount.
    rewrite (bind_ok _ _ _ _ _ Hv).
    apply bind_raise. rewrite store_discount_service_get. cbn. by rewrite Hnone.
  - intros existing Hex.
    destruct (delete_discount_store_async_found
                (DiscountStoreMasterRepository.mk tenant_id) (Some code) db existing Hex)
      as (db' & Hdel & Hlen & Hcat).
    exists db'. split; [done|]. split; [done|].
    unfold delete_discount, ApiDelete.delete_discount.
    rewrite (bind_ok _ _ _ _ _ Hv).
    erewrite bind_ok; [|rewrite store_discount_service_get; cbn; by rewrite Hex].
    erewrite bind_ok.
    2:{ destruct (discount_store_service_guarded
                    (ApiDelete.get_discount_store_master_service_async tenant_id) db code)
          as (_ & _ & _ & _ & _ & Hyes).
        rewrite (Hyes existing Hex). exact Hdel. }
    unfold lift, mbind, M_bind, mret, M_ret.
    by destruct (DiscountStoreMasterDeleteResponse _ _ _).
  - intros Hnone. unfold delete_category_discount, ApiDelete.delete_category_discount.
    rewrite (bind_ok _ _ _ _ _ Hv).
    apply bind_raise. rewrite category_discount_service_get. cbn. by rewrite Hnone.
  - intros existing Hex.
    destruct (delete_category_discount_async_found
                (CategoryDiscountMasterRepository.mk tenant_id) code db existing Hex)
      as (db' & Hdel & Hlen & Hcat).
    exists db'. split; [done|]. split; [done|].
    unfold delete_category_discount, ApiDelete.delete_category_discount.
    rewrite (bind_ok _ _ _ _ _ Hv).
    erewrite bind_ok; [|rewrite category_discount_service_get; cbn; by rewrite Hex].
    erewrite bind_ok.
    2:{ destruct (category_discount_service_guarded
                    (Api.get_category_discount_master_service_async tenant_id) db code)
          as (_ & _ & _ & _ & _ & Hyes).
        rewrite (Hyes existing Hex). exact Hdel. }
    unfold lift, mbind, M_bind, mret, M_ret.
    by destruct (CategoryDiscountMasterDeleteResponse _ _ _).
Qed.

Lemma delete_endpoints_witness :
  let verify (a b : string) : result unit :=
    if bool_decide (a = b) then Ok () else Raise (Exception "tenant mismatch") in
  let discount_deleted (a b : option string) (c : option float) : result (list pyval) :=
    Ok [of_str a; of_str b; of_float c] in
  let category_deleted (a b c : option string) : result (list pyval) :=
    Ok [of_str a; of_str b; of_str c] in
  verify "tenant-a" "tenant-a" = Ok ()
  ∧ the_store_discount "tenant-a" (Some "D77") Sample.db_full = None
  ∧ ApiDelete.delete_discount verify discount_deleted "D77" "tenant-a" "tenant-a"
      Sample.db_full
    = (Raise (DocumentNotFoundException "discount with code D77 not found"), Sample.db_full)
  ∧ the_category_discount "tenant-a" "C1" Sample.db_full = Some Sample.summer
  ∧ ∃ db',
      ApiDelete.delete_category_discount verify category_deleted "C1" "tenant-a" "tenant-a"
        Sample.db_full
      = (Ok (Api.mkApiResponse true 200
               "Category C1 deleted successfully for tenant_id: tenant-a"
               (Some [VStr "C1"; VStr "S1"; VStr "D10"]) "delete_category_discount"), db')
      ∧ S (length (category_discount_master db')) = 1%nat.
Proof.
  intros verify discount_deleted category_deleted.
  destruct (delete_endpoints verify discount_deleted category_deleted "D77"
              "tenant-a" "tenant-a" Sample.db_full eq_refl) as (Hmissing & _).
  destruct (delete_endpoints verify discount_deleted category_deleted "C1"
              "tenant-a" "tenant-a" Sample.db_full eq_refl) as (_ & _ & _ & Hfound).
  split; [reflexivity|]. split; [reflexivity|]. split; [by apply Hmissing|].
  split; [reflexivity|].
  destruct (Hfound Sample.summer eq_refl) as (db' & Hlen & _ & Hres).
  exists db'. split; [exact Hres | exact Hlen].
Defined.

(** ** What a returned detail document holds *)

(** X8 — every detail document the composition returns is either the
    default document or carries the tenant of the service and the
    requested category code, the discount code of a category discount
    of that tenant and code, and the discount value of a store discount
    the tenant of the store-discount repository has under that discount
    code; its shard key and short description are never filled in; and
    the composition never writes, whether it returns or raises. *)
Theorem detail_is_sound (self : CategoryDiscountMasterService.t) (category_code : string)
    (db : DB) :
  let tenant :=
    CategoryDiscountMasterRepository.tenant_id
      (CategoryDiscountMasterService.category_discount_master_repo self) in
  let store_tenant :=
    DiscountStoreMasterRepository.tenant_id
      (CategoryDiscountMasterService.discount_store_master_repo self) in
  let call :=
    CategoryDiscountMasterService.get_category_discount_detail_by_code_async
      self category_code db in
  call.2 = db
  ∧ ∀ detail,
      call.1 = Ok detail →
      CategoryDiscountDetailDocument.shard_key detail = None
      ∧ CategoryDiscountDetailDocument.description_short detail = None
      ∧ (detail = CategoryDiscountDetailDocument.new
         ∨ (CategoryDiscountDetailDocument.tenant_id detail = Some tenant
            ∧ CategoryDiscountDetailDocument.category_code detail = Some category_code
            ∧ ∃ cd sd,
                cd ∈ category_discount_master db
                ∧ sd ∈ discount_master db
                ∧ category_discount_key cd = (Some tenant, Some category_code)
                ∧ store_discount_key sd
                  = (Some store_tenant, CategoryDiscountMasterDocument.discount_code cd)
                ∧ CategoryDiscountDetailDocument.discount_code detail
                  = CategoryDiscountMasterDocument.discount_code cd
                ∧ CategoryDiscountDetailDocument.discount_value detail
                  = DiscountStoreMasterDocument.discount_value sd)).
Proof.
  intros tenant store_tenant call. unfold call.
  unfold CategoryDiscountMasterService.get_category_discount_detail_by_code_async.
  unfold mbind, M_bind. lookups. fold tenant.
  destruct (the_category_discount tenant category_code db) as [cd|] eqn:Hcd.
  - lookups. fold store_tenant.
    destruct (the_store_discount store_tenant _ db) as [sd|] eqn:Hsd.
    + split; [done|]. intros detail [= <-]. cbn. split; [done|]. split; [done|].
      right. apply find_some in Hcd as [Hcd_in Hcd].
      apply find_some in Hsd as [Hsd_in Hsd].
      rewrite bool_decide_eq_true in Hcd, Hsd.
      destruct Hcd as [Hct Hcc], Hsd as [Hst Hsc].
      split; [done|]. split; [done|]. exists cd, sd.
      split; [by apply list_elem_of_In|]. split; [by apply list_elem_of_In|].
      unfold category_discount_key, store_discount_key. rewrite Hct, Hcc, Hst, Hsc. done.
    + split; [done|]. intros detail [=].
  - split; [done|]. intros detail [= <-]. cbn. split; [done|]. split; [done|]. by left.
Qed.

Lemma detail_is_sound_witness :
  (CategoryDiscountMasterService.get_category_discount_detail_by_code_async
     Sample.service "C1" Sample.db_full).1
  = Ok (CategoryDiscountDetailDocument.mk None (Some "tenant-a") (Some "C1") (Some "S1")
          (Some "D10") (Some "summer sale") None (Some 10%float))
  ∧ CategoryDiscountDetailDocument.description_short
      (CategoryDiscountDetailDocument.mk None (Some "tenant-a") (Some "C1") (Some "S1")
         (Some "D10") (Some "summer sale") None (Some 10%float)) = None.
Proof.
  assert (Hcall :
            (CategoryDiscountMasterService.get_category_discount_detail_by_code_async
               Sample.service "C1" Sample.db_full).1
            = Ok (CategoryDiscountDetailDocument.mk None (Some "tenant-a") (Some "C1")
                    (Some "S1") (Some "D10") (Some "summer sale") None (Some 10%float)))
    by reflexivity.
  split; [exact Hcall|].
  destruct (detail_is_sound Sample.service "C1" Sample.db_full) as [_ Hsound].
  destruct (Hsound _ Hcall) as (_ & Hshort & _). exact Hshort.
Defined.

(** ** The values the validator accepts *)

Lemma SFcompare_antisym (x y : spec_float) :
  SFcompare y x = option_map CompOpp (SFcompare x y).
Proof.
  destruct x as [[]|[]| |[] mx ex], y as [[]|[]| |[] my ey]; cbn; try reflexivity.
  - rewrite (Z.compare_antisym ey ex). destruct (ey ?= ex)%Z; cbn; try reflexivity.
    by rewrite (Pos.compare_cont_antisym mx my Eq).
  - rewrite (Z.compare_antisym ey ex). destruct (ey ?= ex)%Z; cbn; try reflexivity.
    by rewrite (Pos.compare_cont_antisym mx my Eq).
Qed.

Lemma SFcompare_None (x y : spec_float) :
  SFcompare x y = None ↔ x = S754_nan ∨ y = S754_nan.
Proof.
  destruct x as [[]|[]| |[] mx ex], y as [[]|[]| |[] my ey]; cbn;
    split; try discriminate; try tauto; intros [|]; discriminate.
Qed.

Lemma SFcompare_refl (x : spec_float) : x ≠ S754_nan → SFcompare x x = Some Eq.
Proof.
  destruct x as [[]|[]| |[] mx ex]; cbn; try done.
  - rewrite Z.compare_refl. by rewrite Pos.compare_cont_refl.
  - rewrite Z.compare_refl. by rewrite Pos.compare_cont_refl.
Qed.

(** Neither below 0.0 nor above 100.0: a NaN, or a value between the
    two. *)
Lemma neither_below_nor_above (v : float) :
  PrimFloat.ltb v 0 || PrimFloat.ltb 100 v = false ↔
  PrimFloat.is_nan v = true ∨ (PrimFloat.leb 0 v = true ∧ PrimFloat.leb v 100 = true).
Proof.
  unfold is_nan. rewrite !FloatAxioms.ltb_spec, !FloatAxioms.leb_spec, FloatAxioms.eqb_spec.
  unfold SFltb, SFleb, SFeqb.
  set (x := Prim2SF v). set (z := Prim2SF 0). set (h := Prim2SF 100).
  assert (Hz : z ≠ S754_nan) by (vm_compute; discriminate).
  assert (Hh : h ≠ S754_nan) by (vm_compute; discriminate).
  clearbody x z h.
  rewrite (SFcompare_antisym x z), (SFcompare_antisym x h).
  assert (Hcase : x = S754_nan ∨ x ≠ S754_nan).
  { destruct x; (by left) || (by right). }
  destruct Hcase as [->|Hn].
  - cbn. destruct z; cbn; tauto.
  - rewrite (SFcompare_refl _ Hn).
    destruct (SFcompare x z) as [a|] eqn:Ha.
    2:{ apply SFcompare_None in Ha as [|]; done. }
    destruct (SFcompare x h) as [b|] eqn:Hb.
    2:{ apply SFcompare_None in Hb as [|]; done. }
    cbn. destruct a, b; cbn; split; try tauto; try discriminate;
      try (intros [|[]]; discriminate).
Qed.

(** X9 — what the validator of the detail document lets through: an
    absent discount value, a NaN, and every value v with 0.0 <= v and
    v <= 100.0; everything else, the two infinities included, raises the
    validation error.  The two comparisons of the validator are both
    false on a NaN, so a NaN passes. *)
Theorem validator_accepts :
  CategoryDiscountDetailDocument.validate_discount_value None = Ok None
  ∧ (∀ v : float,
       CategoryDiscountDetailDocument.validate_discount_value (Some v) = Ok (Some v)
       ↔ PrimFloat.is_nan v = true
         ∨ (PrimFloat.leb 0 v = true ∧ PrimFloat.leb v 100 = true))
  ∧ (∀ v : float,
       CategoryDiscountDetailDocument.validate_discount_value (Some v)
       = Raise (ValidationError "discount_value must be between 0.00 and 100.00")
       ↔ ¬ (PrimFloat.is_nan v = true
            ∨ (PrimFloat.leb 0 v = true ∧ PrimFloat.leb v 100 = true)))
  ∧ CategoryDiscountDetailDocument.validate_discount_value (Some nan) = Ok (Some nan)
  ∧ (∀ v : float,
       v ∈ [infinity; neg_infinity] →
       CategoryDiscountDetailDocument.validate_discount_value (Some v)
       = Raise (ValidationError "discount_value must be between 0.00 and 100.00")).
Proof.
  split; [reflexivity|]. split; [|split; [|split]].
  - intros v. rewrite <- neither_below_nor_above.
    unfold CategoryDiscountDetailDocument.validate_discount_value.
    destruct (PrimFloat.ltb v 0 || PrimFloat.ltb 100 v); split; done.
  - intros v. rewrite <- neither_below_nor_above.
    unfold CategoryDiscountDetailDocument.validate_discount_value.
    destruct (PrimFloat.ltb v 0 || PrimFloat.ltb 100 v); split; done.
  - reflexivity.
  - intros v Hv. apply elem_of_cons in Hv as [->|Hv]; [reflexivity|].
    apply elem_of_cons in Hv as [->|Hv]; [reflexivity|]. by apply elem_of_nil in Hv.
Qed.

Lemma validator_accepts_witness :
  infinity ∈ [infinity; neg_infinity]
  ∧ CategoryDiscountDetailDocument.validate_discount_value (Some infinity)
    = Raise (ValidationError "discount_value must be between 0.00 and 100.00")
  ∧ CategoryDiscountDetailDocument.validate_discount_value (Some nan) = Ok (Some nan).
Proof.
  destruct validator_accepts as (_ & _ & _ & Hnan & Hinf).
  assert (Hin : infinity ∈ [infinity; neg_infinity]) by left.
  split; [exact Hin|]. split; [exact (Hinf infinity Hin) | exact Hnan].
Defined.

(** ** More on the list cache of the cart-side repository *)

Section CacheMore.
Import CategoryDiscountDetailWebRepository.
Variable to_lower_camel : string → string.
Variable client_get : Request → Outcome.

(** The request a lookup sends on a miss. *)
Lemma lookup_miss (st : State) (category_code : string) :
  let cached := default [] (category_discount_detail_documents (self st)) in
  let rq :=
    mkRequest
      ("/tenants/" +:+ tenant_id (self st) +:+ "/category_discounts/"
         +:+ category_code +:+ "/detail")
      [("terminal_id", terminal_id (terminal_info (self st)))]
      [("X-API-KEY", api_key (terminal_info (self st)))] in
  let st1 := mkState (set_cache (Some cached) (self st)) (sent st ++ [rq]) in
  List.find
    (λ item, bool_decide
       (CategoryDiscountDetailsDocument.category_code item = Some category_code)) cached
  = None →
  get_category_discount_detail_by_code_async to_lower_camel client_get category_code st
  = match client_get rq with
    | Failure status_code =>
        (Raise (if bool_decide (status_code = Some 404)
                then NotFoundException
                       ("category discount detail not found for id " +:+ category_code)
                else RepositoryException ("Request error for id " +:+ category_code)), st1)
    | Body None =>
        (Raise (TypeError "argument after ** must be a mapping, not NoneType"), st1)
    | Body (Some data) =>
        match CategoryDiscountDetailsDocument.init to_lower_camel data with
        | Ok fetched =>
            (Ok fetched,
             mkState (set_cache (Some (cached ++ [fetched])) (self st)) (sent st ++ [rq]))
        | Raise e => (Raise e, st1)
        end
    end.
Proof.
  intros cached rq st1 Hfind.
  unfold get_category_discount_detail_by_code_async, ensure_cache, send, append_to_cache.
  unfold mbind, M_bind, mret, M_ret, query, lift, raise.
  fold cached. rewrite Hfind.
  destruct st as [r sent0]. destruct r as [te sc ti cc docs bu].
  subst cached rq st1. cbn in *.
  destruct (client_get _) as [[data|]|status_code]; cbn; try reflexivity.
  destruct (bool_decide (status_code = Some 404)); reflexivity.
Qed.
End CacheMore.



(** X11 — the cache only grows: whatever a lookup does, the entries
    cached before stay where they are and at most one entry is appended
    behind them; at most one request is sent, and none exactly when the
    code was on a cached document; a document the lookup returns is in
    the cache afterwards; and the lookup leaves tenant, store, terminal
    and base URL of the repository alone. *)
Theorem cache_only_grows (to_lower_camel : string → string)
    (client_get : CategoryDiscountDetailWebRepository.Request
                  → CategoryDiscountDetailWebRepository.Outcome)
    (st : CategoryDiscountDetailWebRepository.State) (category_code : string) :
  let call :=
    CategoryDiscountDetailWebRepository.get_category_discount_detail_by_code_async
      to_lower_camel client_get category_code st in
  let this := CategoryDiscountDetailWebRepository.self st in
  let this' := CategoryDiscountDetailWebRepository.self call.2 in
  let before :=
    default [] (CategoryDiscountDetailWebRepository.category_discount_detail_documents this) in
  ∃ added requests,
    CategoryDiscountDetailWebRepository.category_discount_detail_documents this'
    = Some (before ++ added)
    ∧ CategoryDiscountDetailWebRepository.sent call.2
      = CategoryDiscountDetailWebRepository.sent st ++ requests
    ∧ (length added ≤ length requests ≤ 1)%nat
    ∧ (∀ doc, call.1 = Ok doc → doc ∈ before ++ added)
    ∧ (requests = [] ↔
       is_Some
         (List.find
            (λ item, bool_decide
               (CategoryDiscountDetailsDocument.category_code item = Some category_code))
            before))
    ∧ CategoryDiscountDetailWebRepository.tenant_id this'
      = CategoryDiscountDetailWebRepository.tenant_id this
    ∧ CategoryDiscountDetailWebRepository.store_code this'
      = CategoryDiscountDetailWebRepository.store_code this
    ∧ CategoryDiscountDetailWebRepository.terminal_info this'
      = CategoryDiscountDetailWebRepository.terminal_info this
    ∧ CategoryDiscountDetailWebRepository.base_url this'
      = CategoryDiscountDetailWebRepository.base_url this.
Proof.
  intros call this this' before.
  destruct (List.find
              (λ item, bool_decide
                 (CategoryDiscountDetailsDocument.category_code item = Some category_code))
              before) as [item|] eqn:Hfind.
  - assert (Hdocs : CategoryDiscountDetailWebRepository.category_discount_detail_documents
                      this = Some before).
    { unfold before in *.
      destruct (CategoryDiscountDetailWebRepository.category_discount_detail_documents this);
        [done | discriminate Hfind]. }
    pose proof (cache_hit to_lower_camel client_get st category_code before item Hdocs Hfind)
      as Hrun.
    exists [], []. unfold this', call. rewrite Hrun. cbn. fold this.
    rewrite !app_nil_r. split; [done|]. split; [done|]. split; [lia|].
    split.
    { intros doc [= <-]. apply find_some in Hfind as [Hin _]. by apply list_elem_of_In. }
    split; [split; eauto|]. done.
  - pose proof (lookup_miss to_lower_camel client_get st category_code Hfind) as Hrun.
    cbv zeta in Hrun. fold this before in Hrun.
    set (rq := CategoryDiscountDetailWebRepository.mkRequest _ _ _) in Hrun.
    assert (Hne : [rq] = [] ↔ is_Some (@None CategoryDiscountDetailsDocument.t)).
    { split; [discriminate | by intros [? ?]]. }
    destruct (client_get rq) as [[data|]|status_code].
    + destruct (CategoryDiscountDetailsDocument.init to_lower_camel data) as [fetched|e].
      * exists [fetched], [rq]. unfold this', call. rewrite Hrun. cbn.
        split; [by destruct this|]. split; [done|]. split; [lia|].
        split; [intros doc [= <-]; apply elem_of_app; right; by left|].
        split; [done|]. by destruct this.
      * exists [], [rq]. unfold this', call. rewrite Hrun. cbn. rewrite app_nil_r.
        split; [by destruct this|]. split; [done|]. split; [lia|].
        split; [by intros doc [=]|]. split; [done|]. by destruct this.
    + exists [], [rq]. unfold this', call. rewrite Hrun. cbn. rewrite app_nil_r.
      split; [by destruct this|]. split; [done|]. split; [lia|].
      split; [by intros doc [=]|]. split; [done|]. by destruct this.
    + exists [], [rq]. unfold this', call. rewrite Hrun. cbn. rewrite app_nil_r.
      split; [by destruct this|]. split; [done|]. split; [lia|].
      split; [by intros doc [=]|]. split; [done|]. by destruct this.
Qed.

Lemma cache_only_grows_witness :
  let call :=
    CategoryDiscountDetailWebRepository.get_category_discount_detail_by_code_async
      SampleData.camel SampleData.summer_server "C1" SampleData.cart in
  call.1 = Ok SampleData.summer_details
  ∧ SampleData.summer_details
    ∈ default []
        (CategoryDiscountDetailWebRepository.category_discount_detail_documents
           (CategoryDiscountDetailWebRepository.self call.2)).
Proof.
  intros call.
  assert (Hcall : call.1 = Ok SampleData.summer_details) by (vm_compute; reflexivity).
  split; [exact Hcall|].
  destruct (cache_only_grows SampleData.camel SampleData.summer_server SampleData.cart "C1")
    as (added & requests & Hcache & _ & _ & Hin & _).
  fold call in Hcache, Hin. rewrite Hcache. cbn. apply (Hin _ Hcall).
Defined.

(** X12 — a cache set from outside: after
    [set_category_discount_detail_documents] with a list, a lookup of a
    code that is on one of the listed documents returns the first such
    document and sends no request; the list replaces what was cached
    before. *)
Theorem preloaded_cache (to_lower_camel : string → string)
    (client_get : CategoryDiscountDetailWebRepository.Request
                  → CategoryDiscountDetailWebRepository.Outcome)
    (st : CategoryDiscountDetailWebRepository.State)
    (docs : list CategoryDiscountDetailsDocument.t) (category_code : string)
    (item : CategoryDiscountDetailsDocument.t) :
  List.find
    (λ item, bool_decide
       (CategoryDiscountDetailsDocument.category_code item = Some category_code)) docs
  = Some item →
  ∃ st1,
    CategoryDiscountDetailWebRepository.set_category_discount_detail_documents (Some docs) st
    = (Ok (), st1)
    ∧ CategoryDiscountDetailWebRepository.category_discount_detail_documents
        (CategoryDiscountDetailWebRepository.self st1) = Some docs
    ∧ CategoryDiscountDetailWebRepository.sent st1 = CategoryDiscountDetailWebRepository.sent st
    ∧ CategoryDiscountDetailWebRepository.get_category_discount_detail_by_code_async
        to_lower_camel client_get category_code st1 = (Ok item, st1)
    ∧ item ∈ docs
    ∧ CategoryDiscountDetailsDocument.category_code item = Some category_code.
Proof.
  intros Hfind. eexists. split; [reflexivity|]. cbn.
  split; [done|]. split; [done|]. split.
  - by apply (cache_hit _ _ _ _ docs).
  - apply find_some in Hfind as [Hin Hc]. rewrite bool_decide_eq_true in Hc.
    split; [by apply list_elem_of_In | done].
Qed.

Lemma preloaded_cache_witness :
  ∃ st1,
    CategoryDiscountDetailWebRepository.set_category_discount_detail_documents
      (Some [SampleData.no_details; SampleData.summer_details]) SampleData.cart = (Ok (), st1)
    ∧ CategoryDiscountDetailWebRepository.get_category_discount_detail_by_code_async
        SampleData.camel SampleServers.unreachable_server "C1" st1
      = (Ok SampleData.summer_details, st1)
    ∧ CategoryDiscountDetailWebRepository.sent st1 = [].
Proof.
  destruct (preloaded_cache SampleData.camel SampleServers.unreachable_server SampleData.cart
              [SampleData.no_details; SampleData.summer_details] "C1"
              SampleData.summer_details eq_refl)
    as (st1 & Hset & _ & Hsent & Hget & _).
  exists st1. split; [exact Hset|]. split; [exact Hget | exact Hsent].
Defined.

(** ** Listing through the service *)

Lemma tenant_filter_matches (tenant : string) (d : DiscountStoreMasterDocument.t) :
  AbstractRepository.matches (<["tenant_id" := VStr tenant]> ∅) d = true
  ↔ DiscountStoreMasterDocument.tenant_id d = Some tenant.
Proof.
  rewrite matches_spec. split.
  - intros H. specialize (H "tenant_id" (VStr tenant) (lookup_insert_eq _ _ _)).
    change (doc_get "tenant_id" d) with (of_str (DiscountStoreMasterDocument.tenant_id d))
      in H.
    by apply pyval_eqb_of_str.
  - intros Ht k v Hk. apply lookup_insert_Some in Hk as [[<- <-]|[_ Hk]]; [|done].
    change (doc_get "tenant_id" d) with (of_str (DiscountStoreMasterDocument.tenant_id d)).
    by apply pyval_eqb_of_str.
Qed.

(** X13 — listing store discounts through the service: both list calls
    leave the database alone and return the same page; every document on
    it is a document of the tenant; the total count is the number of the
    tenant's documents in the collection, whatever those of other
    tenants; and page 1 with a limit of at least that number lists all
    of them, each once. *)
Theorem service_lists_own_documents (self : DiscountStoreMasterService.t) (db : DB)
    (limit page : Z) (sort : list (string * Z)) :
  let tenant :=
    DiscountStoreMasterRepository.tenant_id
      (DiscountStoreMasterService.discount_store_master_repo self) in
  let own :=
    filter (λ d, DiscountStoreMasterDocument.tenant_id d = Some tenant) (discount_master db) in
  ∃ res,
    DiscountStoreMasterService.get_discount_store_paginated_async self limit page sort db
    = (Ok res, db)
    ∧ DiscountStoreMasterService.get_discount_store_async self limit page sort db
      = (Ok (AbstractRepository.data res), db)
    ∧ AbstractRepository.metadata res
      = AbstractRepository.mkMetadata (Z.of_nat (length own)) page limit
    ∧ (∀ d, d ∈ AbstractRepository.data res → d ∈ own)
    ∧ (page = 1 → Z.of_nat (length own) ≤ limit → AbstractRepository.data res ≡ₚ own).
Proof.
  intros tenant own.
  assert (Hown : filter (λ d, AbstractRepository.matches (<["tenant_id" := VStr tenant]> ∅) d
                              = true) (discount_master db) = own).
  { apply list_filter_iff. intros d. apply tenant_filter_matches. }
  eexists. split.
  { unfold DiscountStoreMasterService.get_discount_store_paginated_async,
      DiscountStoreMasterRepository.get_discount_store_by_filter_paginated_async,
      DiscountStoreMasterRepository.collection, zoom, query.
    fold tenant. by destruct db. }
  split.
  { unfold DiscountStoreMasterService.get_discount_store_async,
      DiscountStoreMasterRepository.get_discount_store_by_filter_async,
      DiscountStoreMasterRepository.collection, zoom, query.
    fold tenant. by destruct db. }
  cbn [discount_master].
  split.
  { unfold AbstractRepository.get_paginated_list_async. cbn. by rewrite Hown. }
  rewrite data_paginated. split.
  - intros d Hd. apply page_matches in Hd as [Hin Hm].
    unfold own. apply list_elem_of_filter. split; [|done]. by apply tenant_filter_matches.
  - intros -> Hlimit. unfold AbstractRepository.get_list_async_with_sort_and_paging.
    rewrite Hown. change (Z.to_nat ((1 - 1) * limit)) with 0%nat. rewrite drop_0.
    rewrite take_ge by (rewrite sorted_Permutation; lia).
    apply sorted_Permutation.
Qed.

Lemma service_lists_own_documents_witness :
  ∃ res,
    DiscountStoreMasterService.get_discount_store_paginated_async Sample.discounts 100 1
      [("discount_code", 1)] SampleData.db_four = (Ok res, SampleData.db_four)
    ∧ AbstractRepository.metadata res = AbstractRepository.mkMetadata 4 1 100
    ∧ length (AbstractRepository.data res) = 4%nat.
Proof.
  destruct (service_lists_own_documents Sample.discounts SampleData.db_four 100 1
              [("discount_code", 1)]) as (res & Hres & _ & Hmeta & _ & Hall).
  exists res. split; [exact Hres|]. split; [exact Hmeta|].
  rewrite (Hall eq_refl); [reflexivity|]. vm_compute. discriminate.
Defined.
